(** * Return over a lookback window, corrected for renames and splits

    A shallow embedding of [main.py]: the pivot of the long price file into
    a date-indexed table, the stitching of a renamed ticker's two columns,
    the split adjustment and the return over the lookback window.

    Numbers.  pandas holds prices as float64.  A finite float64 is the
    rational it denotes ([Qc], canonical fractions, so that equal numbers
    are equal terms); minus zero, the infinities and NaN are values of
    their own.  The multiplication, division and subtraction of lines 150,
    153 and 163 take the exact result and round it to the nearest
    float64, ties to the even significand, overflowing to an infinity, as
    IEEE 754 does; [Binary64] compares them with the machine's floats.
    A price or a quantity of a file is the number that [read_csv] parsed;
    what is proved of every rational holds of it.

    Dates.  A date is its proleptic Gregorian ordinal, as
    [datetime.date.toordinal] gives it; [timedelta(days=n)] adds [n]. *)

From Stdlib Require Import ZArith List Bool String Lia.
From Stdlib Require Import QArith Qcanon Qround.
From Stdlib Require Floats.
Import ListNotations.

Local Open Scope string_scope.
Local Open Scope Z_scope.

(** ** Dates *)

Module Date.

Definition date := Z.

Definition is_leap (y : Z) : bool :=
  (y mod 4 =? 0) && (negb (y mod 100 =? 0) || (y mod 400 =? 0)).

Definition days_before_year (y : Z) : Z :=
  let y1 := y - 1 in y1 * 365 + y1 / 4 - y1 / 100 + y1 / 400.

Definition days_in_month (y m : Z) : Z :=
  if m =? 2 then (if is_leap y then 29 else 28)
  else if (m =? 4) || (m =? 6) || (m =? 9) || (m =? 11) then 30
  else 31.

Fixpoint days_before_month_aux (y : Z) (k : nat) : Z :=
  match k with
  | O => 0
  | S k' => days_before_month_aux y k' + days_in_month y (Z.of_nat k)
  end.

Definition days_before_month (y m : Z) : Z :=
  days_before_month_aux y (Z.to_nat (m - 1)).

(** [datetime.date(y, m, d).toordinal()] *)
Definition ymd (y m d : Z) : date :=
  days_before_year y + days_before_month y m + d.

(** [d + timedelta(days=n)] *)
Definition add_days (d : date) (n : Z) : date := d + n.

End Date.

Import Date.

(** ** float64 values *)

Inductive fnum : Type :=
| Fin (q : Qc)
| NegZero
| Inf (negative : bool)
| NaN.

Definition qc_of_Z (z : Z) : Qc := Q2Qc (inject_Z z).

Definition qis0 (q : Qc) : bool := Qc_eq_bool q (qc_of_Z 0).

Definition qneg (q : Qc) : bool :=
  match Qccompare q (qc_of_Z 0) with Lt => true | _ => false end.

(** Nearest integer, ties to the even one ([numpy.rint]). *)
Definition rint (q : Q) : Z :=
  let n := Qfloor q in
  match Qcompare (q - inject_Z n) (1 # 2) with
  | Lt => n
  | Gt => n + 1
  | Eq => if Z.even n then n else n + 1
  end.

Definition pow2 (e : Z) : Q := Qpower 2 e.

(** The float64 nearest to a positive rational: a significand of 53 bits
    ([2^52 <= m < 2^53]) times [2^e], the exponent no lower than -1074
    (below, the significand is shorter: subnormal numbers), the significand
    rounded to nearest, ties to even; from [2^1024] on, infinity. *)
Definition round_pos (q : Q) : fnum :=
  let k := Z.log2 (Qnum q) - Z.log2 (Zpos (Qden q)) in
  let lb := if Qle_bool (pow2 k) q then k else k - 1 in
  let e := Z.max (lb - 52) (-1074) in
  let m := rint (q / pow2 e) in
  if m =? 0 then Fin (qc_of_Z 0)
  else if (971 <? e) || ((e =? 971) && (m =? 2 ^ 53)) then Inf false
  else Fin (Q2Qc (inject_Z m * pow2 e)).

Definition signed_zero (negative : bool) : fnum :=
  if negative then NegZero else Fin (qc_of_Z 0).

Definition fopp (x : fnum) : fnum :=
  match x with
  | Fin q => if qis0 q then NegZero else Fin (- q)%Qc
  | NegZero => Fin (qc_of_Z 0)
  | Inf s => Inf (negb s)
  | NaN => NaN
  end.

(** The float64 that an exact result is rounded to. *)
Definition rnd64 (q : Qc) : fnum :=
  match Qccompare q (qc_of_Z 0) with
  | Eq => Fin (qc_of_Z 0)
  | Gt => round_pos q
  | Lt => fopp (round_pos (- q))
  end.

(** The sign bit, the test for a zero and the rational of a finite value. *)
Definition sign (x : fnum) : bool :=
  match x with
  | Fin q => qneg q
  | NegZero => true
  | Inf s => s
  | NaN => false
  end.

Definition is_zero (x : fnum) : bool :=
  match x with
  | Fin q => qis0 q
  | NegZero => true
  | _ => false
  end.

Definition mag (x : fnum) : Qc :=
  match x with
  | Fin q => q
  | _ => qc_of_Z 0
  end.

(** [x * y] on float64. *)
Definition fmul (x y : fnum) : fnum :=
  match x, y with
  | NaN, _ | _, NaN => NaN
  | Inf s, _ => if is_zero y then NaN else Inf (xorb s (sign y))
  | _, Inf s => if is_zero x then NaN else Inf (xorb (sign x) s)
  | _, _ =>
      if is_zero x || is_zero y then signed_zero (xorb (sign x) (sign y))
      else rnd64 (mag x * mag y)%Qc
  end.

(** [x / y] on float64 (numpy: a division by zero gives an infinity or
    NaN and a warning, not an exception). *)
Definition fdiv (x y : fnum) : fnum :=
  match x, y with
  | NaN, _ | _, NaN => NaN
  | Inf _, Inf _ => NaN
  | Inf s, _ => Inf (xorb s (sign y))
  | _, Inf s => signed_zero (xorb (sign x) s)
  | _, _ =>
      if is_zero y then (if is_zero x then NaN else Inf (xorb (sign x) (sign y)))
      else if is_zero x then signed_zero (xorb (sign x) (sign y))
      else rnd64 (mag x / mag y)%Qc
  end.

(** [x - y] on float64. *)
Definition fsub (x y : fnum) : fnum :=
  match x, y with
  | NaN, _ | _, NaN => NaN
  | Inf s, Inf s' => if Bool.eqb s s' then NaN else Inf s
  | Inf s, _ => Inf s
  | _, Inf s => Inf (negb s)
  | NegZero, NegZero => Fin (qc_of_Z 0)
  | NegZero, Fin b => if qis0 b then NegZero else rnd64 (- b)%Qc
  | Fin a, NegZero => Fin a
  | Fin a, Fin b => rnd64 (a - b)%Qc
  end.

(** [numpy.rint] on float64: the nearest integer, ties to even, with the
    sign of its argument when it is zero. *)
Definition frint (x : fnum) : fnum :=
  match x with
  | Fin q =>
      let z := rint q in
      if z =? 0 then signed_zero (qneg q) else Fin (qc_of_Z z)
  | other => other
  end.

(** [round(x, 2)] on a numpy float64: the product by 100, [rint], the
    quotient by 100, each on float64. *)
Definition round2 (x : fnum) : fnum :=
  fdiv (frint (fmul x (Fin (qc_of_Z 100)))) (Fin (qc_of_Z 100)).

Definition is_finite (x : fnum) : bool :=
  match x with Fin _ | NegZero => true | _ => false end.

(** ** The machine's floats

    The operations above against the float64 of the machine, on a sample
    of numbers of every kind. *)

Module Binary64.

Import PrimFloat FloatOps SpecFloat.

(** The value of a machine float. *)
Definition of_prim (f : float) : fnum :=
  match Prim2SF f with
  | S754_zero s => signed_zero s
  | S754_infinity s => Inf s
  | S754_nan => NaN
  | S754_finite s m e =>
      let v := (inject_Z (Zpos m) * pow2 e)%Q in
      Fin (Q2Qc (if s then - v else v))
  end.

Definition same (x y : fnum) : bool :=
  match x, y with
  | Fin a, Fin b => Qc_eq_bool a b
  | NegZero, NegZero => true
  | Inf s, Inf s' => Bool.eqb s s'
  | NaN, NaN => true
  | _, _ => false
  end.

Definition samples : list float :=
  [0; 1; 3; 32; 31; 800; 803; 0x1.9180000000000p+8; 100;
   0x1.5666666666666p+1; 0x1.999999999999ap-4; 0x1.0b7ffffffffffp+8;
   0x1.7e43c8800759cp+996; 0x0.0000000000001p-1022;
   0x0.03739a252b281p-1022; 0x1.0000000000000p-1022;
   0x1.fffffffffffffp+1023; 0x1.0000000000001p+0;
   infinity; nan]%float.

Definition agree (op : fnum -> fnum -> fnum) (prim : float -> float -> float)
    (x y : float) : bool :=
  same (op (of_prim x) (of_prim y)) (of_prim (prim x y)).

(** Every pair of samples, with either sign. *)
Definition agree_on_samples (op : fnum -> fnum -> fnum)
    (prim : float -> float -> float) : bool :=
  forallb (fun x =>
    forallb (fun y =>
      agree op prim x y && agree op prim (- x)%float y &&
      agree op prim x (- y)%float && agree op prim (- x)%float (- y)%float)
      samples)
    samples.

(** [round(x, 2)] of a numpy float: scale by 100, round to the nearest
    integer, ties to the even one, scale back.  A sample of floats, each
    with the integer that rounding the machine's [x * 100] gives. *)
Definition round2_samples : list (float * float) :=
  [(0x1.5666666666666p+1, 268); (0x1.8000000000000p-2, 38);
   (0x1.0000000000000p-3, 12); ((-0x1.9000000000000p+1), -312);
   (0x1.7ffffffffffffp-2, 37); (0x1.5180000000000p+6, 8438);
   (0x1.e79e79e79e780p-1, 95); (0x1.f5f5f5f5f5f72p+1, 392);
   ((-0x1.0624dd2f1a9fcp-8), -0); (0x1.e240c8f5c28f6p+16, 12345678);
   (0x1.47ae147ae147bp-8, 0); (0x1.eb851eb851eb8p-7, 2);
   ((-0x1.518a3d70a3d71p+6), -8438)]%float.

Definition round2_agrees (xz : float * float) : bool :=
  let (x, z) := xz in
  same (frint (fmul (of_prim x) (Fin (qc_of_Z 100)))) (of_prim z) &&
  same (round2 (of_prim x)) (of_prim (z / 100)%float).

End Binary64.

(** ** Outcomes: the exceptions the script can end with *)

Inductive error : Type :=
| ValueError_price_data_not_found (ticker : string)   (* line 86 *)
| ValueError_invalid_timeframe (timeframe : string)   (* line 99 *)
| KeyError (column : string)                          (* [df[ticker]] on a missing column *)
| IndexError.                                         (* [.iloc[..]] or [.values[0]] on nothing *)

Inductive result (A : Type) : Type :=
| Ok (a : A)
| Err (e : error).

Arguments Ok {A} a.
Arguments Err {A} e.

Definition bind {A B : Type} (r : result A) (k : A -> result B) : result B :=
  match r with
  | Ok a => k a
  | Err e => Err e
  end.

Notation "x <- r ;; k" := (bind r (fun x => k))
  (at level 61, r at next level, right associativity).

Definition is_ok {A : Type} (r : result A) : bool :=
  match r with Ok _ => true | Err _ => false end.

(** The spec calls [TickerNotFound] the failure on a ticker that has no
    column in the price table.  The script raises it as a [ValueError] for
    the queried ticker (line 86) and pandas raises a [KeyError] for the
    other ticker of a rename (lines 61 and 62). *)
Definition TickerNotFound (e : error) (t : string) : Prop :=
  e = ValueError_price_data_not_found t \/ e = KeyError t.

(** ** The three source tables *)

(** A row of [prices.csv]: columns [date], [ticker], [close_price], with a
    date that parses and a close price that is a finite number: the
    float64 that [read_csv] made of the field. *)
Record PriceRow : Type := mkPriceRow {
  row_date : date;
  row_ticker : string;
  close_price : Qc
}.

(** A row of [ticker_changes.csv]. *)
Module Change.
Record t : Type := mk {
  old_ticker : string;
  new_ticker : string;
  effective_date : date
}.
End Change.

(** A row of [splits.csv]. *)
Module Split.
Record t : Type := mk {
  ticker : string;
  effective_date : date;
  from_quantity : Qc;
  to_quantity : Qc
}.
End Split.

(** ** Series and the pivoted table *)

(** A [pd.Series] with a date index: its (label, value) pairs in position
    order. *)
Definition Series : Type := list (date * fnum).

(** [s[start:]] on a sorted date index: from the first position whose
    label is not before [start]. *)
Fixpoint slice_from (s : Series) (start : date) : Series :=
  match s with
  | [] => []
  | (d, p) :: rest => if d <? start then slice_from rest start else s
  end.

(** [s[:stop]] on a sorted date index: up to the last position whose label
    is not after [stop] (label slices include their end). *)
Fixpoint slice_to (s : Series) (stop : date) : Series :=
  match s with
  | [] => []
  | (d, p) :: rest => if d <=? stop then (d, p) :: slice_to rest stop else []
  end.

(** [s.iloc[0]] and [s.iloc[-1]] *)
Definition iloc_first (s : Series) : result fnum :=
  match s with
  | [] => Err IndexError
  | (_, p) :: _ => Ok p
  end.

Fixpoint iloc_last (s : Series) : result fnum :=
  match s with
  | [] => Err IndexError
  | [(_, p)] => Ok p
  | _ :: rest => iloc_last rest
  end.

(** [a.values[0]] *)
Definition values0 {A : Type} (l : list A) : result A :=
  match l with
  | [] => Err IndexError
  | x :: _ => Ok x
  end.

Definition key : Type := (date * string)%type.

Definition key_eqb (k1 k2 : key) : bool :=
  (fst k1 =? fst k2) && String.eqb (snd k1) (snd k2).

(** The groups of [pivot_table]: for each (date, ticker) met so far, the
    sum and the number of its close prices. *)
Fixpoint accumulate (k : key) (v : Qc) (groups : list (key * (Qc * nat)))
  : list (key * (Qc * nat)) :=
  match groups with
  | [] => [(k, (v, 1%nat))]
  | (k', (s, n)) :: rest =>
      if key_eqb k k' then (k', ((s + v)%Qc, S n)) :: rest
      else (k', (s, n)) :: accumulate k v rest
  end.

Definition group_rows (rows : list PriceRow) : list (key * (Qc * nat)) :=
  fold_left (fun g r => accumulate (row_date r, row_ticker r) (close_price r) g)
            rows [].

(** [aggfunc] is left at its default, the mean: the sum over the count,
    which for the one row per cell of a well-formed file is the close of
    that row.  The sum and the quotient are taken as they are, without the
    rounding that several rows of one cell can bring. *)
Definition mean (sum : Qc) (count : nat) : fnum :=
  match count with
  | O => NaN
  | S _ => Fin (sum / qc_of_Z (Z.of_nat count))%Qc
  end.

Fixpoint insert_date (d : date) (l : list date) : list date :=
  match l with
  | [] => [d]
  | x :: rest =>
      if d <? x then d :: l
      else if d =? x then l
      else x :: insert_date d rest
  end.

Fixpoint insert_ticker (t : string) (l : list string) : list string :=
  match l with
  | [] => [t]
  | x :: rest =>
      if String.ltb t x then t :: l
      else if String.eqb t x then l
      else x :: insert_ticker t rest
  end.

(** The wide table: the sorted distinct dates, the sorted distinct tickers
    and the cells that hold a price; every other cell is NaN. *)
Record DataFrame : Type := mkDataFrame {
  df_index : list date;
  df_columns : list string;
  df_cells : list (key * fnum)
}.

Fixpoint lookup_cell (k : key) (cells : list (key * fnum)) : fnum :=
  match cells with
  | [] => NaN
  | (k', v) :: rest => if key_eqb k k' then v else lookup_cell k rest
  end.

Definition cell (df : DataFrame) (d : date) (t : string) : fnum :=
  lookup_cell (d, t) (df_cells df).

(** [t in df.columns] *)
Definition has_column (df : DataFrame) (t : string) : bool :=
  existsb (String.eqb t) (df_columns df).

(** [df[t]] *)
Definition getitem (df : DataFrame) (t : string) : result Series :=
  if has_column df t
  then Ok (map (fun d => (d, cell df d t)) (df_index df))
  else Err (KeyError t).

(** [df[:stop]]: the rows up to [stop]; the columns stay. *)
Fixpoint index_to (idx : list date) (stop : date) : list date :=
  match idx with
  | [] => []
  | d :: rest => if d <=? stop then d :: index_to rest stop else []
  end.

Definition df_slice_to (df : DataFrame) (stop : date) : DataFrame :=
  mkDataFrame (index_to (df_index df) stop) (df_columns df) (df_cells df).

(** Lines 31-39: [pd.pivot_table(values='close_price', index=['date'],
    columns='ticker')] and the conversion of the index to dates.  The rows
    are those of a file that was read and passed the header check; the
    dates of the file are ISO strings, which sort as the dates they
    denote. *)
Definition transform_prices_to_DataFrame (prices : list PriceRow) : DataFrame :=
  mkDataFrame
    (fold_left (fun idx r => insert_date (row_date r) idx) prices [])
    (fold_left (fun cols r => insert_ticker (row_ticker r) cols) prices [])
    (map (fun g => (fst g, mean (fst (snd g)) (snd (snd g)))) (group_rows prices)).

(** ** Renames *)

(** Lines 60-63. *)
Definition combine_changed_tickers (df_prices : DataFrame)
    (old_ticker new_ticker : string) (effective_date : date) : result Series :=
  let df_all_prices := df_prices in
  col_old <- getitem df_all_prices old_ticker ;;
  let df_series_old_ticker := removelast (slice_to col_old effective_date) in
  col_new <- getitem df_all_prices new_ticker ;;
  let df_series_new_ticker := slice_from col_new effective_date in
  Ok (df_series_old_ticker ++ df_series_new_ticker)%list.

(** What lines 121-139 find out about the queried ticker. *)
Inductive identity : Type :=
| Unchanged (ticker : string)
| RenamedForward (old_ticker new_ticker : string) (effective_date : date)
| RenamedBackward (old_ticker new_ticker : string) (effective_date : date).

Definition is_old (input_ticker : string) (r : Change.t) : bool :=
  String.eqb (Change.old_ticker r) input_ticker.

Definition is_new (input_ticker : string) (r : Change.t) : bool :=
  String.eqb (Change.new_ticker r) input_ticker.

Definition resolve (input_ticker : string) (df_ticker_changes : list Change.t)
  : result identity :=
  if existsb (is_old input_ticker) df_ticker_changes then
    let df_ticker_changes_filtered := filter (is_old input_ticker) df_ticker_changes in
    effective_date_ticker <- values0 (map Change.effective_date df_ticker_changes_filtered) ;;
    new_ticker <- values0 (map Change.new_ticker df_ticker_changes_filtered) ;;
    Ok (RenamedForward input_ticker new_ticker effective_date_ticker)
  else if existsb (is_new input_ticker) df_ticker_changes then
    let df_ticker_changes_filtered := filter (is_new input_ticker) df_ticker_changes in
    effective_date_ticker <- values0 (map Change.effective_date df_ticker_changes_filtered) ;;
    old_ticker <- values0 (map Change.old_ticker df_ticker_changes_filtered) ;;
    Ok (RenamedBackward old_ticker input_ticker effective_date_ticker)
  else Ok (Unchanged input_ticker).

(** [old_ticker, new_ticker] after the branch. *)
Definition chain (id : identity) : string * string :=
  match id with
  | Unchanged t => (t, t)
  | RenamedForward o n _ | RenamedBackward o n _ => (o, n)
  end.

(** [df_series] after the branch. *)
Definition stitched (df_prices : DataFrame) (id : identity) : result Series :=
  match id with
  | Unchanged t => getitem df_prices t
  | RenamedForward o n e | RenamedBackward o n e =>
      combine_changed_tickers df_prices o n e
  end.

(** ** Splits *)

(** [list(set([old_ticker, new_ticker]))]: one ticker when both are the
    same, else both, in the order Python's string hashing gives them in
    this run ([order]). *)
Definition tickers (order : bool) (old_ticker new_ticker : string) : list string :=
  if String.eqb old_ticker new_ticker then [old_ticker]
  else if order then [old_ticker; new_ticker]
  else [new_ticker; old_ticker].

Definition is_split_of (t : string) (r : Split.t) : bool :=
  String.eqb (Split.ticker r) t.

(** Line 153: [np.where(index >= effective_date_split, series * split_ratio,
    series)]. *)
Definition where_on_or_after (effective_date_split : date) (split_ratio : fnum)
    (df_series : Series) : Series :=
  map (fun dp => (fst dp,
                  if effective_date_split <=? fst dp
                  then fmul (snd dp) split_ratio
                  else snd dp))
      df_series.

(** The body of the loop of lines 146-156 for ticker [t]. *)
Definition split_step (df_splits : list Split.t) (df_series : Series) (t : string)
  : result Series :=
  if existsb (is_split_of t) df_splits then
    let df_split_filtered := filter (is_split_of t) df_splits in
    effective_date_split <- values0 (map Split.effective_date df_split_filtered) ;;
    to_q <- values0 (map Split.to_quantity df_split_filtered) ;;
    from_q <- values0 (map Split.from_quantity df_split_filtered) ;;
    let split_ratio := fdiv (Fin to_q) (Fin from_q) in
    Ok (where_on_or_after effective_date_split split_ratio df_series)
  else Ok df_series.

Fixpoint adjust_splits (df_splits : list Split.t) (ts : list string) (df_series : Series)
  : result Series :=
  match ts with
  | [] => Ok df_series
  | t :: rest =>
      s <- split_step df_splits df_series t ;;
      adjust_splits df_splits rest s
  end.

(** ** The return *)

(** Lines 160-163. *)
Definition compute_return_of (df_series : Series) (beginning_date : date)
  : result fnum :=
  let df_series := slice_from df_series beginning_date in
  t1 <- iloc_last df_series ;;
  t0 <- iloc_first df_series ;;
  Ok (round2 (fmul (fsub (fdiv t1 t0) (Fin (qc_of_Z 1))) (Fin (qc_of_Z 100)))).

(** ** The script *)

Definition analysis_end : date := ymd 2024 12 31.

(** Lines 88-93. *)
Definition dict_timeframes (input_timeframe : string) : option Z :=
  if String.eqb input_timeframe "1 day" then Some 1
  else if String.eqb input_timeframe "5 days" then Some 5
  else if String.eqb input_timeframe "6 months" then Some 183
  else if String.eqb input_timeframe "1 year" then Some 365
  else None.

(** Line 101. *)
Definition beginning_date (timeframe : Z) : date :=
  add_days analysis_end (- timeframe).

(** Lines 118-139: the stitched series and the chain's two tickers. *)
Definition account_for_ticker_changes (df_prices : DataFrame) (input_ticker : string)
    (df_ticker_changes : list Change.t) : result (Series * (string * string)) :=
  id <- resolve input_ticker df_ticker_changes ;;
  df_series <- stitched df_prices id ;;
  Ok (df_series, chain id).

(** Lines 101-163, for a table already cut at the analysis end and a
    lookback already looked up. *)
Definition returns_from (df_prices : DataFrame) (input_ticker : string) (timeframe : Z)
    (df_ticker_changes : list Change.t) (df_splits : list Split.t) (order : bool)
  : result fnum :=
  sc <- account_for_ticker_changes df_prices input_ticker df_ticker_changes ;;
  let df_series := fst sc in
  let old_ticker := fst (snd sc) in
  let new_ticker := snd (snd sc) in
  df_series <- adjust_splits df_splits (tickers order old_ticker new_ticker) df_series ;;
  compute_return_of df_series (beginning_date timeframe).

(** The pipeline on a query (ticker, lookback days): the check of line 85,
    then lines 101-163. *)
Definition compute_return (df_prices : DataFrame) (input_ticker : string) (timeframe : Z)
    (df_ticker_changes : list Change.t) (df_splits : list Split.t) (order : bool)
  : result fnum :=
  if negb (has_column df_prices input_ticker)
  then Err (ValueError_price_data_not_found input_ticker)
  else returns_from df_prices input_ticker timeframe df_ticker_changes df_splits order.

(** The script from line 74 on, in its order: the table, its cut at
    2024-12-31, the ticker check, the lookback selector, the rest. *)
Definition main (input_ticker input_timeframe : string) (prices : list PriceRow)
    (df_ticker_changes : list Change.t) (df_splits : list Split.t) (order : bool)
  : result fnum :=
  let df_prices := transform_prices_to_DataFrame prices in
  let df_prices := df_slice_to df_prices analysis_end in
  if negb (has_column df_prices input_ticker)
  then Err (ValueError_price_data_not_found input_ticker)
  else
    match dict_timeframes input_timeframe with
    | None => Err (ValueError_invalid_timeframe input_timeframe)
    | Some timeframe =>
        returns_from df_prices input_ticker timeframe df_ticker_changes df_splits order
    end.

(** ** Vocabulary of the statements *)

Definition dates (s : Series) : list date := map fst s.

(** Strictly increasing dates, as a check that computes. *)
Fixpoint ascendingb (l : list date) : bool :=
  match l with
  | [] => true
  | x :: rest =>
      match rest with
      | [] => true
      | y :: _ => (x <? y) && ascendingb rest
      end
  end.

Definition ascending (l : list date) : Prop := ascendingb l = true.

(** The observations of [s] that a window starting at [start] retains. *)
Definition retained (s : Series) (start : date) : Series :=
  filter (fun dp => start <=? fst dp) s.

Definition price (n : Z) : fnum := Fin (qc_of_Z n).

(** The float64 nearest to a rational: what Python writes as that decimal. *)
Definition dbl (q : Q) : fnum := rnd64 (Q2Qc q).

(** The row of [splits.csv] that the loop reads for ticker [t]: the first
    of the rows of [t]. *)
Definition first_split (df_splits : list Split.t) (t : string) : option Split.t :=
  find (is_split_of t) df_splits.

Definition split_ratio (r : Split.t) : fnum :=
  fdiv (Fin (Split.to_quantity r)) (Fin (Split.from_quantity r)).

(** Line 153 for the split row [r]. *)
Definition apply_split (r : Split.t) (s : Series) : Series :=
  where_on_or_after (Split.effective_date r) (split_ratio r) s.

(** The price [p] of date [d] after the split of ticker [t], if it has one. *)
Definition rescaled (df_splits : list Split.t) (t : string) (d : date) (p : fnum) : fnum :=
  match first_split df_splits t with
  | Some r => if Split.effective_date r <=? d then fmul p (split_ratio r) else p
  | None => p
  end.

(** The rule in the words of the spec: the prices strictly before the
    effective date are the ones multiplied by the ratio. *)
Definition spec_split_rule (r : Split.t) (s : Series) : Series :=
  map (fun dp => (fst dp,
                  if fst dp <? Split.effective_date r
                  then fmul (snd dp) (split_ratio r)
                  else snd dp))
      s.

(** The rows of the price file for the cell ([d], [t]), in file order. *)
Definition rows_of (d : date) (t : string) (rows : list PriceRow) : list PriceRow :=
  filter (fun r => key_eqb (row_date r, row_ticker r) (d, t)) rows.

Definition sum_close (l : list PriceRow) : Qc :=
  fold_left (fun acc r => (acc + close_price r)%Qc) l (qc_of_Z 0).

(** The sum and the count that the groups hold for a key, and what one more
    close price makes of them. *)
Fixpoint lookup_group (k : key) (groups : list (key * (Qc * nat))) : option (Qc * nat) :=
  match groups with
  | [] => None
  | (k', g) :: rest => if key_eqb k k' then Some g else lookup_group k rest
  end.

Definition add_to_group (g : option (Qc * nat)) (v : Qc) : Qc * nat :=
  match g with
  | Some (s, n) => ((s + v)%Qc, S n)
  | None => (v, 1%nat)
  end.

(** The stitched series in the words of the spec: the old ticker's prices
    strictly before the effective date, then the new ticker's prices from
    the effective date on. *)
Definition spec_stitched (col_old col_new : Series) (effective_date : date) : Series :=
  (filter (fun dp => fst dp <? effective_date) col_old
   ++ filter (fun dp => effective_date <=? fst dp) col_new)%list.

(** ** Sample data *)

Module Sample.

Definition dec27 : date := ymd 2024 12 27.
Definition dec30 : date := ymd 2024 12 30.
Definition dec31 : date := ymd 2024 12 31.

(** 100 then 110 on the last two days of the analysis period. *)
Definition aapl_series : Series := [(dec30, price 100); (dec31, price 110)].

(** 800 then 803. *)
Definition pin_series : Series := [(dec30, price 800); (dec31, price 803)].

(** 32 then 59, after a 1-for-3 split of OLD and a 1-for-7 split of NEW. *)
Definition two_split_series : Series := [(dec30, price 32); (dec31, price 59)].

Definition two_splits : list Split.t :=
  [Split.mk "OLD" dec27 (qc_of_Z 3) (qc_of_Z 1);
   Split.mk "NEW" dec27 (qc_of_Z 7) (qc_of_Z 1)].

(** 32 then 31, after a 1-for-3 split. *)
Definition third_series : Series := [(dec30, price 32); (dec31, price 31)].

Definition third_split : Split.t := Split.mk "T" dec27 (qc_of_Z 3) (qc_of_Z 1).

(** A split of AAPL after the end of the analysis period. *)
Definition late_split : Split.t := Split.mk "AAPL" (ymd 2025 1 2) (qc_of_Z 1) (qc_of_Z 2).

(** One observation only. *)
Definition lone_series : Series := [(dec31, price 100)].

(** A negative base price. *)
Definition negative_base_series : Series := [(dec30, price (-50)); (dec31, price 25)].

Definition lone_rows : list PriceRow := [mkPriceRow dec31 "AAPL" (qc_of_Z 100)].

Definition negative_base_rows : list PriceRow :=
  [mkPriceRow dec30 "AAPL" (qc_of_Z (-50)); mkPriceRow dec31 "AAPL" (qc_of_Z 25)].

(** A zero base price. *)
Definition zero_base_series : Series := [(dec30, price 0); (dec31, price 25)].

(** XYZ: 50 on 2023-02-28, 26 on 2023-03-01, 2-for-1 on 2023-03-01. *)
Definition feb28 : date := ymd 2023 2 28.
Definition mar1 : date := ymd 2023 3 1.

Definition xyz_rows : list PriceRow :=
  [mkPriceRow feb28 "XYZ" (qc_of_Z 50); mkPriceRow mar1 "XYZ" (qc_of_Z 26)].

Definition xyz_series : Series := [(feb28, price 50); (mar1, price 26)].

Definition xyz_split : Split.t := Split.mk "XYZ" mar1 (qc_of_Z 1) (qc_of_Z 2).

(** A split before the last two days of the analysis period. *)
Definition aapl_split : Split.t := Split.mk "AAPL" dec27 (qc_of_Z 1) (qc_of_Z 2).

(** A symbol used twice: A became B on 2024-12-30, and an earlier B
    became C on 2024-12-27; a second row for B comes later. *)
Definition reused_changes : list Change.t :=
  [Change.mk "A" "B" dec30; Change.mk "B" "C" dec27; Change.mk "B" "D" dec31].

(** Three rows for one cell. *)
Definition repeated_rows : list PriceRow :=
  [mkPriceRow dec30 "X" (qc_of_Z 10); mkPriceRow dec31 "X" (qc_of_Z 7);
   mkPriceRow dec30 "X" (qc_of_Z 20); mkPriceRow dec30 "X" (qc_of_Z 60)].

(** FB became META on Saturday 2024-12-28: FB closed at 204 on Friday
    2024-12-27, META at 210 and 212 on the next two trading days. *)
Definition dec28 : date := ymd 2024 12 28.

Definition fb_rows : list PriceRow :=
  [mkPriceRow dec27 "FB" (qc_of_Z 204);
   mkPriceRow dec30 "META" (qc_of_Z 210);
   mkPriceRow dec31 "META" (qc_of_Z 212)].

Definition fb_table : DataFrame :=
  df_slice_to (transform_prices_to_DataFrame fb_rows) analysis_end.

Definition fb_changes_saturday : list Change.t := [Change.mk "FB" "META" dec28].

(** The same rename dated on the first trading day of META. *)
Definition fb_changes_monday : list Change.t := [Change.mk "FB" "META" dec30].

(** A rename to a symbol that the price file does not have. *)
Definition unlisted_changes : list Change.t := [Change.mk "META" "MVRS" dec30].

(** Two tickers that became one: A (100) and B (50) both became C (110,
    121) on 2024-12-30. *)
Definition merged_changes : list Change.t :=
  [Change.mk "A" "C" dec30; Change.mk "B" "C" dec30].

Definition merged_rows : list PriceRow :=
  [mkPriceRow dec27 "A" (qc_of_Z 100); mkPriceRow dec27 "B" (qc_of_Z 50);
   mkPriceRow dec30 "C" (qc_of_Z 110); mkPriceRow dec31 "C" (qc_of_Z 121)].

Definition merged_table : DataFrame :=
  df_slice_to (transform_prices_to_DataFrame merged_rows) analysis_end.

(** A symbol used twice, with prices: A (100) became B (110, 121) on
    2024-12-30; the earlier B became C (10, 20, 30) on 2024-12-27. *)
Definition reused_rows : list PriceRow :=
  [mkPriceRow dec27 "A" (qc_of_Z 100);
   mkPriceRow dec30 "B" (qc_of_Z 110); mkPriceRow dec31 "B" (qc_of_Z 121);
   mkPriceRow dec27 "C" (qc_of_Z 10); mkPriceRow dec30 "C" (qc_of_Z 20);
   mkPriceRow dec31 "C" (qc_of_Z 30)].

Definition reused_table : DataFrame :=
  df_slice_to (transform_prices_to_DataFrame reused_rows) analysis_end.

End Sample.

(** ** Tactics *)

(** Equality of computed values: canonical fractions are compared by their
    fraction. *)
Ltac qc_eq :=
  repeat match goal with
         | |- @eq Qc _ _ => apply Qc_is_canon; reflexivity
         | |- Fin _ = Fin _ => apply (f_equal Fin)
         | |- Ok _ = Ok _ => apply (f_equal Ok)
         | |- Some _ = Some _ => apply (f_equal Some)
         | |- (_, _) = (_, _) => apply f_equal2
         | |- _ :: _ = _ :: _ => apply f_equal2
         | |- _ => reflexivity
         end.

From Stdlib Require Import Permutation Lqa Ascii DecimalString DecimalNat.

(** ** Further vocabulary *)

(** The rows of the price file dated up to [stop]. *)
Definition rows_until (stop : date) (rows : list PriceRow) : list PriceRow :=
  filter (fun r => row_date r <=? stop) rows.

(** The table that the script works on (lines 74 and 75). *)
Definition working_table (prices : list PriceRow) : DataFrame :=
  df_slice_to (transform_prices_to_DataFrame prices) analysis_end.

(** The mean of the close prices of some rows; NaN when there is none. *)
Definition mean_of (l : list PriceRow) : fnum :=
  match l with
  | [] => NaN
  | _ :: _ => Fin (sum_close l / qc_of_Z (Z.of_nat (List.length l)))%Qc
  end.

(** ** The script around the pipeline *)

(** Line 23. *)
Definition df_headers_expected : list string := ["date"; "ticker"; "close_price"].

(** Lines 25-29: the first of the column names that is not an expected
    one, which the [ValueError] of line 29 names; [None] when the loop ends
    without raising. *)
Fixpoint validate_headers (columns : list string) : option string :=
  match columns with
  | [] => None
  | header :: rest =>
      if existsb (String.eqb header) df_headers_expected
      then validate_headers rest
      else Some header
  end.

(** How a run of the script can end without printing. *)
Inductive failure : Type :=
| RuntimeError_could_not_read (file : string)      (* lines 20, 108, 115 *)
| ValueError_invalid_column_name (header : string) (* line 29 *)
| KeyError_pivot                 (* [pivot_table] without one of its three columns *)
| ValueError_missing_arguments                     (* line 80 *)
| IndexError_argv                                  (* [sys.argv[2]], line 83 *)
| Raised (e : error).                              (* lines 86, 99 and after *)

(** A file that [read_csv] is given: the names of its header line, as the
    file has them, and its rows.  The rows of the price file carry the
    values of the three expected columns. *)
Definition csv (A : Type) : Type := (list string * list A)%type.

Definition string_of_nat (n : nat) : string :=
  NilEmpty.string_of_uint (Nat.to_uint n).

(** [df_prices_raw.columns] for a header line, as [read_csv] makes it.
    A column without a name is called after its position. *)
Definition unnamed (i : nat) : string := "Unnamed: " ++ string_of_nat i.

Fixpoint this_header_from (i : nat) (header : list string) : list string :=
  match header with
  | [] => []
  | name :: rest =>
      (if String.eqb name "" then unnamed i else name)
      :: this_header_from (S i) rest
  end.

(** The positions of the columns with a name ([empty = false]) or without
    one, from position [i] on. *)
Fixpoint positions (empty : bool) (i : nat) (header : list string) : list nat :=
  match header with
  | [] => []
  | name :: rest =>
      if Bool.eqb (String.eqb name "") empty
      then i :: positions empty (S i) rest
      else positions empty (S i) rest
  end.

(** The columns with a name are gone through before the others. *)
Definition col_loop_order (header : list string) : list nat :=
  (positions false 0 header ++ positions true 0 header)%list.

(** The dict [counts], the latest entry of a key first. *)
Definition counts_get (counts : list (string * nat)) (col : string) : nat :=
  match find (fun kv => String.eqb (fst kv) col) counts with
  | Some kv => snd kv
  | None => O
  end.

Definition counts_set (counts : list (string * nat)) (col : string) (n : nat)
  : list (string * nat) :=
  (col, n) :: counts.

Fixpoint set_nth (i : nat) (x : string) (l : list string) : list string :=
  match l, i with
  | [], _ => []
  | _ :: rest, O => x :: rest
  | y :: rest, S j => y :: set_nth j x rest
  end.

(** The loop that numbers a repeated name: [name.k] for the first [k],
    from the count of the name on, that no column has.  It is entered with
    a positive count; it ends within as many rounds as there are columns,
    which is the [fuel] it is given. *)
Fixpoint dedup_loop (fuel : nat) (this_header : list string)
    (counts : list (string * nat)) (old_col : string) (cur_count : nat)
  : string * nat * list (string * nat) :=
  let counts := counts_set counts old_col (S cur_count) in
  let col := (old_col ++ "." ++ string_of_nat cur_count)%string in
  let cur_count :=
    if existsb (String.eqb col) this_header then S cur_count
    else counts_get counts col in
  match cur_count with
  | O => (col, O, counts)
  | S _ =>
      match fuel with
      | O => (col, cur_count, counts)
      | S fuel => dedup_loop fuel this_header counts old_col cur_count
      end
  end.

(** One round of the loop over the columns, at position [i]. *)
Definition visit (state : list string * list (string * nat)) (i : nat)
  : list string * list (string * nat) :=
  let (this_header, counts) := state in
  let col := nth i this_header "" in
  let '(col, cur_count, counts) :=
    match counts_get counts col with
    | O => (col, O, counts)
    | S c => dedup_loop (List.length this_header) this_header counts col (S c)
    end in
  (set_nth i col this_header, counts_set counts col (S cur_count)).

Definition pandas_columns (header : list string) : list string :=
  fst (fold_left visit (col_loop_order header) (this_header_from 0 header, [])).

(** The counts after the names [l], each met once. *)
Definition counts_of (l : list string) : list (string * nat) :=
  rev (map (fun p => (p, 1%nat)) l).

Fixpoint has_dot (s : string) : bool :=
  match s with
  | EmptyString => false
  | String c rest => Ascii.eqb c "."%char || has_dot rest
  end.

(** What the script prints: the lookback in days and the return. *)
Inductive outcome : Type :=
| Printed (timeframe : Z) (r : fnum)
| Failed (f : failure).

(** Lines 17-44: the read, the header check, the pivot.  [read_csv] raises
    on a file that cannot be opened and on a file without a header line,
    and line 20 turns either into the [RuntimeError]. *)
Definition load_prices (prices : option (csv PriceRow)) : failure + DataFrame :=
  match prices with
  | None | Some ([], _) => inl (RuntimeError_could_not_read "prices.csv")
  | Some (header_line, rows) =>
      let columns := pandas_columns header_line in
      match validate_headers columns with
      | Some header => inl (ValueError_invalid_column_name header)
      | None =>
          if forallb (fun h => existsb (String.eqb h) columns) df_headers_expected
          then inr (transform_prices_to_DataFrame rows)
          else inl KeyError_pivot
      end
  end.

(** Lines 71-164 in their order: [argv] is [sys.argv], a file that cannot
    be read is [None]. *)
Definition script (argv : list string) (prices : option (csv PriceRow))
    (ticker_changes : option (list Change.t)) (splits : option (list Split.t))
    (order : bool) : outcome :=
  match load_prices prices with
  | inl f => Failed f
  | inr df_prices =>
      let df_prices := df_slice_to df_prices analysis_end in
      if (List.length argv <? 2)%nat then Failed ValueError_missing_arguments
      else
        match nth_error argv 1, nth_error argv 2 with
        | Some input_ticker, Some input_timeframe =>
            if negb (has_column df_prices input_ticker)
            then Failed (Raised (ValueError_price_data_not_found input_ticker))
            else
              match dict_timeframes input_timeframe with
              | None => Failed (Raised (ValueError_invalid_timeframe input_timeframe))
              | Some timeframe =>
                  match ticker_changes with
                  | None => Failed (RuntimeError_could_not_read "ticker_changes.csv")
                  | Some df_ticker_changes =>
                      match splits with
                      | None => Failed (RuntimeError_could_not_read "splits.csv")
                      | Some df_splits =>
                          match returns_from df_prices input_ticker timeframe
                                  df_ticker_changes df_splits order with
                          | Ok r => Printed timeframe r
                          | Err e => Failed (Raised e)
                          end
                      end
                  end
              end
        | _, _ => Failed IndexError_argv
        end
  end.

(** Two rows with the same date and ticker, and the same close price when
    the ticker is one of [o] and [n]. *)
Definition same_for_chain (o n : string) (r r' : PriceRow) : Prop :=
  row_date r = row_date r' /\ row_ticker r = row_ticker r' /\
  (row_ticker r = o \/ row_ticker r = n -> close_price r = close_price r').

Module More.

(** The FB and META rows with a row of 2025 and a second, later row for
    the split of META. *)
Definition jan2 : date := ymd 2025 1 2.

Definition fb_rows_later : list PriceRow :=
  (Sample.fb_rows ++ [mkPriceRow jan2 "META" (qc_of_Z 300)])%list.

Definition meta_split : Split.t := Split.mk "META" Sample.dec31 (qc_of_Z 1) (qc_of_Z 2).

Definition splits_with_others : list Split.t :=
  [Split.mk "XYZ" Sample.dec30 (qc_of_Z 1) (qc_of_Z 3); meta_split;
   Split.mk "META" Sample.dec30 (qc_of_Z 1) (qc_of_Z 5)].

(** The rows of a table with a third ticker, and the same with other
    closes for that ticker. *)
Definition rows_with_other : list PriceRow :=
  (Sample.fb_rows ++ [mkPriceRow Sample.dec30 "XYZ" (qc_of_Z 26)])%list.

Definition rows_with_other_changed : list PriceRow :=
  (Sample.fb_rows ++ [mkPriceRow Sample.dec30 "XYZ" (qc_of_Z 99)])%list.

(** 800 before a 2-for-1 split of XYZ, 401.5 after it. *)
Definition halved_series : Series :=
  [(Sample.feb28, price 800); (Sample.mar1, Fin (Q2Qc (803 # 2)))].

End More.

(** * Properties *)

(** ** Arithmetic on [fnum] *)

Section Arithmetic.

Local Open Scope Qc_scope.

Lemma qis0_spec (q : Qc) : qis0 q = true <-> q = 0.
Proof.
  unfold qis0, Qc_eq_bool, qc_of_Z.
  destruct (Qc_eq_dec q (Q2Qc (inject_Z 0))) as [E | E]; split; intro H;
    try reflexivity; try discriminate; try exact E.
  exfalso; apply E; exact H.
Qed.

Lemma qis0_false (q : Qc) : qis0 q = false <-> q <> 0.
Proof.
  rewrite <- qis0_spec. destruct (qis0 q); split; congruence.
Qed.

Lemma qneg_num (q : Qc) : qneg q = (Qnum q <? 0)%Z.
Proof.
  unfold qneg, Qccompare, Qcompare. simpl.
  rewrite Z.mul_1_r. unfold Z.ltb. destruct (Qnum q ?= 0)%Z; reflexivity.
Qed.

Lemma qis0_num (q : Qc) : qis0 q = (Qnum q =? 0)%Z.
Proof.
  destruct (Z.eqb_spec (Qnum q) 0) as [E | E].
  - apply qis0_spec. apply Qc_is_canon. unfold Qeq. simpl. rewrite E. reflexivity.
  - apply qis0_false. intro H. apply E. rewrite H. reflexivity.
Qed.

Lemma rnd64_one : rnd64 (qc_of_Z 1) = Fin (qc_of_Z 1).
Proof. vm_compute. qc_eq. Qed.

(** A finite non-zero number divided by itself is 1: the exact quotient
    needs no rounding. *)
Lemma fdiv_self (p : Qc) : p <> qc_of_Z 0 -> fdiv (Fin p) (Fin p) = Fin (qc_of_Z 1).
Proof.
  intro Hp. pose proof (proj2 (qis0_false p) Hp) as H0.
  unfold fdiv, is_zero, mag. rewrite H0.
  unfold Qcdiv. rewrite Qcmult_inv_r by exact Hp. apply rnd64_one.
Qed.

(** NaN goes through every operation. *)
Lemma fmul_nan_l (x : fnum) : fmul NaN x = NaN.
Proof. reflexivity. Qed.

Lemma fmul_nan_r (x : fnum) : fmul x NaN = NaN.
Proof. destruct x; reflexivity. Qed.

Lemma fdiv_nan_l (x : fnum) : fdiv NaN x = NaN.
Proof. reflexivity. Qed.

Lemma fdiv_nan_r (x : fnum) : fdiv x NaN = NaN.
Proof. destruct x; reflexivity. Qed.

End Arithmetic.

(** The nearest integer, ties to the even one. *)
Section Rounding.

Local Open Scope Q_scope.

Lemma floor_bounds (x : Q) : inject_Z (Qfloor x) <= x < inject_Z (Qfloor x) + 1.
Proof.
  split; [apply Qfloor_le |].
  pose proof (Qlt_floor x) as H. rewrite inject_Z_plus in H. exact H.
Qed.

Lemma rint_near (x : Q) :
  inject_Z (rint x) - (1 # 2) <= x <= inject_Z (rint x) + (1 # 2).
Proof.
  pose proof (floor_bounds x) as [Hl Hu]. unfold rint.
  destruct (Qcompare_spec (x - inject_Z (Qfloor x)) (1 # 2)) as [E | L | G].
  - destruct (Z.even (Qfloor x)).
    + lra.
    + rewrite inject_Z_plus. change (inject_Z 1) with 1. lra.
  - lra.
  - rewrite inject_Z_plus. change (inject_Z 1) with 1. lra.
Qed.

Lemma rint_tie_even (x : Q) :
  x - inject_Z (Qfloor x) == 1 # 2 -> Z.even (rint x) = true.
Proof.
  intro E. unfold rint. rewrite (proj1 (Qeq_alt _ _) E).
  destruct (Z.even (Qfloor x)) eqn:Ev; [exact Ev |].
  rewrite Z.even_add, Ev. reflexivity.
Qed.

Lemma rint_of_Z (z : Z) : rint (inject_Z z) = z.
Proof.
  unfold rint. rewrite Qfloor_Z.
  assert (E : inject_Z z - inject_Z z == 0) by ring.
  rewrite (Qcompare_comp _ _ E (1 # 2) (1 # 2) (Qeq_refl _)). reflexivity.
Qed.

End Rounding.

(** The three operations and the rounding to two decimals give what the
    float64 of the machine gives on every pair of the samples, with either
    sign: ordinary numbers, the subnormal and the largest ones, the zeros,
    the infinities and NaN. *)
Lemma operations_agree_with_binary64 :
  Binary64.agree_on_samples fmul PrimFloat.mul = true /\
  Binary64.agree_on_samples fdiv PrimFloat.div = true /\
  Binary64.agree_on_samples fsub PrimFloat.sub = true /\
  forallb Binary64.round2_agrees Binary64.round2_samples = true.
Proof.
  vm_cast_no_check (conj (eq_refl true) (conj (eq_refl true)
                      (conj (eq_refl true) (eq_refl true)))).
Qed.

(** ** Series with ascending dates *)

Section Ascending.

Lemma ascending_tail (x : date) (l : list date) :
  ascending (x :: l) -> ascending l.
Proof.
  unfold ascending. destruct l as [| y l]; [reflexivity |].
  cbn. intro H. apply andb_prop in H. apply H.
Qed.

Lemma ascending_head (x : date) (l : list date) :
  ascending (x :: l) -> forall y, In y l -> x < y.
Proof.
  revert x. induction l as [| z l IH]; intros x H y Hy; [contradiction |].
  unfold ascending in H. cbn in H. apply andb_prop in H. destruct H as [Hxz Hl].
  apply Z.ltb_lt in Hxz. destruct Hy as [-> | Hy]; [exact Hxz |].
  specialize (IH z Hl y Hy). lia.
Qed.

Lemma ascending_cons (x : date) (l : list date) :
  ascending l -> (forall y, In y l -> x < y) -> ascending (x :: l).
Proof.
  intros Hl Hx. unfold ascending. destruct l as [| y l]; [reflexivity |].
  cbn. apply andb_true_intro. split; [| exact Hl].
  apply Z.ltb_lt. apply Hx. left. reflexivity.
Qed.

Lemma ascending_app (l1 l2 : list date) :
  ascending l1 -> ascending l2 ->
  (forall x y, In x l1 -> In y l2 -> x < y) ->
  ascending (l1 ++ l2).
Proof.
  induction l1 as [| a l1 IH]; intros H1 H2 H; [exact H2 |].
  cbn. apply ascending_cons.
  - apply IH; [eapply ascending_tail; exact H1 | exact H2 |].
    intros x y Hx Hy. apply H; [right; exact Hx | exact Hy].
  - intros y Hy. apply in_app_or in Hy. destruct Hy as [Hy | Hy].
    + eapply ascending_head; [exact H1 | exact Hy].
    + apply H; [left; reflexivity | exact Hy].
Qed.

Lemma in_dates (s : Series) (d : date) (p : fnum) :
  In (d, p) s -> In d (dates s).
Proof.
  intro H. change d with (fst (d, p)). apply in_map. exact H.
Qed.

(** A date labels at most one observation. *)
Lemma ascending_unique (s : Series) (d : date) (p p' : fnum) :
  ascending (dates s) -> In (d, p) s -> In (d, p') s -> p = p'.
Proof.
  induction s as [| [d0 p0] s IH]; intros Hs H H'; [contradiction |].
  cbn in Hs. pose proof (ascending_head _ _ Hs) as Hlt.
  destruct H as [H | H], H' as [H' | H'].
  - congruence.
  - inversion H; subst. apply in_dates in H'. apply Hlt in H'. lia.
  - inversion H'; subst. apply in_dates in H. apply Hlt in H. lia.
  - apply IH; [eapply ascending_tail; exact Hs | exact H | exact H'].
Qed.

Lemma slice_from_retained (s : Series) (start : date) :
  ascending (dates s) -> slice_from s start = retained s start.
Proof.
  induction s as [| [d p] s IH]; intro Hs; [reflexivity |].
  cbn in Hs. cbn [slice_from retained filter fst].
  destruct (Z.ltb_spec d start) as [Hlt | Hge].
  - destruct (Z.leb_spec start d) as [Hle | _]; [lia |].
    apply IH. eapply ascending_tail; exact Hs.
  - destruct (Z.leb_spec start d) as [_ | Hlt]; [| lia].
    f_equal. symmetry. apply forallb_filter_id. apply forallb_forall.
    intros [d' p'] Hin. cbn. apply Z.leb_le.
    apply in_dates in Hin. pose proof (ascending_head _ _ Hs d' Hin). lia.
Qed.

Lemma filter_none {A : Type} (f : A -> bool) (l : list A) :
  (forall x, In x l -> f x = false) -> filter f l = [].
Proof.
  induction l as [| a l IH]; intro H; [reflexivity |].
  cbn. rewrite (H a (or_introl eq_refl)). apply IH.
  intros x Hx. apply H. right. exact Hx.
Qed.

Lemma slice_to_filter (s : Series) (stop : date) :
  ascending (dates s) ->
  slice_to s stop = filter (fun dp => fst dp <=? stop) s.
Proof.
  induction s as [| [d p] s IH]; intro Hs; [reflexivity |].
  cbn in Hs. cbn [slice_to filter fst].
  destruct (Z.leb_spec d stop) as [Hle | Hgt].
  - f_equal. apply IH. eapply ascending_tail; exact Hs.
  - symmetry. apply filter_none. intros [d' p'] Hin. cbn.
    apply Z.leb_gt. apply in_dates in Hin.
    pose proof (ascending_head _ _ Hs d' Hin). lia.
Qed.

Lemma ascending_filter (f : date * fnum -> bool) (s : Series) :
  ascending (dates s) -> ascending (dates (filter f s)).
Proof.
  induction s as [| [d p] s IH]; intro Hs; [reflexivity |].
  cbn in Hs. pose proof (ascending_tail _ _ Hs) as Ht.
  cbn [filter]. destruct (f (d, p)); [| apply IH; exact Ht].
  cbn. apply ascending_cons; [apply IH; exact Ht |].
  intros y Hy. unfold dates in Hy. apply in_map_iff in Hy.
  destruct Hy as [[d' p'] [E Hin]]. cbn in E. subst y.
  apply filter_In in Hin. destruct Hin as [Hin _].
  apply in_dates in Hin. eapply ascending_head; [exact Hs | exact Hin].
Qed.

(** The first position holds the earliest date. *)
Lemma iloc_first_earliest (w : Series) (d0 : date) (t0 : fnum) :
  ascending (dates w) ->
  In (d0, t0) w -> (forall dp, In dp w -> d0 <= fst dp) ->
  iloc_first w = Ok t0.
Proof.
  destruct w as [| [d p] w]; intros Hw Hin Hmin; [contradiction |].
  cbn. f_equal. destruct Hin as [E | Hin]; [congruence |].
  cbn in Hw. apply in_dates in Hin.
  pose proof (ascending_head _ _ Hw d0 Hin) as Hlt.
  specialize (Hmin (d, p) (or_introl eq_refl)). cbn in Hmin. lia.
Qed.

Lemma iloc_last_cons (dp dp' : date * fnum) (w : Series) :
  iloc_last (dp :: dp' :: w) = iloc_last (dp' :: w).
Proof. destruct dp. reflexivity. Qed.

(** The last position holds the latest date. *)
Lemma iloc_last_latest (w : Series) (d1 : date) (t1 : fnum) :
  ascending (dates w) ->
  In (d1, t1) w -> (forall dp, In dp w -> fst dp <= d1) ->
  iloc_last w = Ok t1.
Proof.
  induction w as [| [d p] w IH]; intros Hw Hin Hmax; [contradiction |].
  destruct w as [| dp' w].
  - destruct Hin as [E | []]. cbn. congruence.
  - rewrite iloc_last_cons. cbn in Hw.
    apply IH.
    + eapply ascending_tail; exact Hw.
    + destruct Hin as [E | Hin]; [| exact Hin].
      inversion E; subst. exfalso.
      pose proof (ascending_head _ _ Hw (fst dp') (or_introl eq_refl)) as Hlt.
      specialize (Hmax dp' (or_intror (or_introl eq_refl))). lia.
    + intros x Hx. apply Hmax. right. exact Hx.
Qed.

End Ascending.

(** ** The return calculator *)

Lemma beginning_date_eq (timeframe : Z) :
  beginning_date timeframe = analysis_end - timeframe.
Proof. unfold beginning_date, add_days. lia. Qed.

(** C5.  On a series with ascending dates and for the window start
    [2024-12-31 - timeframe], the calculator keeps exactly the observations
    dated on or after the window start, and whenever [t0] is the price at
    the earliest retained date and [t1] the price at the latest retained
    date, it returns [round(((t1 / t0) - 1) * 100, 2)], each operation on
    float64; the rounding to 2 decimal places is the product by 100, the
    nearest integer, the even one of two equally near, and the quotient by
    100. *)
Theorem return_over_window (s : Series) (timeframe : Z) :
  ascending (dates s) ->
  let start := analysis_end - timeframe in
  beginning_date timeframe = start /\
  slice_from s (beginning_date timeframe) = retained s start /\
  (forall dp, In dp (retained s start) <-> In dp s /\ start <= fst dp) /\
  (forall d0 t0 d1 t1,
    In (d0, t0) (retained s start) ->
    (forall dp, In dp (retained s start) -> d0 <= fst dp) ->
    In (d1, t1) (retained s start) ->
    (forall dp, In dp (retained s start) -> fst dp <= d1) ->
    compute_return_of s (beginning_date timeframe)
    = Ok (round2 (fmul (fsub (fdiv t1 t0) (price 1)) (price 100)))) /\
  (forall x, round2 x = fdiv (frint (fmul x (price 100))) (price 100)) /\
  (forall q, frint (Fin q)
             = if rint q =? 0 then signed_zero (qneg q) else Fin (qc_of_Z (rint q))) /\
  (forall q : Q,
     (inject_Z (rint q) - (1 # 2) <= q <= inject_Z (rint q) + (1 # 2))%Q /\
     ((q - inject_Z (Qfloor q) == 1 # 2)%Q -> Z.even (rint q) = true)).
Proof.
  intros Hs start. pose proof (beginning_date_eq timeframe) as Hb.
  fold start in Hb. split; [exact Hb |]. rewrite Hb.
  pose proof (slice_from_retained s start Hs) as Hw.
  split; [exact Hw |]. split; [| split; [| split; [reflexivity |]]].
  3: { split; [reflexivity |]. intro q.
       split; [apply rint_near | apply rint_tie_even]. }
  - intro dp. unfold retained. rewrite filter_In. rewrite Z.leb_le. reflexivity.
  - intros d0 t0 d1 t1 H0 Hmin H1 Hmax.
    assert (Ha : ascending (dates (retained s start)))
      by (apply ascending_filter; exact Hs).
    unfold compute_return_of. rewrite Hw.
    rewrite (iloc_last_latest _ d1 t1 Ha H1 Hmax).
    rewrite (iloc_first_earliest _ d0 t0 Ha H0 Hmin).
    reflexivity.
Qed.

(** 800 then 803: the quotient is the float64 just below 1.00375, the
    product by 100 is below 0.375 and the return is 0.37. *)
Lemma return_over_window_witness :
  ascending (dates Sample.pin_series) /\
  compute_return_of Sample.pin_series (beginning_date 1) = Ok (dbl (37 # 100)).
Proof.
  split; [reflexivity |].
  pose proof (return_over_window Sample.pin_series 1 eq_refl) as H.
  cbv zeta in H. destruct H as [_ [_ [_ [H _]]]].
  rewrite (H Sample.dec30 (price 800) Sample.dec31 (price 803)).
  - vm_compute. qc_eq.
  - vm_compute. left. reflexivity.
  - intros dp Hin. vm_compute in Hin.
    destruct Hin as [<- | [<- | []]]; vm_compute; discriminate.
  - vm_compute. right. left. reflexivity.
  - intros dp Hin. vm_compute in Hin.
    destruct Hin as [<- | [<- | []]]; vm_compute; discriminate.
Defined.

Lemma percentage_of_equal (p : Qc) :
  p <> qc_of_Z 0 ->
  round2 (fmul (fsub (fdiv (Fin p) (Fin p)) (price 1)) (price 100)) = price 0.
Proof.
  intro Hp. rewrite (fdiv_self p Hp). vm_compute. qc_eq.
Qed.

Lemma percentage_zero_base (t1 : fnum) :
  is_finite (round2 (fmul (fsub (fdiv t1 (price 0)) (price 1)) (price 100))) = false.
Proof.
  destruct t1 as [a | | s |]; try reflexivity.
  - unfold fdiv, price. cbn [is_zero sign].
    change (qis0 (qc_of_Z 0)) with true. cbn iota.
    destruct (qis0 a); [reflexivity |].
    destruct (xorb (qneg a) (qneg (qc_of_Z 0))); reflexivity.
Qed.

(** C6 as stated fails: a window with a single observation gives 0.00, and
    a negative base price gives a number, in the calculator and in the
    script as a whole. *)
Lemma short_window_and_negative_base_return_numbers :
  (List.length (slice_from Sample.lone_series (beginning_date 1)) < 2)%nat /\
  compute_return_of Sample.lone_series (beginning_date 1) = Ok (price 0) /\
  iloc_first (slice_from Sample.negative_base_series (beginning_date 1))
  = Ok (price (-50)) /\
  compute_return_of Sample.negative_base_series (beginning_date 1)
  = Ok (price (-150)) /\
  main "AAPL" "1 day" Sample.lone_rows [] [] true = Ok (price 0) /\
  main "AAPL" "1 day" Sample.negative_base_rows [] [] true = Ok (price (-150)).
Proof.
  split; [| split; [| split; [| split; [| split]]]].
  - vm_compute. lia.
  - vm_compute. qc_eq.
  - vm_compute. qc_eq.
  - vm_compute. qc_eq.
  - vm_compute. qc_eq.
  - vm_compute. qc_eq.
Qed.

(** C6, amended.  The calculator has no check of the number of
    observations or of the base price.  It fails exactly when the window
    retains nothing, with the [IndexError] of [iloc]; a window of one
    observation with a finite non-zero price gives 0.00; a finite non-zero
    base price, negative ones included, gives the number of the formula; a
    zero base price gives an infinity or NaN, not an error.  The division
    is the exact quotient rounded to float64. *)
Theorem return_failure_cases (s : Series) (start : date) :
  let w := slice_from s start in
  (w = [] -> compute_return_of s start = Err IndexError) /\
  (w <> [] -> is_ok (compute_return_of s start) = true) /\
  (forall d p, w = [(d, Fin p)] -> p <> qc_of_Z 0 ->
     compute_return_of s start = Ok (price 0)) /\
  (forall d0 p0 rest p1, w = (d0, Fin p0) :: rest -> p0 <> qc_of_Z 0 ->
     iloc_last w = Ok (Fin p1) ->
     p1 <> qc_of_Z 0 ->
     compute_return_of s start
     = Ok (round2 (fmul (fsub (rnd64 (p1 / p0)%Qc) (price 1)) (price 100)))) /\
  (forall d0 rest, w = (d0, price 0) :: rest ->
     exists r, compute_return_of s start = Ok r /\ is_finite r = false).
Proof.
  intro w. unfold compute_return_of. fold w.
  split; [| split; [| split; [| split]]].
  - intros ->. reflexivity.
  - intro Hw. destruct w as [| [d p] rest]; [congruence |].
    assert (Hl : exists t1, iloc_last ((d, p) :: rest) = Ok t1).
    { clear. revert d p. induction rest as [| [d' p'] rest IH]; intros d p.
      - exists p. reflexivity.
      - rewrite iloc_last_cons. apply IH. }
    destruct Hl as [t1 ->]. reflexivity.
  - intros d p -> Hp. cbn [iloc_last iloc_first bind].
    f_equal. apply percentage_of_equal. exact Hp.
  - intros d0 p0 rest p1 Hw Hp Hl Hp1. rewrite Hl. rewrite Hw.
    cbn [iloc_first bind]. unfold fdiv at 1. cbn [is_zero mag].
    rewrite (proj2 (qis0_false p0) Hp), (proj2 (qis0_false p1) Hp1).
    reflexivity.
  - intros d0 rest Hw.
    assert (Hl : exists t1, iloc_last w = Ok t1).
    { rewrite Hw. clear. generalize (price 0). revert d0.
      induction rest as [| [d' p'] rest IH]; intros d p.
      - exists p. reflexivity.
      - rewrite iloc_last_cons. apply IH. }
    destruct Hl as [t1 ->]. rewrite Hw. cbn [iloc_first bind].
    eexists. split; [reflexivity |]. apply percentage_zero_base.
Qed.

Lemma return_failure_cases_witness :
  compute_return_of Sample.lone_series (beginning_date 1) = Ok (price 0) /\
  (exists r, compute_return_of Sample.zero_base_series (beginning_date 1) = Ok r /\
             is_finite r = false).
Proof.
  split.
  - pose proof (return_failure_cases Sample.lone_series (beginning_date 1)) as H.
    cbv zeta in H. destruct H as [_ [_ [H _]]].
    apply (H Sample.dec31 (qc_of_Z 100)).
    + reflexivity.
    + intro E. apply (f_equal this) in E. vm_compute in E. discriminate.
  - pose proof (return_failure_cases Sample.zero_base_series (beginning_date 1)) as H.
    cbv zeta in H. destruct H as [_ [_ [_ [_ H]]]].
    apply (H Sample.dec30 [(Sample.dec31, price 25)]). reflexivity.
Defined.

(** ** Splits *)

Section FirstMatch.

Context {A : Type} (f : A -> bool).

Lemma existsb_find_filter (l : list A) :
  existsb f l = true ->
  exists r rest, find f l = Some r /\ filter f l = r :: rest.
Proof.
  induction l as [| a l IH]; cbn; [discriminate |].
  destruct (f a) eqn:E; cbn.
  - intros _. exists a, (filter f l). split; reflexivity.
  - exact IH.
Qed.

Lemma existsb_false_find (l : list A) :
  existsb f l = false -> find f l = None.
Proof.
  induction l as [| a l IH]; cbn; [reflexivity |].
  destruct (f a); cbn; [discriminate | exact IH].
Qed.

(** The first matching row, when the rows before it do not match. *)
Lemma find_first (pre suf : list A) (r : A) :
  f r = true -> (forall x, In x pre -> f x = false) ->
  find f (pre ++ r :: suf) = Some r.
Proof.
  intros Hr. induction pre as [| a pre IH]; intro Hpre; cbn.
  - rewrite Hr. reflexivity.
  - rewrite (Hpre a (or_introl eq_refl)). apply IH.
    intros x Hx. apply Hpre. right. exact Hx.
Qed.

End FirstMatch.

Lemma split_step_first (df_splits : list Split.t) (s : Series) (t : string) :
  split_step df_splits s t
  = Ok (match first_split df_splits t with
        | Some r => apply_split r s
        | None => s
        end).
Proof.
  unfold split_step, first_split.
  destruct (existsb (is_split_of t) df_splits) eqn:E.
  - destruct (existsb_find_filter _ _ E) as [r [rest [Hf Hl]]].
    rewrite Hf, Hl. reflexivity.
  - rewrite (existsb_false_find _ _ E). reflexivity.
Qed.

Lemma split_step_rescaled (df_splits : list Split.t) (s : Series) (t : string) :
  split_step df_splits s t
  = Ok (map (fun dp => (fst dp, rescaled df_splits t (fst dp) (snd dp))) s).
Proof.
  rewrite split_step_first. f_equal. unfold rescaled.
  destruct (first_split df_splits t) as [r |].
  - reflexivity.
  - induction s as [| [d p] s IH]; [reflexivity |]. cbn. f_equal. exact IH.
Qed.

(** C1 as stated fails: with a 2-for-1 split effective 2023-03-01 the
    price of 2023-02-28 is not the one that changes. *)
Lemma split_rescales_on_or_after_not_before :
  adjust_splits [Sample.xyz_split] (tickers true "XYZ" "XYZ") Sample.xyz_series
  = Ok [(Sample.feb28, price 50); (Sample.mar1, price 52)] /\
  spec_split_rule Sample.xyz_split Sample.xyz_series
  = [(Sample.feb28, price 100); (Sample.mar1, price 26)] /\
  adjust_splits [Sample.xyz_split] (tickers true "XYZ" "XYZ") Sample.xyz_series
  <> Ok (spec_split_rule Sample.xyz_split Sample.xyz_series).
Proof.
  split; [| split].
  - vm_compute. qc_eq.
  - vm_compute. qc_eq.
  - intro H. vm_compute in H. inversion H.
Qed.

(** C1, amended.  For each ticker of the chain, the first row of that
    ticker in the split table multiplies exactly the prices dated on or
    after its effective date by [to_quantity / from_quantity] and leaves
    every price dated strictly before it unchanged; a ticker without a row
    changes nothing; the dates of the series stay.  The two tickers of a
    rename are visited in the order that Python's set gives them, each
    multiplication on float64. *)
Theorem split_adjusted_series (df_splits : list Split.t) (order : bool)
    (old_ticker new_ticker : string) (s : Series) :
  adjust_splits df_splits (tickers order old_ticker new_ticker) s
  = Ok (map (fun dp =>
               (fst dp,
                if String.eqb old_ticker new_ticker
                then rescaled df_splits old_ticker (fst dp) (snd dp)
                else if order
                then rescaled df_splits new_ticker (fst dp)
                       (rescaled df_splits old_ticker (fst dp) (snd dp))
                else rescaled df_splits old_ticker (fst dp)
                       (rescaled df_splits new_ticker (fst dp) (snd dp))))
            s).
Proof.
  unfold tickers. destruct (String.eqb old_ticker new_ticker).
  - cbn [adjust_splits]. rewrite split_step_rescaled. reflexivity.
  - destruct order; cbn [adjust_splits]; rewrite split_step_rescaled;
      cbn [bind]; rewrite split_step_rescaled; cbn [bind]; f_equal;
      rewrite map_map; apply map_ext; intros [d p]; reflexivity.
Qed.

(** The order of the visit shows in the last digit: 32 then 59, both after
    a 1-for-3 split of the old ticker and a 1-for-7 split of the new one,
    give 84.37 when the old ticker is visited first and 84.38 when the new
    one is. *)
Lemma visiting_order_shows_in_the_last_digit :
  (s <- adjust_splits Sample.two_splits (tickers true "OLD" "NEW") Sample.two_split_series ;;
   compute_return_of s (beginning_date 1)) = Ok (dbl (8437 # 100)) /\
  (s <- adjust_splits Sample.two_splits (tickers false "OLD" "NEW") Sample.two_split_series ;;
   compute_return_of s (beginning_date 1)) = Ok (dbl (8438 # 100)).
Proof. split; vm_compute; qc_eq. Qed.

(** C4 as stated fails: the adjuster leaves the price of 2023-02-28 at 50;
    it does not become 25. *)
Lemma xyz_pre_split_price_is_not_25 :
  (s <- adjust_splits [Sample.xyz_split] (tickers true "XYZ" "XYZ") Sample.xyz_series ;;
   iloc_first s) = Ok (price 50) /\
  price 50 <> price 25.
Proof.
  split.
  - vm_compute. qc_eq.
  - intro H. inversion H.
Qed.

(** C4, amended.  XYZ, 2-for-1 effective 2023-03-01, 50 on 2023-02-28 and
    26 on 2023-03-01: the pivoted column holds these two prices, the
    adjuster keeps 50 on 2023-02-28 and rescales the price of 2023-03-01
    to 52, and the return over the window that starts on 2023-02-28 is
    4.00. *)
Theorem xyz_split_scenario (order : bool) :
  getitem (df_slice_to (transform_prices_to_DataFrame Sample.xyz_rows) analysis_end) "XYZ"
  = Ok Sample.xyz_series /\
  adjust_splits [Sample.xyz_split] (tickers order "XYZ" "XYZ") Sample.xyz_series
  = Ok [(Sample.feb28, price 50); (Sample.mar1, price 52)] /\
  compute_return_of [(Sample.feb28, price 50); (Sample.mar1, price 52)] Sample.feb28
  = Ok (price 4).
Proof.
  split; [| split].
  - vm_compute. qc_eq.
  - destruct order; vm_compute; qc_eq.
  - vm_compute. qc_eq.
Qed.

(** The script itself cannot be asked for that window: its window starts
    at 2024-12-31 minus the lookback, where this table has no row. *)
Lemma xyz_through_main_has_no_window :
  main "XYZ" "1 day" Sample.xyz_rows [] [Sample.xyz_split] true = Err IndexError.
Proof. reflexivity. Qed.

Section Windows.

Variables (eff : date) (ratio : fnum).

Lemma slice_from_where (s : Series) (start : date) :
  slice_from (where_on_or_after eff ratio s) start
  = where_on_or_after eff ratio (slice_from s start).
Proof.
  induction s as [| [d p] s IH]; [reflexivity |].
  cbn [where_on_or_after map slice_from fst].
  destruct (d <? start); [exact IH | reflexivity].
Qed.

Lemma where_all_before (w : Series) :
  (forall dp, In dp w -> fst dp < eff) -> where_on_or_after eff ratio w = w.
Proof.
  induction w as [| [d p] w IH]; intro H; [reflexivity |].
  cbn [where_on_or_after map fst snd].
  pose proof (H (d, p) (or_introl eq_refl)) as Hd. cbn in Hd.
  destruct (Z.leb_spec eff d) as [Hle | _]; [lia |].
  f_equal. apply IH. intros dp Hin. apply H. right. exact Hin.
Qed.

Lemma where_all_after (w : Series) :
  (forall dp, In dp w -> eff <= fst dp) ->
  where_on_or_after eff ratio w = map (fun dp => (fst dp, fmul (snd dp) ratio)) w.
Proof.
  induction w as [| [d p] w IH]; intro H; [reflexivity |].
  cbn [where_on_or_after map fst snd].
  pose proof (H (d, p) (or_introl eq_refl)) as Hd. cbn in Hd.
  destruct (Z.leb_spec eff d) as [_ | Hlt]; [| lia].
  f_equal. apply IH. intros dp Hin. apply H. right. exact Hin.
Qed.

End Windows.

Lemma iloc_first_scaled (w : Series) (ratio : fnum) :
  iloc_first (map (fun dp => (fst dp, fmul (snd dp) ratio)) w)
  = (t <- iloc_first w ;; Ok (fmul t ratio)).
Proof. destruct w as [| [d p] w]; reflexivity. Qed.

Lemma iloc_last_scaled (w : Series) (ratio : fnum) :
  iloc_last (map (fun dp => (fst dp, fmul (snd dp) ratio)) w)
  = (t <- iloc_last w ;; Ok (fmul t ratio)).
Proof.
  induction w as [| [d p] w IH]; [reflexivity |].
  destruct w as [| dp' w]; [reflexivity |].
  cbn [map]. rewrite !iloc_last_cons. exact IH.
Qed.

Lemma forallb_false_witness {A : Type} (f : A -> bool) (l : list A) :
  forallb f l = false -> exists x, In x l /\ f x = false.
Proof.
  induction l as [| a l IH]; cbn; [discriminate |].
  destruct (f a) eqn:E; cbn.
  - intro H. destruct (IH H) as [x [Hin Hx]]. exists x. split; [right |]; assumption.
  - intros _. exists a. split; [left; reflexivity | exact E].
Qed.

Lemma return_of_window_before (r : Split.t) (s : Series) (start : date) :
  (forall dp, In dp (slice_from s start) -> fst dp < Split.effective_date r) ->
  compute_return_of (apply_split r s) start = compute_return_of s start.
Proof.
  intro Hb. unfold compute_return_of, apply_split.
  rewrite slice_from_where. rewrite where_all_before by exact Hb. reflexivity.
Qed.

(** C7 as stated fails: 32 then 31, both after a 1-for-3 split, so every
    retained date is on or after the effective date and the quantities are
    positive; the return of the adjusted series is -3.13, the return of
    the unadjusted one -3.12. *)
Lemma window_after_a_split_can_change_the_return :
  first_split [Sample.third_split] "T" = Some Sample.third_split /\
  (forall dp, In dp (slice_from Sample.third_series (beginning_date 1)) ->
              Split.effective_date Sample.third_split <= fst dp) /\
  (s <- split_step [Sample.third_split] Sample.third_series "T" ;;
   compute_return_of s (beginning_date 1)) = Ok (dbl (-313 # 100)) /\
  compute_return_of Sample.third_series (beginning_date 1) = Ok (dbl (-312 # 100)) /\
  dbl (-313 # 100) <> dbl (-312 # 100).
Proof.
  split; [reflexivity |]. split; [| split; [| split]].
  - intros dp Hin. vm_compute in Hin.
    destruct Hin as [<- | [<- | []]]; vm_compute; discriminate.
  - vm_compute. qc_eq.
  - vm_compute. qc_eq.
  - intro H. vm_compute in H. inversion H.
Qed.

(** C7, amended.  For the split row that the adjuster applies to a
    ticker: when the dates that the window retains lie all before the
    effective date, the return of the adjusted series is the return of the
    unadjusted one; when they lie all on or after it, the return is taken
    from the first and the last price each multiplied by the split ratio
    on float64, which is the unadjusted return up to the rounding of these
    products and of their quotient; a return that differs needs a retained
    date on or after the effective date. *)
Theorem return_of_a_window_beside_a_split (df_splits : list Split.t) (t : string)
    (r : Split.t) (s : Series) (start : date) :
  first_split df_splits t = Some r ->
  let w := slice_from s start in
  let eff := Split.effective_date r in
  exists s',
    split_step df_splits s t = Ok s' /\
    dates s' = dates s /\
    ((forall dp, In dp w -> fst dp < eff) ->
     compute_return_of s' start = compute_return_of s start) /\
    ((forall dp, In dp w -> eff <= fst dp) ->
     forall t0 t1, iloc_first w = Ok t0 -> iloc_last w = Ok t1 ->
     compute_return_of s' start
     = Ok (round2 (fmul (fsub (fdiv (fmul t1 (split_ratio r)) (fmul t0 (split_ratio r)))
                              (price 1))
                        (price 100)))) /\
    (compute_return_of s' start <> compute_return_of s start ->
     exists dp, In dp w /\ eff <= fst dp).
Proof.
  intros Hr w eff. exists (apply_split r s).
  rewrite split_step_first, Hr.
  split; [reflexivity |]. split.
  { unfold dates, apply_split, where_on_or_after. rewrite map_map. reflexivity. }
  split; [apply return_of_window_before |]. split.
  - intros Ha t0 t1 H0 H1. unfold compute_return_of, apply_split.
    rewrite slice_from_where. rewrite where_all_after by exact Ha.
    rewrite iloc_last_scaled, iloc_first_scaled. fold w. rewrite H0, H1. reflexivity.
  - intro Hne.
    destruct (forallb (fun dp => fst dp <? eff) w) eqn:Eb.
    { exfalso. apply Hne. apply return_of_window_before.
      intros dp Hin. rewrite forallb_forall in Eb.
      apply Z.ltb_lt. apply Eb. exact Hin. }
    destruct (forallb_false_witness _ _ Eb) as [dp [Hin Hdp]].
    exists dp. apply Z.ltb_ge in Hdp. split; assumption.
Qed.

Lemma return_of_a_window_beside_a_split_witness :
  exists s',
    split_step [Sample.late_split] Sample.aapl_series "AAPL" = Ok s' /\
    compute_return_of s' (beginning_date 1)
    = compute_return_of Sample.aapl_series (beginning_date 1) /\
    (s <- split_step [Sample.third_split] Sample.third_series "T" ;;
     compute_return_of s (beginning_date 1)) = Ok (dbl (-313 # 100)).
Proof.
  destruct (return_of_a_window_beside_a_split [Sample.late_split] "AAPL"
              Sample.late_split Sample.aapl_series (beginning_date 1) eq_refl)
    as [s' [H1 [_ [H2 _]]]].
  exists s'. split; [exact H1 |]. split.
  - apply H2. intros dp Hin. vm_compute in Hin.
    destruct Hin as [<- | [<- | []]]; vm_compute; reflexivity.
  - destruct (return_of_a_window_beside_a_split [Sample.third_split] "T"
                Sample.third_split Sample.third_series (beginning_date 1) eq_refl)
      as [s2 [E1 [_ [_ [E2 _]]]]].
    rewrite E1. cbn [bind].
    rewrite (E2 ltac:(intros dp Hin; vm_compute in Hin;
                      destruct Hin as [<- | [<- | []]]; vm_compute; discriminate)
                (price 32) (price 31) eq_refl eq_refl).
    vm_compute. qc_eq.
Defined.

(** A window across the effective date: the adjusted return is 4.00, the
    unadjusted one is -48.00. *)
Lemma straddling_window_changes_return :
  compute_return_of (apply_split Sample.xyz_split Sample.xyz_series) Sample.feb28
  = Ok (price 4) /\
  compute_return_of Sample.xyz_series Sample.feb28 = Ok (price (-48)).
Proof. split; vm_compute; qc_eq. Qed.

(** ** Resolution of the queried ticker *)

Lemma resolve_first (q : string) (changes : list Change.t) :
  resolve q changes
  = Ok (match find (is_old q) changes with
        | Some r => RenamedForward q (Change.new_ticker r) (Change.effective_date r)
        | None =>
            match find (is_new q) changes with
            | Some r => RenamedBackward (Change.old_ticker r) q (Change.effective_date r)
            | None => Unchanged q
            end
        end).
Proof.
  unfold resolve.
  destruct (existsb (is_old q) changes) eqn:Eo.
  - destruct (existsb_find_filter _ _ Eo) as [r [rest [Hf Hl]]].
    rewrite Hf, Hl. reflexivity.
  - rewrite (existsb_false_find _ _ Eo).
    destruct (existsb (is_new q) changes) eqn:En.
    + destruct (existsb_find_filter _ _ En) as [r [rest [Hf Hl]]].
      rewrite Hf, Hl. reflexivity.
    + rewrite (existsb_false_find _ _ En). reflexivity.
Qed.

Lemma find_none {A : Type} (f : A -> bool) (l : list A) :
  (forall x, In x l -> f x = false) -> find f l = None.
Proof.
  induction l as [| a l IH]; intro H; [reflexivity |].
  cbn. rewrite (H a (or_introl eq_refl)). apply IH.
  intros x Hx. apply H. right. exact Hx.
Qed.

(** C9.  A query ticker found in the [old_ticker] column is resolved as a
    forward rename from the first row that has it as [old_ticker], whether
    or not it also occurs in the [new_ticker] column; a query ticker found
    only in the [new_ticker] column is resolved from the first row that has
    it as [new_ticker]. *)
Theorem resolution_is_first_match_old_first (q : string)
    (changes pre suf : list Change.t) (r : Change.t) :
  changes = (pre ++ r :: suf)%list ->
  (Change.old_ticker r = q ->
   (forall x, In x pre -> Change.old_ticker x <> q) ->
   resolve q changes
   = Ok (RenamedForward q (Change.new_ticker r) (Change.effective_date r))) /\
  (Change.new_ticker r = q ->
   (forall x, In x pre -> Change.new_ticker x <> q) ->
   (forall x, In x changes -> Change.old_ticker x <> q) ->
   resolve q changes
   = Ok (RenamedBackward (Change.old_ticker r) q (Change.effective_date r))).
Proof.
  intros ->. rewrite resolve_first. split.
  - intros Hr Hpre. rewrite (find_first (is_old q) pre suf r).
    + reflexivity.
    + apply String.eqb_eq. exact Hr.
    + intros x Hx. apply String.eqb_neq. apply Hpre. exact Hx.
  - intros Hr Hpre Hold. rewrite find_none.
    + rewrite (find_first (is_new q) pre suf r).
      * reflexivity.
      * apply String.eqb_eq. exact Hr.
      * intros x Hx. apply String.eqb_neq. apply Hpre. exact Hx.
    + intros x Hx. apply String.eqb_neq. apply Hold. exact Hx.
Qed.

Lemma resolution_is_first_match_old_first_witness :
  resolve "B" Sample.reused_changes = Ok (RenamedForward "B" "C" Sample.dec27) /\
  resolve "D" Sample.reused_changes = Ok (RenamedBackward "B" "D" Sample.dec31).
Proof.
  split.
  - apply (proj1 (resolution_is_first_match_old_first "B" Sample.reused_changes
                    [Change.mk "A" "B" Sample.dec30] [Change.mk "B" "D" Sample.dec31]
                    (Change.mk "B" "C" Sample.dec27) eq_refl)).
    + reflexivity.
    + intros x [<- | []]. discriminate.
  - apply (proj2 (resolution_is_first_match_old_first "D" Sample.reused_changes
                    [Change.mk "A" "B" Sample.dec30; Change.mk "B" "C" Sample.dec27] []
                    (Change.mk "B" "D" Sample.dec31) eq_refl)).
    + reflexivity.
    + intros x [<- | [<- | []]]; discriminate.
    + intros x [<- | [<- | [<- | []]]]; discriminate.
Defined.

(** ** The pivot *)

Section Pivot.

Local Open Scope Qc_scope.

Lemma key_eqb_eq (k k' : key) : key_eqb k k' = true <-> k = k'.
Proof.
  destruct k as [d t], k' as [d' t']. unfold key_eqb. cbn.
  rewrite andb_true_iff, Z.eqb_eq, String.eqb_eq.
  split; [intros [-> ->]; reflexivity | intro H; inversion H; auto].
Qed.

Lemma key_eqb_refl (k : key) : key_eqb k k = true.
Proof. apply key_eqb_eq. reflexivity. Qed.

Lemma key_eqb_sym (k k' : key) : key_eqb k k' = key_eqb k' k.
Proof.
  destruct (key_eqb k' k) eqn:E.
  - apply key_eqb_eq in E. subst. apply key_eqb_refl.
  - destruct (key_eqb k k') eqn:E'; [| reflexivity].
    apply key_eqb_eq in E'. subst. rewrite key_eqb_refl in E. discriminate.
Qed.

Lemma lookup_accumulate (k k' : key) (v : Qc) (groups : list (key * (Qc * nat))) :
  lookup_group k (accumulate k' v groups)
  = if key_eqb k' k then Some (add_to_group (lookup_group k groups) v)
    else lookup_group k groups.
Proof.
  induction groups as [| [k0 [s n]] rest IH].
  - cbn. rewrite (key_eqb_sym k k'). reflexivity.
  - cbn [accumulate lookup_group].
    destruct (key_eqb k' k0) eqn:E0.
    + apply key_eqb_eq in E0. subst k0. cbn [lookup_group].
      rewrite (key_eqb_sym k k'). destruct (key_eqb k' k); reflexivity.
    + cbn [lookup_group]. destruct (key_eqb k k0) eqn:E1.
      * apply key_eqb_eq in E1. subst k0. rewrite E0. reflexivity.
      * exact IH.
Qed.

Lemma lookup_group_rows (k : key) (rows : list PriceRow) (groups : list (key * (Qc * nat))) :
  lookup_group k
    (fold_left (fun g r => accumulate (row_date r, row_ticker r) (close_price r) g)
               rows groups)
  = fold_left (fun g r => Some (add_to_group g (close_price r)))
              (rows_of (fst k) (snd k) rows) (lookup_group k groups).
Proof.
  revert groups. induction rows as [| r rows IH]; intro groups; [reflexivity |].
  cbn [fold_left]. rewrite IH. rewrite lookup_accumulate.
  unfold rows_of. cbn [filter]. destruct k as [d t]. cbn [fst snd].
  destruct (key_eqb (row_date r, row_ticker r) (d, t)); reflexivity.
Qed.

Lemma add_rows_some (l : list PriceRow) (s : Qc) (n : nat) :
  fold_left (fun g r => Some (add_to_group g (close_price r))) l (Some (s, n))
  = Some (fold_left (fun acc r => acc + close_price r) l s, (n + List.length l)%nat).
Proof.
  revert s n. induction l as [| r l IH]; intros s n; cbn [fold_left List.length].
  - rewrite Nat.add_0_r. reflexivity.
  - cbn [add_to_group]. rewrite IH. rewrite Nat.add_succ_r. reflexivity.
Qed.

Lemma add_rows_none (l : list PriceRow) :
  fold_left (fun g r => Some (add_to_group g (close_price r))) l None
  = match l with
    | [] => None
    | _ :: _ => Some (sum_close l, List.length l)
    end.
Proof.
  destruct l as [| r l]; [reflexivity |].
  cbn [fold_left add_to_group]. rewrite add_rows_some.
  unfold sum_close. cbn [fold_left List.length]. rewrite Qcplus_0_l. reflexivity.
Qed.

Lemma lookup_cell_mean (k : key) (groups : list (key * (Qc * nat))) :
  lookup_cell k (map (fun g => (fst g, mean (fst (snd g)) (snd (snd g)))) groups)
  = match lookup_group k groups with
    | Some (s, n) => mean s n
    | None => NaN
    end.
Proof.
  induction groups as [| [k0 [s n]] rest IH]; [reflexivity |].
  cbn [map lookup_cell lookup_group fst snd].
  destruct (key_eqb k k0); [reflexivity | exact IH].
Qed.

Lemma qis0_of_Z (z : Z) : qis0 (qc_of_Z z) = (z =? 0)%Z.
Proof.
  rewrite qis0_num. unfold qc_of_Z, Q2Qc. cbn [this].
  rewrite Qred_identity; [reflexivity |]. cbn. apply Z.gcd_1_r.
Qed.

Lemma mean_of_some (s : Qc) (n : nat) :
  mean s (S n) = Fin (s / qc_of_Z (Z.of_nat (S n))).
Proof. reflexivity. Qed.

End Pivot.


(** 10, 20 and 60 on one date give 30; they are neither refused nor
    replaced by the last one. *)
Lemma repeated_rows_are_averaged :
  getitem (transform_prices_to_DataFrame Sample.repeated_rows) "X"
  = Ok [(Sample.dec30, price 30); (Sample.dec31, price 7)].
Proof. vm_compute. qc_eq. Qed.

(** ** Stitching a renamed ticker *)

Lemma removelast_cons {A : Type} (a : A) (l : list A) :
  l <> [] -> removelast (a :: l) = a :: removelast l.
Proof. destruct l; [congruence | reflexivity]. Qed.

(** When the effective date labels a row, dropping the last row of the
    slice up to it drops that row and no other. *)
Lemma removelast_slice_on_indexed_date (s : Series) (eff : date) :
  ascending (dates s) -> In eff (dates s) ->
  removelast (slice_to s eff) = filter (fun dp => fst dp <? eff) s.
Proof.
  induction s as [| [d p] s IH]; intros Hs Hin; [contradiction |].
  cbn in Hs. pose proof (ascending_head _ _ Hs) as Hlt.
  pose proof (ascending_tail _ _ Hs) as Ht.
  cbn [slice_to filter fst]. destruct Hin as [E | Hin].
  - cbn in E. subst d. rewrite Z.leb_refl, Z.ltb_irrefl.
    rewrite slice_to_filter by exact Ht.
    rewrite !filter_none; [reflexivity | |];
      intros [d' p'] Hd; apply in_dates in Hd; apply Hlt in Hd; cbn; lia.
  - pose proof (Hlt eff Hin) as Hd.
    destruct (Z.leb_spec d eff) as [_ | Hgt]; [| lia].
    destruct (Z.ltb_spec d eff) as [_ | Hge]; [| lia].
    rewrite removelast_cons.
    + f_equal. apply IH; assumption.
    + rewrite slice_to_filter by exact Ht. intro Hnil.
      unfold dates in Hin. apply in_map_iff in Hin.
      destruct Hin as [[d' p'] [E Hin']]. cbn in E. subst d'.
      assert (Hf : In (eff, p') (filter (fun dp => fst dp <=? eff) s)).
      { apply filter_In. split; [exact Hin' | cbn; apply Z.leb_refl]. }
      rewrite Hnil in Hf. contradiction.
Qed.

Lemma getitem_dates (df : DataFrame) (t : string) (s : Series) :
  getitem df t = Ok s -> dates s = df_index df.
Proof.
  unfold getitem. destruct (has_column df t); [| discriminate].
  intro H. inversion H. unfold dates. rewrite map_map. cbn. apply map_id.
Qed.

(** Where the claim of C2 holds: the effective date is a date of the table. *)
Lemma combine_on_indexed_date (df : DataFrame) (old_ticker new_ticker : string)
    (eff : date) (col_old col_new : Series) :
  ascending (df_index df) -> In eff (df_index df) ->
  getitem df old_ticker = Ok col_old -> getitem df new_ticker = Ok col_new ->
  combine_changed_tickers df old_ticker new_ticker eff
  = Ok (spec_stitched col_old col_new eff).
Proof.
  intros Hidx Hin Ho Hn. unfold combine_changed_tickers. rewrite Ho, Hn. cbn [bind].
  pose proof (getitem_dates _ _ _ Ho) as Do. pose proof (getitem_dates _ _ _ Hn) as Dn.
  rewrite removelast_slice_on_indexed_date by (rewrite Do; assumption).
  rewrite slice_from_retained by (rewrite Dn; assumption).
  reflexivity.
Qed.

(** C2 at a failing input.  FB became META on Saturday 2024-12-28, a date
    without a row: the stitcher drops FB's close of Friday 2024-12-27,
    which is before the effective date, and the return over 5 days is
    taken from 210 instead of 204. *)
Theorem stitch_drops_a_price_before_an_unlisted_effective_date (order : bool) :
  getitem Sample.fb_table "FB"
  = Ok [(Sample.dec27, price 204); (Sample.dec30, NaN); (Sample.dec31, NaN)] /\
  getitem Sample.fb_table "META"
  = Ok [(Sample.dec27, NaN); (Sample.dec30, price 210); (Sample.dec31, price 212)] /\
  combine_changed_tickers Sample.fb_table "FB" "META" Sample.dec28
  = Ok [(Sample.dec30, price 210); (Sample.dec31, price 212)] /\
  (col_old <- getitem Sample.fb_table "FB" ;;
   col_new <- getitem Sample.fb_table "META" ;;
   Ok (spec_stitched col_old col_new Sample.dec28))
  = Ok [(Sample.dec27, price 204); (Sample.dec30, price 210); (Sample.dec31, price 212)] /\
  main "FB" "5 days" Sample.fb_rows Sample.fb_changes_saturday [] order
  = Ok (dbl (95 # 100)) /\
  compute_return_of
    [(Sample.dec27, price 204); (Sample.dec30, price 210); (Sample.dec31, price 212)]
    (beginning_date 5)
  = Ok (dbl (392 # 100)).
Proof.
  repeat split; try (destruct order); vm_compute; qc_eq.
Qed.

(** With the effective date on a date of the table the same data are
    stitched as the claim says. *)
Lemma stitch_on_a_listed_effective_date (order : bool) :
  combine_changed_tickers Sample.fb_table "FB" "META" Sample.dec30
  = Ok [(Sample.dec27, price 204); (Sample.dec30, price 210); (Sample.dec31, price 212)] /\
  main "FB" "5 days" Sample.fb_rows Sample.fb_changes_monday [] order
  = Ok (dbl (392 # 100)).
Proof.
  repeat split; try (destruct order); vm_compute; qc_eq.
Qed.

(** ** Missing columns *)

Lemma getitem_missing (df : DataFrame) (t : string) :
  has_column df t = false -> getitem df t = Err (KeyError t).
Proof. unfold getitem. intros ->. reflexivity. Qed.

Lemma getitem_present (df : DataFrame) (t : string) :
  has_column df t = true -> exists s, getitem df t = Ok s.
Proof. unfold getitem. intros ->. eexists. reflexivity. Qed.

Lemma combine_missing_old (df : DataFrame) (o n : string) (e : date) :
  has_column df o = false ->
  combine_changed_tickers df o n e = Err (KeyError o).
Proof.
  intro H. unfold combine_changed_tickers. rewrite (getitem_missing _ _ H). reflexivity.
Qed.

Lemma combine_missing_new (df : DataFrame) (o n : string) (e : date) :
  has_column df o = true -> has_column df n = false ->
  combine_changed_tickers df o n e = Err (KeyError n).
Proof.
  intros Ho Hn. unfold combine_changed_tickers.
  destruct (getitem_present _ _ Ho) as [s ->].
  rewrite (getitem_missing _ _ Hn). reflexivity.
Qed.

Lemma combine_present (df : DataFrame) (o n : string) (e : date) :
  has_column df o = true -> has_column df n = true ->
  exists s, combine_changed_tickers df o n e = Ok s.
Proof.
  intros Ho Hn. unfold combine_changed_tickers.
  destruct (getitem_present _ _ Ho) as [so ->].
  destruct (getitem_present _ _ Hn) as [sn ->].
  eexists. reflexivity.
Qed.

Lemma resolve_total (q : string) (changes : list Change.t) :
  exists id, resolve q changes = Ok id.
Proof. rewrite resolve_first. eexists. reflexivity. Qed.

(** The queried ticker is one of the two tickers of its chain. *)
Lemma resolve_chain (q : string) (changes : list Change.t) (id : identity) :
  resolve q changes = Ok id -> q = fst (chain id) \/ q = snd (chain id).
Proof.
  rewrite resolve_first. intro H. inversion H as [E]. clear H E.
  destruct (find (is_old q) changes); [left; reflexivity |].
  destruct (find (is_new q) changes); [right | left]; reflexivity.
Qed.

Lemma stitched_missing (df : DataFrame) (id : identity) :
  has_column df (fst (chain id)) = false \/ has_column df (snd (chain id)) = false ->
  exists t,
    stitched df id = Err (KeyError t) /\ has_column df t = false /\
    (t = fst (chain id) \/ t = snd (chain id)).
Proof.
  intro H.
  assert (Hc : forall o n e,
             has_column df o = false \/ has_column df n = false ->
             exists t, combine_changed_tickers df o n e = Err (KeyError t) /\
                       has_column df t = false /\ (t = o \/ t = n)).
  { intros o n e Hon. destruct (has_column df o) eqn:Ho.
    - destruct Hon as [Hon | Hon]; [discriminate |].
      exists n. split; [apply combine_missing_new; assumption |].
      split; [exact Hon | right; reflexivity].
    - exists o. split; [apply combine_missing_old; exact Ho |].
      split; [exact Ho | left; reflexivity]. }
  destruct id as [t | o n e | o n e]; cbn [chain fst snd stitched] in *.
  - assert (Ht : has_column df t = false) by (destruct H; assumption).
    exists t. split; [apply getitem_missing; exact Ht |].
    split; [exact Ht | left; reflexivity].
  - apply Hc. exact H.
  - apply Hc. exact H.
Qed.

(** C8.  The queried ticker is resolved to its chain, and whenever the
    queried ticker, the old ticker or the new ticker of that chain has no
    column in the price table, the pipeline ends with the failure on a
    missing ticker, for a ticker of the query or chain that has no column:
    the [ValueError] of line 86 when it is the queried one, the [KeyError]
    of the column lookup otherwise. *)
Theorem missing_column_fails (df_prices : DataFrame) (input_ticker : string)
    (timeframe : Z) (df_ticker_changes : list Change.t) (df_splits : list Split.t)
    (order : bool) :
  exists id,
    resolve input_ticker df_ticker_changes = Ok id /\
    (has_column df_prices input_ticker = false ->
     compute_return df_prices input_ticker timeframe df_ticker_changes df_splits order
     = Err (ValueError_price_data_not_found input_ticker)) /\
    (has_column df_prices input_ticker = false \/
     has_column df_prices (fst (chain id)) = false \/
     has_column df_prices (snd (chain id)) = false ->
     exists e t,
       compute_return df_prices input_ticker timeframe df_ticker_changes df_splits order
       = Err e /\
       TickerNotFound e t /\ has_column df_prices t = false /\
       (t = input_ticker \/ t = fst (chain id) \/ t = snd (chain id))).
Proof.
  destruct (resolve_total input_ticker df_ticker_changes) as [id Hid].
  exists id. split; [exact Hid |].
  assert (Hq : has_column df_prices input_ticker = false ->
               compute_return df_prices input_ticker timeframe df_ticker_changes
                 df_splits order
               = Err (ValueError_price_data_not_found input_ticker)).
  { intro H. unfold compute_return. rewrite H. reflexivity. }
  split; [exact Hq |]. intro H.
  destruct (has_column df_prices input_ticker) eqn:Hcol.
  - assert (Hm : has_column df_prices (fst (chain id)) = false \/
                 has_column df_prices (snd (chain id)) = false)
      by (destruct H as [H | H]; [discriminate | exact H]).
    destruct (stitched_missing df_prices id Hm) as [t [Hs [Ht Hin]]].
    exists (KeyError t), t. split; [| split; [| split]].
    + unfold compute_return. rewrite Hcol. cbn [negb].
      unfold returns_from, account_for_ticker_changes.
      rewrite Hid. cbn [bind]. rewrite Hs. reflexivity.
    + right. reflexivity.
    + exact Ht.
    + right. exact Hin.
  - exists (ValueError_price_data_not_found input_ticker), input_ticker.
    split; [apply Hq; reflexivity |]. split; [left; reflexivity |].
    split; [exact Hcol | left; reflexivity].
Qed.

Lemma missing_column_fails_witness :
  compute_return Sample.fb_table "TSLA" 5 Sample.fb_changes_monday [] true
  = Err (ValueError_price_data_not_found "TSLA") /\
  exists e t,
    compute_return Sample.fb_table "META" 5 Sample.unlisted_changes [] true = Err e /\
    TickerNotFound e t /\ has_column Sample.fb_table t = false.
Proof.
  split.
  - destruct (missing_column_fails Sample.fb_table "TSLA" 5 Sample.fb_changes_monday
                [] true) as [id [_ [H _]]].
    apply H. reflexivity.
  - destruct (missing_column_fails Sample.fb_table "META" 5 Sample.unlisted_changes
                [] true) as [id [Hid [_ H]]].
    vm_compute in Hid. inversion Hid as [E]. clear Hid. subst id.
    destruct H as [e [t [He [Ht [Hc _]]]]]; [right; right; reflexivity |].
    exists e, t. repeat split; assumption.
Defined.

(** ** One identity under its two symbols *)

Lemma rescaled_none (df_splits : list Split.t) (t : string) (d : date) (p : fnum) :
  first_split df_splits t = None -> rescaled df_splits t d p = p.
Proof. unfold rescaled. intros ->. reflexivity. Qed.

(** When at most one of the two tickers has a split row, the order of the
    visit does not matter. *)
Lemma adjust_splits_order (df_splits : list Split.t) (order order' : bool)
    (o n : string) (s : Series) :
  first_split df_splits o = None \/ first_split df_splits n = None ->
  adjust_splits df_splits (tickers order o n) s
  = adjust_splits df_splits (tickers order' o n) s.
Proof.
  intro Hone.
  assert (H : adjust_splits df_splits [o; n] s = adjust_splits df_splits [n; o] s).
  { cbn [adjust_splits]. rewrite !split_step_rescaled. cbn [bind].
    rewrite !split_step_rescaled. cbn [bind]. f_equal. rewrite !map_map.
    apply map_ext. intros [d p]. cbn [fst snd]. f_equal.
    destruct Hone as [E | E]; rewrite !(rescaled_none _ _ _ _ E); reflexivity. }
  unfold tickers. destruct (String.eqb o n); [reflexivity |].
  destruct order, order'; try reflexivity; [| symmetry]; exact H.
Qed.

(** C3 as stated fails: A and B both became C on 2024-12-30, each old
    ticker in one row; the rename of B to C is a row of the table, yet the
    query C is resolved by the first row with C as new ticker, the rename
    of A; the two queries give neither the same series nor the same
    return. *)
Lemma shared_new_symbol_resolves_differently :
  In (Change.mk "B" "C" Sample.dec30) Sample.merged_changes /\
  account_for_ticker_changes Sample.merged_table "B" Sample.merged_changes
  = Ok ([(Sample.dec27, price 50); (Sample.dec30, price 110); (Sample.dec31, price 121)],
        ("B", "C")) /\
  account_for_ticker_changes Sample.merged_table "C" Sample.merged_changes
  = Ok ([(Sample.dec27, price 100); (Sample.dec30, price 110); (Sample.dec31, price 121)],
        ("A", "C")) /\
  main "B" "5 days" Sample.merged_rows Sample.merged_changes [] true = Ok (price 142) /\
  main "C" "5 days" Sample.merged_rows Sample.merged_changes [] true = Ok (price 21) /\
  main "B" "5 days" Sample.merged_rows Sample.merged_changes [] true
  <> main "C" "5 days" Sample.merged_rows Sample.merged_changes [] true.
Proof.
  split; [right; left; reflexivity |].
  split; [vm_compute; qc_eq |].
  split; [vm_compute; qc_eq |].
  split; [vm_compute; qc_eq |].
  split; [vm_compute; qc_eq |].
  intro H. vm_compute in H. inversion H.
Qed.

Lemma returns_from_missing (df : DataFrame) (q : string) (tf : Z)
    (changes : list Change.t) (splits : list Split.t) (order : bool) (id : identity) :
  resolve q changes = Ok id ->
  has_column df (fst (chain id)) = false \/ has_column df (snd (chain id)) = false ->
  is_ok (returns_from df q tf changes splits order) = false.
Proof.
  intros Hid Hm. destruct (stitched_missing df id Hm) as [t [Hs _]].
  unfold returns_from, account_for_ticker_changes. rewrite Hid. cbn [bind].
  rewrite Hs. reflexivity.
Qed.

(** C3, amended.  For a row [r] of the rename table that is the first row
    with its [old_ticker] and the first row with its [new_ticker], and
    whose [new_ticker] is no row's [old_ticker]: the query by the old
    symbol and the query by the new symbol are resolved to the same chain
    and effective date and give the same stitched series; over the same
    lookback they give the same return when both symbols have a column in
    the price table and both runs visit the two tickers in the same order,
    which is every pair of runs when at most one of the two tickers has a
    split row; both fail when one symbol has no column. *)
Theorem same_identity_under_both_symbols (df_prices : DataFrame)
    (df_ticker_changes pre suf : list Change.t) (r : Change.t) (timeframe : Z)
    (df_splits : list Split.t) (order : bool) :
  df_ticker_changes = (pre ++ r :: suf)%list ->
  (forall x, In x pre -> Change.old_ticker x <> Change.old_ticker r) ->
  (forall x, In x pre -> Change.new_ticker x <> Change.new_ticker r) ->
  (forall x, In x df_ticker_changes -> Change.old_ticker x <> Change.new_ticker r) ->
  let o := Change.old_ticker r in
  let n := Change.new_ticker r in
  resolve o df_ticker_changes = Ok (RenamedForward o n (Change.effective_date r)) /\
  resolve n df_ticker_changes = Ok (RenamedBackward o n (Change.effective_date r)) /\
  account_for_ticker_changes df_prices o df_ticker_changes
  = account_for_ticker_changes df_prices n df_ticker_changes /\
  (has_column df_prices o = true -> has_column df_prices n = true ->
   compute_return df_prices o timeframe df_ticker_changes df_splits order
   = compute_return df_prices n timeframe df_ticker_changes df_splits order) /\
  (has_column df_prices o = true -> has_column df_prices n = true ->
   first_split df_splits o = None \/ first_split df_splits n = None ->
   forall order',
     compute_return df_prices o timeframe df_ticker_changes df_splits order
     = compute_return df_prices n timeframe df_ticker_changes df_splits order') /\
  (has_column df_prices o = false \/ has_column df_prices n = false ->
   forall order',
     is_ok (compute_return df_prices o timeframe df_ticker_changes df_splits order) = false /\
     is_ok (compute_return df_prices n timeframe df_ticker_changes df_splits order') = false).
Proof.
  intros Hc Hold Hnew Hnot o n.
  assert (Ho : resolve o df_ticker_changes
               = Ok (RenamedForward o n (Change.effective_date r))).
  { rewrite resolve_first, Hc. rewrite (find_first (is_old o) pre suf r).
    - reflexivity.
    - apply String.eqb_refl.
    - intros x Hx. apply String.eqb_neq. apply Hold. exact Hx. }
  assert (Hn : resolve n df_ticker_changes
               = Ok (RenamedBackward o n (Change.effective_date r))).
  { rewrite resolve_first. rewrite find_none.
    - rewrite Hc. rewrite (find_first (is_new n) pre suf r).
      + reflexivity.
      + apply String.eqb_refl.
      + intros x Hx. apply String.eqb_neq. apply Hnew. exact Hx.
    - intros x Hx. apply String.eqb_neq. apply Hnot. exact Hx. }
  assert (Ha : account_for_ticker_changes df_prices o df_ticker_changes
               = account_for_ticker_changes df_prices n df_ticker_changes).
  { unfold account_for_ticker_changes. rewrite Ho, Hn. reflexivity. }
  assert (Hr : returns_from df_prices o timeframe df_ticker_changes df_splits order
               = returns_from df_prices n timeframe df_ticker_changes df_splits order).
  { unfold returns_from. rewrite <- Ha. reflexivity. }
  assert (Hr' : first_split df_splits o = None \/ first_split df_splits n = None ->
                forall order',
                  returns_from df_prices o timeframe df_ticker_changes df_splits order
                  = returns_from df_prices n timeframe df_ticker_changes df_splits order').
  { intros Hone order'. unfold returns_from. rewrite <- Ha.
    unfold account_for_ticker_changes. rewrite Ho. cbn [bind].
    destruct (stitched df_prices _) as [s | e]; [| reflexivity].
    cbn [bind fst snd chain].
    rewrite (adjust_splits_order df_splits order order' o n s Hone). reflexivity. }
  split; [exact Ho |]. split; [exact Hn |]. split; [exact Ha |].
  split; [| split].
  - intros Hco Hcn. unfold compute_return. rewrite Hco, Hcn. cbn [negb]. exact Hr.
  - intros Hco Hcn Hone order'. unfold compute_return. rewrite Hco, Hcn. cbn [negb].
    apply Hr'. exact Hone.
  - intros Hm order'. unfold compute_return.
    destruct (has_column df_prices o) eqn:Hco, (has_column df_prices n) eqn:Hcn;
      cbn [negb is_ok].
    + destruct Hm; discriminate.
    + split; [| reflexivity].
      apply (returns_from_missing _ _ _ _ _ _ _ Ho). right. exact Hcn.
    + split; [reflexivity |].
      apply (returns_from_missing _ _ _ _ _ _ _ Hn). left. exact Hco.
    + split; reflexivity.
Qed.

Lemma same_identity_under_both_symbols_witness :
  compute_return Sample.fb_table "FB" 5 Sample.fb_changes_monday [] true
  = compute_return Sample.fb_table "META" 5 Sample.fb_changes_monday [] false /\
  compute_return Sample.fb_table "META" 5 Sample.fb_changes_monday [] false
  = Ok (dbl (392 # 100)).
Proof.
  split.
  - destruct (same_identity_under_both_symbols Sample.fb_table
                Sample.fb_changes_monday [] [] (Change.mk "FB" "META" Sample.dec30)
                5 [] true eq_refl) as [_ [_ [_ [_ [H _]]]]].
    + intros x [].
    + intros x [].
    + intros x [<- | []]. discriminate.
    + apply H; try reflexivity. left. reflexivity.
  - vm_compute. qc_eq.
Defined.

(** ** The series of the pipeline has ascending dates *)

Lemma insert_date_in (d y : date) (l : list date) :
  In y (insert_date d l) -> y = d \/ In y l.
Proof.
  induction l as [| x l IH]; cbn.
  - intros [<- | []]. left. reflexivity.
  - destruct (d <? x).
    + intros [<- | H]; [left; reflexivity | right; exact H].
    + destruct (d =? x); [intro H; right; exact H |].
      intros [<- | H]; [right; left; reflexivity |].
      destruct (IH H) as [-> | H']; [left; reflexivity | right; right; exact H'].
Qed.

Lemma insert_date_ascending (d : date) (l : list date) :
  ascending l -> ascending (insert_date d l).
Proof.
  induction l as [| x l IH]; intro Hl; [reflexivity |].
  pose proof (ascending_head _ _ Hl) as Hx.
  pose proof (ascending_tail _ _ Hl) as Ht.
  cbn [insert_date]. destruct (Z.ltb_spec d x) as [Hlt | Hge].
  - apply ascending_cons; [exact Hl |].
    intros y [<- | Hy]; [exact Hlt |]. specialize (Hx y Hy). lia.
  - destruct (Z.eqb_spec d x) as [E | Hne]; [exact Hl |].
    apply ascending_cons; [apply IH; exact Ht |].
    intros y Hy. destruct (insert_date_in _ _ _ Hy) as [-> | Hy']; [lia |].
    apply Hx. exact Hy'.
Qed.

Lemma index_to_ascending (idx : list date) (stop : date) :
  ascending idx -> ascending (index_to idx stop).
Proof.
  induction idx as [| d idx IH]; intro H; [reflexivity |].
  cbn [index_to]. destruct (d <=? stop); [| reflexivity].
  pose proof (ascending_head _ _ H) as Hd.
  apply ascending_cons; [apply IH; eapply ascending_tail; exact H |].
  intros y Hy. apply Hd. clear - Hy.
  induction idx as [| x idx IH]; [contradiction |].
  cbn [index_to] in Hy. destruct (x <=? stop); [| contradiction].
  destruct Hy as [<- | Hy]; [left; reflexivity | right; apply IH; exact Hy].
Qed.

(** The table that the script works on has strictly increasing dates. *)
Lemma table_index_ascending (prices : list PriceRow) (stop : date) :
  ascending (df_index (df_slice_to (transform_prices_to_DataFrame prices) stop)).
Proof.
  cbn [df_slice_to df_index transform_prices_to_DataFrame].
  apply index_to_ascending.
  assert (H : forall acc, ascending acc ->
                ascending (fold_left (fun idx r => insert_date (row_date r) idx) prices acc)).
  { induction prices as [| r rows IH]; intros acc Hacc; [exact Hacc |].
    cbn [fold_left]. apply IH. apply insert_date_ascending. exact Hacc. }
  apply H. reflexivity.
Qed.

Lemma removelast_in {A : Type} (l : list A) (x : A) :
  In x (removelast l) -> In x l.
Proof.
  induction l as [| a l IH]; [contradiction |].
  destruct l as [| b l]; [contradiction |].
  change (removelast (a :: b :: l)) with (a :: removelast (b :: l)).
  intros [<- | H]; [left; reflexivity | right; apply IH; exact H].
Qed.

Lemma removelast_ascending (s : Series) :
  ascending (dates s) -> ascending (dates (removelast s)).
Proof.
  induction s as [| a s IH]; intro H; [reflexivity |].
  destruct s as [| b s]; [reflexivity |].
  change (removelast (a :: b :: s)) with (a :: removelast (b :: s)).
  cbn [dates map] in *. apply ascending_cons.
  - apply IH. eapply ascending_tail; exact H.
  - intros y Hy. eapply ascending_head; [exact H |].
    change (In y (dates (removelast (b :: s)))) in Hy.
    unfold dates in Hy. apply in_map_iff in Hy. destruct Hy as [x [<- Hx]].
    apply removelast_in in Hx. exact (in_map fst (b :: s) x Hx).
Qed.

(** Without its last row, a slice up to [stop] lies strictly before [stop]. *)
Lemma removelast_before (s : Series) (stop : date) :
  ascending (dates s) -> (forall x, In x s -> fst x <= stop) ->
  forall x, In x (removelast s) -> fst x < stop.
Proof.
  induction s as [| a s IH]; intros Hs Hle x Hx; [contradiction |].
  destruct s as [| b s]; [contradiction |].
  change (removelast (a :: b :: s)) with (a :: removelast (b :: s)) in Hx.
  destruct Hx as [<- | Hx].
  - cbn [dates map] in Hs.
    pose proof (ascending_head _ _ Hs (fst b) (or_introl eq_refl)).
    specialize (Hle b (or_intror (or_introl eq_refl))). lia.
  - apply IH; [eapply ascending_tail; exact Hs | | exact Hx].
    intros y Hy. apply Hle. right. exact Hy.
Qed.

Lemma combine_ascending (df : DataFrame) (o n : string) (e : date) (s : Series) :
  ascending (df_index df) -> combine_changed_tickers df o n e = Ok s ->
  ascending (dates s).
Proof.
  intros Hidx. unfold combine_changed_tickers.
  destruct (getitem df o) as [co | err] eqn:Ho; [| discriminate].
  destruct (getitem df n) as [cn | err] eqn:Hn; [| discriminate].
  cbn [bind]. intro H. inversion H as [E]. clear H E.
  assert (Hco : ascending (dates co)) by (rewrite (getitem_dates _ _ _ Ho); exact Hidx).
  assert (Hcn : ascending (dates cn)) by (rewrite (getitem_dates _ _ _ Hn); exact Hidx).
  rewrite slice_to_filter by exact Hco. rewrite slice_from_retained by exact Hcn.
  unfold dates. rewrite map_app. apply ascending_app.
  - apply removelast_ascending. apply ascending_filter. exact Hco.
  - apply ascending_filter. exact Hcn.
  - intros x y Hx Hy. apply in_map_iff in Hx. destruct Hx as [dx [<- Hx]].
    apply in_map_iff in Hy. destruct Hy as [dy [<- Hy]].
    apply filter_In in Hy. destruct Hy as [_ Hy]. cbn beta in Hy.
    apply Z.leb_le in Hy. cbn [fst] in *.
    assert (Hlt : fst dx < e); [| unfold date in *; lia].
    apply (removelast_before (filter (fun dp => fst dp <=? e) co) e).
    + apply ascending_filter. exact Hco.
    + intros z Hz. apply filter_In in Hz. apply Z.leb_le. apply Hz.
    + exact Hx.
Qed.

Lemma adjust_splits_dates (df_splits : list Split.t) (ts : list string) (s s' : Series) :
  adjust_splits df_splits ts s = Ok s' -> dates s' = dates s.
Proof.
  revert s. induction ts as [| t ts IH]; intros s H.
  - inversion H. reflexivity.
  - cbn [adjust_splits] in H. rewrite split_step_rescaled in H. cbn [bind] in H.
    rewrite (IH _ H). unfold dates. rewrite map_map. reflexivity.
Qed.

(** The series that reaches the return calculator has ascending dates. *)
Lemma adjusted_series_ascending (df : DataFrame) (q : string) (changes : list Change.t)
    (df_splits : list Split.t) (order : bool) (s s' : Series) (c : string * string) :
  ascending (df_index df) ->
  account_for_ticker_changes df q changes = Ok (s, c) ->
  adjust_splits df_splits (tickers order (fst c) (snd c)) s = Ok s' ->
  ascending (dates s').
Proof.
  intros Hidx Ha Hs. rewrite (adjust_splits_dates _ _ _ _ Hs).
  unfold account_for_ticker_changes in Ha.
  destruct (resolve q changes) as [id | e]; [| discriminate].
  cbn [bind] in Ha. destruct (stitched df id) as [s0 | e] eqn:Hst; [| discriminate].
  inversion Ha; subst. destruct id as [t | o n e | o n e]; cbn [stitched] in Hst.
  - rewrite (getitem_dates _ _ _ Hst). exact Hidx.
  - eapply combine_ascending; eassumption.
  - eapply combine_ascending; eassumption.
Qed.

(** The script on a known lookback is the pipeline on the cut table. *)
Lemma main_is_compute_return (input_ticker input_timeframe : string)
    (prices : list PriceRow) (changes : list Change.t) (df_splits : list Split.t)
    (order : bool) (timeframe : Z) :
  dict_timeframes input_timeframe = Some timeframe ->
  main input_ticker input_timeframe prices changes df_splits order
  = compute_return (df_slice_to (transform_prices_to_DataFrame prices) analysis_end)
      input_ticker timeframe changes df_splits order.
Proof.
  intro H. unfold main, compute_return. rewrite H. reflexivity.
Qed.

(** * Further properties of the code *)

(** ** The pivoted table *)

Lemma insert_date_mem (d y : date) (l : list date) :
  In y (insert_date d l) <-> y = d \/ In y l.
Proof.
  split; [apply insert_date_in |].
  induction l as [| x l IH]; cbn.
  - intros [-> | []]. left. reflexivity.
  - destruct (Z.ltb_spec d x) as [Hlt | Hge].
    + intros [-> | H]; [left; reflexivity | right; exact H].
    + destruct (Z.eqb_spec d x) as [E | Hne].
      * intros [-> | H]; [left; symmetry; exact E | exact H].
      * intros [-> | [-> | H]].
        -- right. apply IH. left. reflexivity.
        -- left. reflexivity.
        -- right. apply IH. right. exact H.
Qed.

Lemma insert_ticker_mem (t y : string) (l : list string) :
  In y (insert_ticker t l) <-> y = t \/ In y l.
Proof.
  induction l as [| x l IH]; cbn.
  - split; [intros [<- | []]; left; reflexivity | intros [-> | []]; left; reflexivity].
  - destruct (String.ltb t x).
    + cbn. split; [intros [<- | H] | intros [-> | H]]; auto.
    + destruct (String.eqb_spec t x) as [E | Hne].
      * subst x. cbn. split; [intro H; right; exact H | intros [-> | H]; [left; reflexivity | exact H]].
      * cbn. rewrite IH. split.
        -- intros [<- | [-> | H]]; auto.
        -- intros [-> | [<- | H]]; auto.
Qed.

Lemma index_mem (prices : list PriceRow) (acc : list date) (d : date) :
  In d (fold_left (fun idx r => insert_date (row_date r) idx) prices acc)
  <-> In d acc \/ exists r, In r prices /\ row_date r = d.
Proof.
  revert acc. induction prices as [| r rows IH]; intro acc; cbn [fold_left].
  - split; [intro H; left; exact H | intros [H | [r [[] _]]]; exact H].
  - rewrite IH. rewrite insert_date_mem. split.
    + intros [[-> | H] | [r' [Hin E]]].
      * right. exists r. split; [left; reflexivity | reflexivity].
      * left. exact H.
      * right. exists r'. split; [right; exact Hin | exact E].
    + intros [H | [r' [[<- | Hin] E]]].
      * left. right. exact H.
      * left. left. symmetry. exact E.
      * right. exists r'. split; assumption.
Qed.

Lemma index_ascending (prices : list PriceRow) (acc : list date) :
  ascending acc ->
  ascending (fold_left (fun idx r => insert_date (row_date r) idx) prices acc).
Proof.
  revert acc. induction prices as [| r rows IH]; intros acc Hacc; [exact Hacc |].
  cbn [fold_left]. apply IH. apply insert_date_ascending. exact Hacc.
Qed.

Lemma columns_mem (prices : list PriceRow) (acc : list string) (t : string) :
  In t (fold_left (fun cols r => insert_ticker (row_ticker r) cols) prices acc)
  <-> In t acc \/ exists r, In r prices /\ row_ticker r = t.
Proof.
  revert acc. induction prices as [| r rows IH]; intro acc; cbn [fold_left].
  - split; [intro H; left; exact H | intros [H | [r [[] _]]]; exact H].
  - rewrite IH. rewrite insert_ticker_mem. split.
    + intros [[-> | H] | [r' [Hin E]]].
      * right. exists r. split; [left; reflexivity | reflexivity].
      * left. exact H.
      * right. exists r'. split; [right; exact Hin | exact E].
    + intros [H | [r' [[<- | Hin] E]]].
      * left. right. exact H.
      * left. left. symmetry. exact E.
      * right. exists r'. split; assumption.
Qed.

Lemma index_to_mem (idx : list date) (stop d : date) :
  ascending idx -> (In d (index_to idx stop) <-> In d idx /\ d <= stop).
Proof.
  induction idx as [| x idx IH]; intro H; cbn [index_to].
  - split; [intros [] | intros [[] _]].
  - pose proof (ascending_head _ _ H) as Hx.
    pose proof (ascending_tail _ _ H) as Ht.
    destruct (Z.leb_spec x stop) as [Hle | Hgt].
    + cbn [In]. rewrite (IH Ht). split.
      * intros [<- | [Hin Hd]]; [split; [left; reflexivity | exact Hle] |].
        split; [right; exact Hin | exact Hd].
      * intros [[<- | Hin] Hd]; [left; reflexivity | right; split; assumption].
    + split; [intros [] |]. intros [[<- | Hin] Hd]; [lia |].
      specialize (Hx d Hin). lia.
Qed.

Lemma has_column_in (df : DataFrame) (t : string) :
  has_column df t = true <-> In t (df_columns df).
Proof.
  unfold has_column. rewrite existsb_exists. split.
  - intros [x [Hin E]]. apply String.eqb_eq in E. subst x. exact Hin.
  - intro H. exists t. split; [exact H | apply String.eqb_refl].
Qed.

Lemma working_index_mem (prices : list PriceRow) (d : date) :
  In d (df_index (working_table prices))
  <-> (exists r, In r prices /\ row_date r = d) /\ d <= analysis_end.
Proof.
  unfold working_table. cbn [df_slice_to df_index transform_prices_to_DataFrame].
  rewrite index_to_mem by (apply index_ascending; reflexivity).
  rewrite index_mem. cbn [In]. split.
  - intros [[[] | H] Hd]. split; assumption.
  - intros [H Hd]. split; [right; exact H | exact Hd].
Qed.

Lemma working_columns_mem (prices : list PriceRow) (t : string) :
  has_column (working_table prices) t = true
  <-> exists r, In r prices /\ row_ticker r = t.
Proof.
  rewrite has_column_in. unfold working_table.
  cbn [df_slice_to df_columns transform_prices_to_DataFrame].
  rewrite columns_mem. cbn [In]. split.
  - intros [[] | H]. exact H.
  - intro H. right. exact H.
Qed.

(** X1.  The index of the table the script works on is strictly ascending
    and holds exactly the dates of the price rows that are not after
    2024-12-31, each once. *)
Theorem working_table_index (prices : list PriceRow) :
  ascending (df_index (working_table prices)) /\
  forall d, In d (df_index (working_table prices))
            <-> (exists r, In r prices /\ row_date r = d) /\ d <= analysis_end.
Proof.
  split; [apply table_index_ascending | apply working_index_mem].
Qed.

(** X2.  The table has a column for a ticker exactly when some price row
    names that ticker, whatever the date of the row: the cut at 2024-12-31
    removes dates, not columns. *)
Theorem working_table_columns (prices : list PriceRow) (t : string) :
  has_column (working_table prices) t = true
  <-> exists r, In r prices /\ row_ticker r = t.
Proof. apply working_columns_mem. Qed.

Lemma cell_of_rows (prices : list PriceRow) (d : date) (t : string) :
  cell (transform_prices_to_DataFrame prices) d t = mean_of (rows_of d t prices).
Proof.
  unfold cell, transform_prices_to_DataFrame, mean_of. cbn [df_cells].
  rewrite lookup_cell_mean. unfold group_rows.
  rewrite lookup_group_rows. cbn [lookup_group fst snd].
  rewrite add_rows_none.
  destruct (rows_of d t prices) as [| r l]; [reflexivity |].
  cbn [List.length]. apply mean_of_some.
Qed.

Lemma qc_div_1 (q : Qc) : (q / qc_of_Z 1)%Qc = q.
Proof.
  unfold Qcdiv. replace (/ qc_of_Z 1)%Qc with (qc_of_Z 1).
  - apply Qcmult_1_r.
  - apply Qc_is_canon. reflexivity.
Qed.

(** X3.  A price row whose (date, ticker) pair occurs once, dated up to
    2024-12-31, is found back unchanged in the column of its ticker at its
    date. *)
Theorem unique_row_is_stored (prices : list PriceRow) (r : PriceRow) :
  rows_of (row_date r) (row_ticker r) prices = [r] ->
  row_date r <= analysis_end ->
  exists col,
    getitem (working_table prices) (row_ticker r) = Ok col /\
    In (row_date r, Fin (close_price r)) col.
Proof.
  intros Hu Hd.
  assert (Hin : In r prices).
  { assert (H : In r (rows_of (row_date r) (row_ticker r) prices))
      by (rewrite Hu; left; reflexivity).
    unfold rows_of in H. apply filter_In in H. apply H. }
  assert (Hc : has_column (working_table prices) (row_ticker r) = true).
  { apply working_columns_mem. exists r. split; [exact Hin | reflexivity]. }
  unfold getitem. rewrite Hc. eexists. split; [reflexivity |].
  apply in_map_iff. exists (row_date r). split.
  - f_equal. unfold working_table, cell. cbn [df_slice_to df_cells].
    change (lookup_cell (row_date r, row_ticker r)
              (df_cells (transform_prices_to_DataFrame prices)))
      with (cell (transform_prices_to_DataFrame prices) (row_date r) (row_ticker r)).
    rewrite cell_of_rows, Hu. unfold mean_of, sum_close. cbn [fold_left List.length].
    rewrite Qcplus_0_l. f_equal. apply qc_div_1.
  - apply working_index_mem. split; [| exact Hd].
    exists r. split; [exact Hin | reflexivity].
Qed.

Lemma unique_row_is_stored_witness :
  exists col,
    getitem (working_table Sample.fb_rows) "FB" = Ok col /\
    In (Sample.dec27, price 204) col.
Proof.
  apply (unique_row_is_stored Sample.fb_rows
           (mkPriceRow Sample.dec27 "FB" (qc_of_Z 204))).
  - reflexivity.
  - vm_compute. discriminate.
Defined.

(** ** What the result depends on *)

Lemma ascending_ext (l l' : list date) :
  ascending l -> ascending l' -> (forall x, In x l <-> In x l') -> l = l'.
Proof.
  revert l'. induction l as [| x l IH]; intros l' Hl Hl' H.
  - destruct l' as [| y l']; [reflexivity |].
    exfalso. apply (H y). left. reflexivity.
  - destruct l' as [| y l'].
    { exfalso. apply (H x). left. reflexivity. }
    pose proof (ascending_head _ _ Hl) as Hx.
    pose proof (ascending_head _ _ Hl') as Hy.
    assert (E : x = y).
    { destruct (proj1 (H x) (or_introl eq_refl)) as [E | Hin]; [symmetry; exact E |].
      destruct (proj2 (H y) (or_introl eq_refl)) as [E | Hin']; [exact E |].
      specialize (Hx y Hin'). specialize (Hy x Hin). lia. }
    subst y. f_equal. apply IH.
    + eapply ascending_tail; exact Hl.
    + eapply ascending_tail; exact Hl'.
    + intro z. split; intro Hz.
      * destruct (proj1 (H z) (or_intror Hz)) as [E | Hin]; [| exact Hin].
        specialize (Hx z Hz). lia.
      * destruct (proj2 (H z) (or_intror Hz)) as [E | Hin]; [| exact Hin].
        specialize (Hy z Hz). lia.
Qed.

(** Two tables with the same dates, the same columns and the same cells at
    their dates give the same columns to read. *)
Lemma getitem_ext (df df' : DataFrame) :
  df_index df = df_index df' ->
  (forall t, has_column df t = has_column df' t) ->
  (forall d t, In d (df_index df) -> cell df d t = cell df' d t) ->
  forall t, getitem df t = getitem df' t.
Proof.
  intros Hi Hc Hv t. unfold getitem. rewrite <- Hc, <- Hi.
  destruct (has_column df t); [| reflexivity].
  f_equal. apply map_ext_in. intros d Hd. f_equal. apply Hv. exact Hd.
Qed.

(** The pipeline reads the table through its columns only. *)
Lemma compute_return_ext (df df' : DataFrame) :
  (forall t, getitem df t = getitem df' t) ->
  (forall t, has_column df t = has_column df' t) ->
  forall q tf changes splits order,
    compute_return df q tf changes splits order
    = compute_return df' q tf changes splits order.
Proof.
  intros Hg Hc q tf changes splits order.
  unfold compute_return, returns_from, account_for_ticker_changes.
  rewrite Hc. destruct (has_column df' q); [| reflexivity]. cbn [negb].
  destruct (resolve q changes) as [id | e]; [| reflexivity]. cbn [bind].
  assert (Hs : stitched df id = stitched df' id).
  { destruct id as [t | o n e | o n e]; cbn [stitched]; [apply Hg | |];
      unfold combine_changed_tickers; rewrite !Hg; reflexivity. }
  rewrite Hs. reflexivity.
Qed.

Lemma main_ext (prices prices' : list PriceRow) :
  (forall t, getitem (working_table prices) t = getitem (working_table prices') t) ->
  (forall t, has_column (working_table prices) t = has_column (working_table prices') t) ->
  forall q tfs changes splits order,
    main q tfs prices changes splits order = main q tfs prices' changes splits order.
Proof.
  intros Hg Hc q tfs changes splits order. unfold main.
  fold (working_table prices). fold (working_table prices').
  rewrite Hc. destruct (has_column (working_table prices') q) eqn:Hq; [| reflexivity].
  cbn [negb]. destruct (dict_timeframes tfs) as [tf |]; [| reflexivity].
  pose proof (compute_return_ext _ _ Hg Hc q tf changes splits order) as H.
  unfold compute_return in H. rewrite Hc, Hq in H. exact H.
Qed.

Lemma bool_eq_iff (a b : bool) : (a = true <-> b = true) -> a = b.
Proof.
  destruct a, b; intros [H1 H2]; try reflexivity.
  - symmetry. apply H1. reflexivity.
  - apply H2. reflexivity.
Qed.






Lemma filter_filter_implied {A : Type} (f g : A -> bool) (l : list A) :
  (forall x, f x = true -> g x = true) -> filter f (filter g l) = filter f l.
Proof.
  intro H. induction l as [| a l IH]; [reflexivity |].
  cbn [filter]. destruct (g a) eqn:Eg.
  - cbn [filter]. rewrite IH. reflexivity.
  - rewrite IH. destruct (f a) eqn:Ef; [| reflexivity].
    rewrite (H a Ef) in Eg. discriminate.
Qed.

(** X5.  Price rows dated after 2024-12-31 can do one thing only, give a
    ticker its column: when every ticker of the file has a row dated up to
    2024-12-31, the script gives the same outcome with and without the
    later rows. *)
Theorem rows_after_the_end_do_not_count (prices : list PriceRow) :
  (forall r, In r prices ->
             exists r', In r' prices /\ row_ticker r' = row_ticker r /\
                        row_date r' <= analysis_end) ->
  (forall t, getitem (working_table prices) t
             = getitem (working_table (rows_until analysis_end prices)) t) /\
  forall q tfs changes splits order,
    main q tfs prices changes splits order
    = main q tfs (rows_until analysis_end prices) changes splits order.
Proof.
  intro H.
  assert (Hin : forall r, In r (rows_until analysis_end prices)
                          <-> In r prices /\ row_date r <= analysis_end).
  { intro r. unfold rows_until. rewrite filter_In, Z.leb_le. reflexivity. }
  assert (Hi : df_index (working_table prices)
               = df_index (working_table (rows_until analysis_end prices))).
  { apply ascending_ext; try apply table_index_ascending.
    intro d. rewrite !working_index_mem. split.
    - intros [[r [Hr E]] Hd]. split; [| exact Hd]. exists r. split; [| exact E].
      apply Hin. split; [exact Hr | rewrite E; exact Hd].
    - intros [[r [Hr E]] Hd]. split; [| exact Hd]. exists r. split; [| exact E].
      apply Hin in Hr. apply Hr. }
  assert (Hc : forall t, has_column (working_table prices) t
                         = has_column (working_table (rows_until analysis_end prices)) t).
  { intro t. apply bool_eq_iff. rewrite !working_columns_mem. split.
    - intros [r [Hr E]]. destruct (H r Hr) as [r' [Hr' [Et Hd]]].
      exists r'. split; [apply Hin; split; assumption | congruence].
    - intros [r [Hr E]]. exists r. split; [apply Hin in Hr; apply Hr | exact E]. }
  assert (Hg : forall t, getitem (working_table prices) t
                         = getitem (working_table (rows_until analysis_end prices)) t).
  { apply getitem_ext; [exact Hi | exact Hc |].
    intros d t Hd. apply working_index_mem in Hd. destruct Hd as [_ Hd].
    unfold working_table, cell. cbn [df_slice_to df_cells].
    change (cell (transform_prices_to_DataFrame prices) d t
            = cell (transform_prices_to_DataFrame (rows_until analysis_end prices)) d t).
    rewrite !cell_of_rows. f_equal. unfold rows_of, rows_until. symmetry.
    apply filter_filter_implied. intros r Hk. apply key_eqb_eq in Hk.
    inversion Hk; subst. apply Z.leb_le. exact Hd. }
  split; [exact Hg |]. apply main_ext; assumption.
Qed.

Lemma rows_after_the_end_do_not_count_witness :
  main "FB" "5 days" More.fb_rows_later Sample.fb_changes_monday [] true
  = main "FB" "5 days" Sample.fb_rows Sample.fb_changes_monday [] true.
Proof.
  apply (rows_after_the_end_do_not_count More.fb_rows_later).
  intros r Hr. vm_compute in Hr.
  destruct Hr as [<- | [<- | [<- | [<- | []]]]].
  - exists (mkPriceRow Sample.dec27 "FB" (qc_of_Z 204)).
    split; [left; reflexivity | split; [reflexivity | vm_compute; discriminate]].
  - exists (mkPriceRow Sample.dec30 "META" (qc_of_Z 210)).
    split; [right; left; reflexivity | split; [reflexivity | vm_compute; discriminate]].
  - exists (mkPriceRow Sample.dec30 "META" (qc_of_Z 210)).
    split; [right; left; reflexivity | split; [reflexivity | vm_compute; discriminate]].
  - exists (mkPriceRow Sample.dec30 "META" (qc_of_Z 210)).
    split; [right; left; reflexivity | split; [reflexivity | vm_compute; discriminate]].
Defined.

Lemma resolve_unchanged_iff (q : string) (changes : list Change.t) :
  resolve q changes = Ok (Unchanged q)
  <-> forall r, In r changes -> Change.old_ticker r <> q /\ Change.new_ticker r <> q.
Proof.
  rewrite resolve_first. split.
  - intros H r Hr.
    destruct (find (is_old q) changes) eqn:Eo; [discriminate |].
    destruct (find (is_new q) changes) eqn:En; [discriminate |].
    split; apply String.eqb_neq.
    + exact (List.find_none _ _ Eo r Hr).
    + exact (List.find_none _ _ En r Hr).
  - intro H. rewrite !find_none; [reflexivity | |];
      intros r Hr; apply String.eqb_neq; apply (H r Hr).
Qed.

(** X6.  A ticker is resolved as unchanged exactly when no row of the
    rename table has it as old or as new ticker, and then the rename table
    plays no part: the script gives what it gives with an empty rename
    table. *)
Theorem renames_of_other_tickers_do_not_count (q : string) (changes : list Change.t) :
  (resolve q changes = Ok (Unchanged q)
   <-> forall r, In r changes -> Change.old_ticker r <> q /\ Change.new_ticker r <> q) /\
  ((forall r, In r changes -> Change.old_ticker r <> q /\ Change.new_ticker r <> q) ->
   forall tfs prices splits order,
     main q tfs prices changes splits order = main q tfs prices [] splits order).
Proof.
  split; [apply resolve_unchanged_iff |].
  intros H tfs prices splits order. apply resolve_unchanged_iff in H.
  unfold main, returns_from, account_for_ticker_changes. rewrite H. reflexivity.
Qed.

Lemma renames_of_other_tickers_do_not_count_witness :
  main "C" "5 days" Sample.reused_rows Sample.fb_changes_monday [] true
  = main "C" "5 days" Sample.reused_rows [] [] true.
Proof.
  apply (proj2 (renames_of_other_tickers_do_not_count "C" Sample.fb_changes_monday)).
  intros r [<- | []]. split; discriminate.
Defined.

Lemma adjust_splits_first (splits splits' : list Split.t) (ts : list string) (s : Series) :
  (forall t, In t ts -> first_split splits t = first_split splits' t) ->
  adjust_splits splits ts s = adjust_splits splits' ts s.
Proof.
  revert s. induction ts as [| t ts IH]; intros s H; [reflexivity |].
  cbn [adjust_splits]. rewrite !split_step_first.
  rewrite (H t (or_introl eq_refl)). cbn [bind]. apply IH.
  intros u Hu. apply H. right. exact Hu.
Qed.

Lemma tickers_in (order : bool) (o n t : string) :
  In t (tickers order o n) -> t = o \/ t = n.
Proof.
  unfold tickers. destruct (String.eqb o n); [| destruct order]; cbn; intuition.
Qed.

(** X7.  Of the split table the script uses, for each of the two tickers
    of the resolved chain, the first row of that ticker and nothing else:
    rows of other tickers and later rows of the same ticker do not change
    the outcome. *)
Theorem only_first_split_rows_of_the_chain_count (q tfs : string)
    (prices : list PriceRow) (changes : list Change.t) (splits splits' : list Split.t)
    (order : bool) (id : identity) :
  resolve q changes = Ok id ->
  first_split splits (fst (chain id)) = first_split splits' (fst (chain id)) ->
  first_split splits (snd (chain id)) = first_split splits' (snd (chain id)) ->
  main q tfs prices changes splits order = main q tfs prices changes splits' order.
Proof.
  intros Hid Ho Hn. unfold main, returns_from, account_for_ticker_changes.
  rewrite Hid. cbn [bind].
  destruct (negb _); [reflexivity |].
  destruct (dict_timeframes tfs) as [tf |]; [| reflexivity].
  destruct (stitched _ id) as [s | e]; [| reflexivity].
  cbn [bind fst snd].
  rewrite (adjust_splits_first splits splits'); [reflexivity |].
  intros t Ht. destruct (tickers_in _ _ _ _ Ht) as [-> | ->]; assumption.
Qed.

Lemma only_first_split_rows_of_the_chain_count_witness :
  main "FB" "5 days" Sample.fb_rows Sample.fb_changes_monday More.splits_with_others true
  = main "FB" "5 days" Sample.fb_rows Sample.fb_changes_monday [More.meta_split] true.
Proof.
  apply (only_first_split_rows_of_the_chain_count "FB" "5 days" Sample.fb_rows
           Sample.fb_changes_monday More.splits_with_others [More.meta_split] true
           (RenamedForward "FB" "META" Sample.dec30)); reflexivity.
Defined.

(** ** More on stitching *)

Lemma dates_filter (f : date -> bool) (s : Series) :
  dates (filter (fun dp => f (fst dp)) s) = filter f (dates s).
Proof.
  induction s as [| [d p] s IH]; [reflexivity |].
  cbn [filter dates map fst]. destruct (f d); cbn [dates map fst];
    unfold dates in IH; rewrite IH; reflexivity.
Qed.

Lemma ascending_split_at (l : list date) (e : date) :
  ascending l ->
  (filter (fun d => d <? e) l ++ filter (fun d => e <=? d) l)%list = l.
Proof.
  induction l as [| x l IH]; intro H; [reflexivity |].
  pose proof (ascending_head _ _ H) as Hx.
  pose proof (ascending_tail _ _ H) as Ht.
  cbn [filter]. destruct (Z.ltb_spec x e) as [Hlt | Hge].
  - destruct (Z.leb_spec e x) as [Hle | _]; [lia |].
    cbn [app]. f_equal. apply IH. exact Ht.
  - destruct (Z.leb_spec e x) as [_ | Hlt]; [| lia].
    rewrite filter_none.
    + cbn [app]. f_equal. apply forallb_filter_id. apply forallb_forall.
      intros y Hy. apply Z.leb_le. specialize (Hx y Hy). lia.
    + intros y Hy. apply Z.ltb_ge. specialize (Hx y Hy). lia.
Qed.

Lemma slice_to_unlisted (s : Series) (e : date) :
  ascending (dates s) -> ~ In e (dates s) ->
  slice_to s e = filter (fun dp => fst dp <? e) s.
Proof.
  intros Hs Hn. rewrite slice_to_filter by exact Hs.
  apply filter_ext_in. intros [d p] Hin. cbn [fst].
  destruct (Z.leb_spec d e) as [Hle | Hgt], (Z.ltb_spec d e) as [Hlt | Hge];
    try reflexivity; try lia.
  exfalso. apply Hn. assert (d = e) by lia. subst d.
  eapply in_dates. exact Hin.
Qed.

Lemma removelast_length {A : Type} (l : list A) :
  List.length (removelast l) = (List.length l - 1)%nat.
Proof.
  induction l as [| a l IH]; [reflexivity |].
  destruct l as [| b l]; [reflexivity |].
  change (removelast (a :: b :: l)) with (a :: removelast (b :: l)).
  cbn [List.length] in *. rewrite IH. lia.
Qed.

(** Without its last element, an ascending series keeps the observations
    that have a later one. *)
Lemma removelast_in_iff (l : Series) (x : date * fnum) :
  ascending (dates l) ->
  (In x (removelast l) <-> In x l /\ exists y, In y l /\ fst x < fst y).
Proof.
  induction l as [| a l IH]; intro Hl.
  - split; [intros [] | intros [[] _]].
  - destruct l as [| b l].
    + split; [intros [] |]. intros [[<- | []] [y [[<- | []] Hy]]]. lia.
    + change (removelast (a :: b :: l)) with (a :: removelast (b :: l)).
      cbn [dates map] in Hl. pose proof (ascending_head _ _ Hl) as Ha.
      pose proof (ascending_tail _ _ Hl) as Ht.
      cbn [In]. rewrite (IH Ht). split.
      * intros [<- | [Hin [y [Hy Hlt]]]].
        -- split; [left; reflexivity |]. exists b. split; [right; left; reflexivity |].
           apply Ha. left. reflexivity.
        -- split; [right; exact Hin |]. exists y. split; [right; exact Hy | exact Hlt].
      * intros [[<- | Hin] [y [Hy Hlt]]]; [left; reflexivity |]. right.
        split; [exact Hin |]. destruct Hy as [<- | Hy].
        -- exfalso. assert (fst a < fst x); [| lia].
           apply Ha. exact (in_map fst (b :: l) x Hin).
        -- exists y. split; assumption.
Qed.

(** X8.  Whatever the effective date, listed in the table or not, the
    stitched series of two existing columns has strictly ascending dates
    and holds exactly these observations: every observation of the new
    ticker's column dated on or after the effective date, and every
    observation of the old ticker's column dated before it that is
    followed in the table by a date up to the effective date (the last
    row of the slice is the one dropped). *)
Theorem stitched_series_invariants (df : DataFrame) (o n : string) (e : date) :
  ascending (df_index df) ->
  has_column df o = true -> has_column df n = true ->
  exists col_old col_new s,
    getitem df o = Ok col_old /\ getitem df n = Ok col_new /\
    combine_changed_tickers df o n e = Ok s /\
    ascending (dates s) /\
    forall d p,
      In (d, p) s
      <-> (e <= d /\ In (d, p) col_new) \/
          (d < e /\ In (d, p) col_old /\
           exists d', In d' (df_index df) /\ d < d' /\ d' <= e).
Proof.
  intros Hidx Ho Hn.
  destruct (getitem_present _ _ Ho) as [co Hco].
  destruct (getitem_present _ _ Hn) as [cn Hcn].
  pose proof (getitem_dates _ _ _ Hco) as Do.
  pose proof (getitem_dates _ _ _ Hcn) as Dn.
  assert (Ao : ascending (dates co)) by (rewrite Do; exact Hidx).
  assert (An : ascending (dates cn)) by (rewrite Dn; exact Hidx).
  assert (Hs : combine_changed_tickers df o n e
               = Ok (removelast (slice_to co e) ++ slice_from cn e)%list).
  { unfold combine_changed_tickers. rewrite Hco, Hcn. reflexivity. }
  exists co, cn, (removelast (slice_to co e) ++ slice_from cn e)%list.
  split; [exact Hco |]. split; [exact Hcn |]. split; [exact Hs |].
  split; [eapply combine_ascending; eassumption |].
  intros d p. rewrite in_app_iff.
  rewrite slice_to_filter by exact Ao. rewrite slice_from_retained by exact An.
  rewrite removelast_in_iff by (apply ascending_filter; exact Ao).
  unfold retained. rewrite !filter_In. cbn [fst]. rewrite Z.leb_le. split.
  - intros [[[Hin Hle] [y [Hy Hlt]]] | [Hin Hle]].
    + right. apply filter_In in Hy. destruct Hy as [Hy Hye]. apply Z.leb_le in Hye.
      cbn [fst] in Hlt. split; [unfold date in *; lia |]. split; [exact Hin |].
      exists (fst y). split; [| split; [exact Hlt | exact Hye]].
      rewrite <- Do. exact (in_map fst co y Hy).
    + left. apply Z.leb_le in Hle. split; assumption.
  - intros [[Hle Hin] | [Hlt [Hin [d' [Hd' [H1 H2]]]]]].
    + right. split; [exact Hin | apply Z.leb_le; exact Hle].
    + left. split; [split; [exact Hin | lia] |].
      rewrite <- Do in Hd'. unfold dates in Hd'. apply in_map_iff in Hd'.
      destruct Hd' as [y [Ey Hy]]. exists y. split.
      * apply filter_In. split; [exact Hy |]. apply Z.leb_le. subst d'. exact H2.
      * cbn [fst]. subst d'. exact H1.
Qed.

Lemma stitched_series_invariants_witness :
  exists s,
    combine_changed_tickers Sample.fb_table "FB" "META" Sample.dec28 = Ok s /\
    ascending (dates s) /\ In (Sample.dec30, price 210) s.
Proof.
  destruct (stitched_series_invariants Sample.fb_table "FB" "META" Sample.dec28
              eq_refl eq_refl eq_refl) as [co [cn [s [_ [Hn [Hs [Ha Hin]]]]]]].
  exists s. split; [exact Hs |]. split; [exact Ha |].
  apply Hin. left. split; [vm_compute; discriminate |].
  vm_compute in Hn. inversion Hn. right. left. reflexivity.
Defined.

(** X9.  When the effective date is a date of the table, the stitched
    series is the old ticker's observations strictly before it followed by
    the new ticker's observations from it on, and its dates are the dates
    of the table, all of them, once each. *)
Theorem stitch_on_a_date_of_the_table (df : DataFrame) (o n : string) (e : date) :
  ascending (df_index df) -> In e (df_index df) ->
  has_column df o = true -> has_column df n = true ->
  exists col_old col_new s,
    getitem df o = Ok col_old /\ getitem df n = Ok col_new /\
    combine_changed_tickers df o n e = Ok s /\
    s = spec_stitched col_old col_new e /\
    dates s = df_index df.
Proof.
  intros Hidx He Ho Hn.
  destruct (getitem_present _ _ Ho) as [co Hco].
  destruct (getitem_present _ _ Hn) as [cn Hcn].
  exists co, cn, (spec_stitched co cn e).
  split; [exact Hco |]. split; [exact Hcn |].
  split; [apply combine_on_indexed_date; assumption |].
  split; [reflexivity |].
  unfold spec_stitched, dates. rewrite map_app.
  change (map fst (filter (fun dp => fst dp <? e) co))
    with (dates (filter (fun dp => (fun d => d <? e) (fst dp)) co)).
  change (map fst (filter (fun dp => e <=? fst dp) cn))
    with (dates (filter (fun dp => (fun d => e <=? d) (fst dp)) cn)).
  rewrite !dates_filter.
  rewrite (getitem_dates _ _ _ Hco), (getitem_dates _ _ _ Hcn).
  apply ascending_split_at. exact Hidx.
Qed.

Lemma stitch_on_a_date_of_the_table_witness :
  exists s,
    combine_changed_tickers Sample.fb_table "FB" "META" Sample.dec30 = Ok s /\
    dates s = df_index Sample.fb_table.
Proof.
  destruct (stitch_on_a_date_of_the_table Sample.fb_table "FB" "META" Sample.dec30)
    as [co [cn [s [_ [_ [Hs [_ Hd]]]]]]].
  - reflexivity.
  - vm_compute. right. left. reflexivity.
  - reflexivity.
  - reflexivity.
  - exists s. split; assumption.
Defined.

(** X10.  When the effective date is not a date of the table, the stitched
    series is the old ticker's observations strictly before it without
    the last of them, followed by the new ticker's observations after it:
    it is one observation shorter than the table whenever the table has a
    date before the effective date. *)
Theorem stitch_on_a_date_not_in_the_table (df : DataFrame) (o n : string) (e : date) :
  ascending (df_index df) -> ~ In e (df_index df) ->
  has_column df o = true -> has_column df n = true ->
  exists col_old col_new s,
    getitem df o = Ok col_old /\ getitem df n = Ok col_new /\
    combine_changed_tickers df o n e = Ok s /\
    s = (removelast (filter (fun dp => fst dp <? e) col_old)
         ++ filter (fun dp => e <=? fst dp) col_new)%list /\
    List.length s
    = (List.length (df_index df)
       - (if existsb (fun d => (d <? e)%Z) (df_index df) then 1 else 0))%nat.
Proof.
  intros Hidx He Ho Hn.
  destruct (getitem_present _ _ Ho) as [co Hco].
  destruct (getitem_present _ _ Hn) as [cn Hcn].
  pose proof (getitem_dates _ _ _ Hco) as Do.
  pose proof (getitem_dates _ _ _ Hcn) as Dn.
  exists co, cn.
  exists (removelast (filter (fun dp => fst dp <? e) co)
          ++ filter (fun dp => e <=? fst dp) cn)%list.
  split; [exact Hco |]. split; [exact Hcn |]. split; [| split; [reflexivity |]].
  - unfold combine_changed_tickers. rewrite Hco, Hcn. cbn [bind].
    rewrite slice_to_unlisted by (rewrite Do; assumption).
    rewrite slice_from_retained by (rewrite Dn; assumption).
    reflexivity.
  - rewrite length_app, removelast_length.
    pose proof (f_equal (@List.length date) (ascending_split_at _ e Hidx)) as HL.
    rewrite length_app in HL.
    assert (L1 : List.length (filter (fun dp => fst dp <? e) co)
                 = List.length (filter (fun d => d <? e) (df_index df))).
    { pose proof (f_equal (@List.length date) (dates_filter (fun d => d <? e) co)) as Hdf.
      unfold dates in Hdf at 1. rewrite length_map in Hdf.
      rewrite Do in Hdf. exact Hdf. }
    assert (L2 : List.length (filter (fun dp => e <=? fst dp) cn)
                 = List.length (filter (fun d => e <=? d) (df_index df))).
    { pose proof (f_equal (@List.length date) (dates_filter (fun d => e <=? d) cn)) as Hdf.
      unfold dates in Hdf at 1. rewrite length_map in Hdf.
      rewrite Dn in Hdf. exact Hdf. }
    rewrite L1, L2.
    destruct (existsb (fun d => d <? e) (df_index df)) eqn:Ex.
    + apply existsb_exists in Ex. destruct Ex as [d [Hd Hlt]].
      assert (Hf : In d (filter (fun d => d <? e) (df_index df)))
        by (apply filter_In; split; assumption).
      destruct (filter (fun d => d <? e) (df_index df)); [contradiction |].
      cbn [List.length] in *. lia.
    + assert (Hnil : filter (fun d => d <? e) (df_index df) = []).
      { apply filter_none. intros d Hd. destruct (d <? e) eqn:E; [| reflexivity].
        assert (existsb (fun d => d <? e) (df_index df) = true)
          by (apply existsb_exists; exists d; split; assumption).
        congruence. }
      rewrite Hnil in *. cbn [List.length] in *. lia.
Qed.

Lemma stitch_on_a_date_not_in_the_table_witness :
  exists s,
    combine_changed_tickers Sample.fb_table "FB" "META" Sample.dec28 = Ok s /\
    List.length s = 2%nat.
Proof.
  destruct (stitch_on_a_date_not_in_the_table Sample.fb_table "FB" "META" Sample.dec28)
    as [co [cn [s [_ [_ [Hs [_ Hl]]]]]]].
  - reflexivity.
  - vm_compute. intros [H | [H | [H | []]]]; discriminate.
  - reflexivity.
  - reflexivity.
  - exists s. split; [exact Hs | exact Hl].
Defined.

(** ** Missing prices *)

Lemma rescaled_nan (df_splits : list Split.t) (t : string) (d : date) :
  rescaled df_splits t d NaN = NaN.
Proof.
  unfold rescaled. destruct (first_split df_splits t) as [r |]; [| reflexivity].
  destruct (Split.effective_date r <=? d); reflexivity.
Qed.

(** The adjuster works date by date and keeps a missing price missing. *)
Lemma adjust_splits_pointwise (df_splits : list Split.t) (ts : list string) (s : Series) :
  exists g : date -> fnum -> fnum,
    (forall d, g d NaN = NaN) /\
    adjust_splits df_splits ts s = Ok (map (fun dp => (fst dp, g (fst dp) (snd dp))) s).
Proof.
  revert s. induction ts as [| t ts IH]; intro s.
  - exists (fun _ p => p). split; [reflexivity |].
    cbn [adjust_splits]. f_equal. clear.
    induction s as [| [d p] s IH]; [reflexivity |].
    cbn [map fst snd]. f_equal. exact IH.
  - cbn [adjust_splits]. rewrite split_step_rescaled. cbn [bind].
    destruct (IH (map (fun dp => (fst dp, rescaled df_splits t (fst dp) (snd dp))) s))
      as [g [Hg Hs]].
    exists (fun d p => g d (rescaled df_splits t d p)). split.
    + intro d. rewrite rescaled_nan. apply Hg.
    + rewrite Hs. rewrite map_map. reflexivity.
Qed.

Lemma slice_from_map (g : date -> fnum -> fnum) (s : Series) (start : date) :
  slice_from (map (fun dp => (fst dp, g (fst dp) (snd dp))) s) start
  = map (fun dp => (fst dp, g (fst dp) (snd dp))) (slice_from s start).
Proof.
  induction s as [| [d p] s IH]; [reflexivity |].
  cbn [map slice_from fst]. destruct (d <? start); [exact IH | reflexivity].
Qed.

Lemma iloc_first_map (g : date -> fnum -> fnum) (w : Series) :
  (forall d, g d NaN = NaN) -> iloc_first w = Ok NaN ->
  iloc_first (map (fun dp => (fst dp, g (fst dp) (snd dp))) w) = Ok NaN.
Proof.
  intros Hg. destruct w as [| [d p] w]; cbn; [discriminate |].
  intro H. inversion H. rewrite Hg. reflexivity.
Qed.

Lemma iloc_last_map (g : date -> fnum -> fnum) (w : Series) :
  (forall d, g d NaN = NaN) -> iloc_last w = Ok NaN ->
  iloc_last (map (fun dp => (fst dp, g (fst dp) (snd dp))) w) = Ok NaN.
Proof.
  intros Hg. induction w as [| [d p] w IH]; [discriminate |].
  destruct w as [| dp' w].
  - cbn. intro H. inversion H. rewrite Hg. reflexivity.
  - cbn [map]. rewrite !iloc_last_cons. exact IH.
Qed.

Lemma iloc_last_some (w : Series) :
  w <> [] -> exists t1, iloc_last w = Ok t1.
Proof.
  induction w as [| [d p] w IH]; [congruence |]. intros _.
  destruct w as [| dp' w].
  - exists p. reflexivity.
  - rewrite iloc_last_cons. apply IH. discriminate.
Qed.

Lemma iloc_first_some (w : Series) :
  w <> [] -> exists t0, iloc_first w = Ok t0.
Proof.
  destruct w as [| [d p] w]; [congruence |]. intros _. exists p. reflexivity.
Qed.

Lemma map_not_nil {A B : Type} (f : A -> B) (l : list A) : l <> [] -> map f l <> [].
Proof. destruct l; [congruence | discriminate]. Qed.

(** X11.  A missing price at the first or at the last date of the window
    is not an error and is not replaced by a neighbouring price: after the
    split adjustment, whatever the split table, the return is NaN. *)
Theorem missing_price_at_a_window_end_gives_nan (df_splits : list Split.t)
    (ts : list string) (s : Series) (start : date) :
  iloc_first (slice_from s start) = Ok NaN \/ iloc_last (slice_from s start) = Ok NaN ->
  exists s',
    adjust_splits df_splits ts s = Ok s' /\
    compute_return_of s' start = Ok NaN.
Proof.
  intro H. destruct (adjust_splits_pointwise df_splits ts s) as [g [Hg Hs]].
  eexists. split; [exact Hs |].
  unfold compute_return_of. rewrite slice_from_map.
  assert (Hw : slice_from s start <> []).
  { intro E. rewrite E in H. destruct H; discriminate. }
  destruct H as [H | H].
  - rewrite (iloc_first_map g _ Hg H).
    destruct (iloc_last_some _ (map_not_nil (fun dp => (fst dp, g (fst dp) (snd dp))) _ Hw))
      as [t1 ->].
    cbn [bind]. destruct t1; reflexivity.
  - rewrite (iloc_last_map g _ Hg H).
    destruct (iloc_first_some _ (map_not_nil (fun dp => (fst dp, g (fst dp) (snd dp))) _ Hw))
      as [t0 ->].
    cbn [bind]. destruct t0; reflexivity.
Qed.

Lemma missing_price_at_a_window_end_gives_nan_witness :
  exists s',
    adjust_splits More.splits_with_others ["FB"]
      [(Sample.dec27, price 204); (Sample.dec30, NaN); (Sample.dec31, NaN)] = Ok s' /\
    compute_return_of s' (beginning_date 5) = Ok NaN.
Proof.
  apply (missing_price_at_a_window_end_gives_nan More.splits_with_others ["FB"]
           [(Sample.dec27, price 204); (Sample.dec30, NaN); (Sample.dec31, NaN)]
           (beginning_date 5)).
  right. reflexivity.
Defined.

(** A ticker that stopped trading before the end of the table: the script
    prints nan. *)
Lemma delisted_ticker_prints_nan :
  main "FB" "5 days" Sample.fb_rows [] [] true = Ok NaN.
Proof. reflexivity. Qed.

(** ** Rounding *)

Lemma fdiv_signed_zero_100 (s : bool) :
  fdiv (signed_zero s) (price 100) = signed_zero s.
Proof. destruct s; reflexivity. Qed.

(** X12.  The rounding of line 163 works on float64 throughout.  When the
    float64 product of the value by 100 is the finite number [m], the
    result is the float64 quotient by 100 of the integer nearest to [m],
    which is at most one half away from [m] and is the even one when [m]
    is half way between two integers; a nearest integer 0 gives a zero with
    the sign of [m].  An infinity or NaN stays as it is.  The hundredth is
    the nearest one to the product, not always to the value: the float64
    2.675, which is below 2.675, has the product 267.5 and goes to 2.68. *)
Theorem round2_on_float64 (q : Qc) :
  round2 NaN = NaN /\ (forall s, round2 (Inf s) = Inf s) /\
  forall m : Qc,
    fmul (Fin q) (price 100) = Fin m ->
    (inject_Z (rint m) - (1 # 2) <= m <= inject_Z (rint m) + (1 # 2))%Q /\
    ((m - inject_Z (Qfloor m) == 1 # 2)%Q -> Z.even (rint m) = true) /\
    (rint m <> 0 ->
     round2 (Fin q) = rnd64 (qc_of_Z (rint m) / qc_of_Z 100)%Qc) /\
    (rint m = 0 -> round2 (Fin q) = signed_zero (qneg m)).
Proof.
  split; [reflexivity |]. split; [intros []; reflexivity |].
  intros m Hm. split; [apply rint_near |]. split; [apply rint_tie_even |].
  unfold round2. change (Fin (qc_of_Z 100)) with (price 100). rewrite Hm.
  unfold frint. split.
  - intro Hk. destruct (Z.eqb_spec (rint m) 0) as [E | _]; [contradiction |].
    unfold fdiv, price, is_zero, mag. rewrite !qis0_of_Z.
    destruct (Z.eqb_spec (rint m) 0) as [E | _]; [contradiction |].
    reflexivity.
  - intro Hk. rewrite Hk. cbn [Z.eqb]. apply fdiv_signed_zero_100.
Qed.

Lemma round2_on_float64_witness :
  dbl (2675 # 1000) = Fin (mag (dbl (2675 # 1000))) /\
  (this (mag (dbl (2675 # 1000))) < 2675 # 1000)%Q /\
  round2 (dbl (2675 # 1000)) = dbl (268 # 100).
Proof.
  split; [vm_compute; qc_eq |]. split; [reflexivity |].
  destruct (round2_on_float64 (mag (dbl (2675 # 1000)))) as [_ [_ H]].
  destruct (H (Q2Qc (2675 # 10))) as [_ [_ [Hk _]]].
  - vm_compute. qc_eq.
  - replace (dbl (2675 # 1000)) with (Fin (mag (dbl (2675 # 1000))))
      by (vm_compute; qc_eq).
    rewrite Hk; [vm_compute; qc_eq | vm_compute; discriminate].
Defined.

(** ** The price file and its columns *)

Lemma expected_in (h : string) :
  existsb (String.eqb h) df_headers_expected = true <-> In h df_headers_expected.
Proof.
  rewrite existsb_exists. split.
  - intros [x [Hin E]]. apply String.eqb_eq in E. subst x. exact Hin.
  - intro H. exists h. split; [exact H | apply String.eqb_refl].
Qed.

Lemma has_dot_app (h s : string) : has_dot (h ++ "." ++ s)%string = true.
Proof.
  induction h as [| c h IH]; [reflexivity |].
  cbn [String.append has_dot]. cbn [String.append] in IH. rewrite IH.
  apply orb_true_r.
Qed.

Lemma expected_no_dot (h : string) : In h df_headers_expected -> has_dot h = false.
Proof. intros [<- | [<- | [<- | []]]]; reflexivity. Qed.

Lemma expected_named (h : string) : In h df_headers_expected -> String.eqb h "" = false.
Proof. intros [<- | [<- | [<- | []]]]; reflexivity. Qed.

Lemma dotted_not_expected (x : string) : has_dot x = true -> ~ In x df_headers_expected.
Proof. intros H He. apply expected_no_dot in He. congruence. Qed.

Lemma has_dot_uint (d : Decimal.uint) : has_dot (NilEmpty.string_of_uint d) = false.
Proof. induction d; cbn; auto. Qed.

Lemma has_dot_unnamed (i : nat) : has_dot (unnamed i) = false.
Proof. unfold unnamed, string_of_nat. cbn. apply has_dot_uint. Qed.

Lemma unnamed_not_expected (i : nat) : ~ In (unnamed i) df_headers_expected.
Proof. unfold unnamed. cbn. intros [H | [H | [H | []]]]; discriminate. Qed.

Lemma unnamed_not_empty (i : nat) : unnamed i <> "".
Proof. unfold unnamed. cbn. discriminate. Qed.

Lemma unnamed_inj (i j : nat) : unnamed i = unnamed j -> i = j.
Proof.
  unfold unnamed, string_of_nat. cbn. intro H. inversion H as [E].
  apply (f_equal NilEmpty.uint_of_string) in E. rewrite !NilEmpty.usu in E.
  inversion E as [E']. apply DecimalNat.Unsigned.to_uint_inj. exact E'.
Qed.

(** *** Lists updated at a position *)

Lemma length_set_nth (i : nat) (x : string) (l : list string) :
  List.length (set_nth i x l) = List.length l.
Proof.
  revert i. induction l as [| y l IH]; intros [| i]; cbn; try reflexivity.
  rewrite IH. reflexivity.
Qed.

Lemma nth_set_nth_eq (i : nat) (x : string) (l : list string) :
  (i < List.length l)%nat -> nth i (set_nth i x l) "" = x.
Proof.
  revert i. induction l as [| y l IH]; intros [| i] H; cbn in *; try lia; try reflexivity.
  apply IH. lia.
Qed.

Lemma nth_set_nth_neq (i j : nat) (x : string) (l : list string) :
  i <> j -> nth j (set_nth i x l) "" = nth j l "".
Proof.
  revert i j. induction l as [| y l IH]; intros [| i] [| j] H; cbn; try reflexivity;
    try congruence.
  apply IH. congruence.
Qed.

Lemma set_nth_same (i : nat) (l : list string) : set_nth i (nth i l "") l = l.
Proof.
  revert i. induction l as [| y l IH]; intros [| i]; cbn; try reflexivity.
  rewrite IH. reflexivity.
Qed.

Lemma nth_set_nth_cases (i j : nat) (x : string) (l : list string) :
  nth j (set_nth i x l) "" = nth j l "" \/ nth j (set_nth i x l) "" = x.
Proof.
  destruct (Nat.eq_dec i j) as [<- | Hne].
  - destruct (Nat.lt_ge_cases i (List.length l)) as [Hlt | Hge].
    + right. apply nth_set_nth_eq. exact Hlt.
    + left. rewrite !nth_overflow; [reflexivity | lia | rewrite length_set_nth; lia].
  - left. apply nth_set_nth_neq. exact Hne.
Qed.

(** *** The header as [read_csv] first takes it *)

Lemma length_this_header (header : list string) :
  forall i, List.length (this_header_from i header) = List.length header.
Proof.
  induction header as [| h rest IH]; intro i; cbn; [reflexivity |].
  rewrite IH. reflexivity.
Qed.

Lemma this_header_app (pre rest : list string) :
  forall i, (forall p, In p pre -> In p df_headers_expected) ->
  this_header_from i (pre ++ rest)
  = (pre ++ this_header_from (i + List.length pre) rest)%list.
Proof.
  induction pre as [| p pre IH]; intros i Hp; cbn [app this_header_from List.length].
  - rewrite Nat.add_0_r. reflexivity.
  - rewrite (expected_named p) by (apply Hp; left; reflexivity).
    rewrite IH by (intros q Hq; apply Hp; right; exact Hq).
    rewrite Nat.add_succ_r. reflexivity.
Qed.

Lemma this_header_nth (header : list string) :
  forall i j,
    nth j (this_header_from i header) "" = ""
    \/ nth j (this_header_from i header) "" = unnamed (i + j)
    \/ In (nth j (this_header_from i header) "") header.
Proof.
  induction header as [| h rest IH]; intros i j; cbn [this_header_from].
  - left. destruct j; reflexivity.
  - destruct j as [| j]; cbn [nth].
    + destruct (String.eqb_spec h "") as [-> | _].
      * right. left. rewrite Nat.add_0_r. reflexivity.
      * right. right. left. reflexivity.
    + destruct (IH (S i) j) as [H | [H | H]].
      * left. exact H.
      * right. left. rewrite H. rewrite Nat.add_succ_r. reflexivity.
      * right. right. right. exact H.
Qed.

Lemma this_header_in (header : list string) (s : string) :
  forall i, In s (this_header_from i header) -> In s header \/ has_dot s = false.
Proof.
  induction header as [| h rest IH]; intros i; cbn [this_header_from]; [intros [] |].
  intros [E | Hin].
  - destruct (String.eqb_spec h "") as [-> | _].
    + right. subst s. apply has_dot_unnamed.
    + left. left. exact E.
  - destruct (IH _ Hin) as [H | H]; [left; right; exact H | right; exact H].
Qed.

Lemma positions_lb (empty : bool) (header : list string) :
  forall i j, In j (positions empty i header) -> (i <= j)%nat.
Proof.
  induction header as [| h rest IH]; intros i j; cbn [positions]; [intros [] |].
  destruct (Bool.eqb _ empty).
  - intros [<- | H]; [lia |]. apply IH in H. lia.
  - intro H. apply IH in H. lia.
Qed.

Lemma positions_named (pre rest : list string) :
  forall i, (forall p, In p pre -> In p df_headers_expected) ->
  positions false i (pre ++ rest)
  = (seq i (List.length pre) ++ positions false (i + List.length pre) rest)%list /\
  positions true i (pre ++ rest) = positions true (i + List.length pre) rest.
Proof.
  induction pre as [| p pre IH]; intros i Hp; cbn [app positions List.length seq].
  - rewrite Nat.add_0_r. split; reflexivity.
  - rewrite (expected_named p) by (apply Hp; left; reflexivity). cbn [Bool.eqb].
    destruct (IH (S i)) as [E1 E2]; [intros q Hq; apply Hp; right; exact Hq |].
    rewrite E1, E2, Nat.add_succ_r. split; reflexivity.
Qed.

(** *** The counts *)

Lemma counts_get_set (counts : list (string * nat)) (k key : string) (n : nat) :
  counts_get (counts_set counts k n) key
  = if String.eqb k key then n else counts_get counts key.
Proof.
  unfold counts_get, counts_set. cbn [find fst snd].
  destruct (String.eqb k key); reflexivity.
Qed.

Lemma counts_of_snoc (l : list string) (t : string) :
  counts_of (l ++ [t]) = counts_set (counts_of l) t 1.
Proof. unfold counts_of, counts_set. rewrite map_app, rev_app_distr. reflexivity. Qed.

Lemma counts_of_get (l : list string) (s : string) :
  NoDup l ->
  counts_get (counts_of l) s = if in_dec string_dec s l then 1%nat else 0%nat.
Proof.
  induction l as [| t l IH] using rev_ind; intro Hn; [reflexivity |].
  rewrite counts_of_snoc, counts_get_set.
  apply NoDup_remove in Hn. rewrite app_nil_r in Hn. destruct Hn as [Hn Ht].
  rewrite (IH Hn).
  destruct (String.eqb_spec t s) as [-> | Hne].
  - destruct (in_dec string_dec s (l ++ [s])) as [_ | H]; [reflexivity |].
    exfalso. apply H. apply in_or_app. right. left. reflexivity.
  - destruct (in_dec string_dec s l) as [Hin | Hout],
             (in_dec string_dec s (l ++ [t])) as [Hin' | Hout']; try reflexivity.
    + exfalso. apply Hout'. apply in_or_app. left. exact Hin.
    + exfalso. apply in_app_or in Hin'. destruct Hin' as [H | [H | []]];
        [contradiction | congruence].
Qed.

(** *** One round and many *)

Lemma dedup_loop_dotted (fuel : nat) (this_header : list string) (old_col : string) :
  forall counts cur_count,
    has_dot (fst (fst (dedup_loop fuel this_header counts old_col cur_count))) = true.
Proof.
  induction fuel as [| fuel IH]; intros counts cur_count; cbn [dedup_loop];
    destruct (if existsb _ this_header then _ else _); cbn [fst];
    try apply has_dot_app.
  apply IH.
Qed.

Lemma dedup_loop_counts (fuel : nat) (this_header : list string) (old_col key : string) :
  forall counts cur_count,
    (0 < counts_get (snd (dedup_loop fuel this_header counts old_col cur_count)) key)%nat ->
    key = old_col \/ (0 < counts_get counts key)%nat.
Proof.
  assert (Hset : forall counts n,
             (0 < counts_get (counts_set counts old_col n) key)%nat ->
             key = old_col \/ (0 < counts_get counts key)%nat).
  { intros counts n. rewrite counts_get_set.
    destruct (String.eqb_spec old_col key) as [-> | _]; [left; reflexivity | right; assumption]. }
  induction fuel as [| fuel IH]; intros counts cur_count; cbn [dedup_loop];
    destruct (if existsb _ this_header then _ else _); cbn [snd]; try apply Hset.
  intro H. apply IH in H. destruct H as [H | H]; [left; exact H |].
  apply Hset in H. exact H.
Qed.

Lemma string_length_app (a b : string) :
  String.length (a ++ b) = (String.length a + String.length b)%nat.
Proof. induction a as [| c a IH]; cbn; [reflexivity | rewrite IH; reflexivity]. Qed.

(** The first number is taken when no column has the numbered name. *)
Lemma dedup_loop_first (fuel : nat) (this_header : list string)
    (counts : list (string * nat)) (old_col : string) (cur_count : nat) :
  existsb (String.eqb (old_col ++ "." ++ string_of_nat cur_count)%string) this_header
  = false ->
  counts_get counts (old_col ++ "." ++ string_of_nat cur_count)%string = 0%nat ->
  fst (fst (dedup_loop fuel this_header counts old_col cur_count))
  = (old_col ++ "." ++ string_of_nat cur_count)%string.
Proof.
  intros He Hc.
  assert (Hc' : counts_get (counts_set counts old_col (S cur_count))
                  (old_col ++ "." ++ string_of_nat cur_count)%string = 0%nat).
  { rewrite counts_get_set.
    destruct (String.eqb_spec old_col (old_col ++ "." ++ string_of_nat cur_count)%string)
      as [E | _]; [| exact Hc].
    exfalso. apply (f_equal String.length) in E.
    rewrite string_length_app in E. cbn in E. lia. }
  destruct fuel; cbn [dedup_loop]; rewrite He, Hc'; reflexivity.
Qed.

(** A round changes the name at its position only, and leaves it or puts a
    numbered name. *)
Lemma visit_fst (state : list string * list (string * nat)) (i : nat) :
  exists x,
    fst (visit state i) = set_nth i x (fst state) /\
    (x = nth i (fst state) "" \/ has_dot x = true) /\
    (counts_get (snd state) (nth i (fst state) "") = 0%nat -> x = nth i (fst state) "").
Proof.
  destruct state as [th counts]. unfold visit. cbn [fst snd].
  destruct (counts_get counts (nth i th "")) as [| c] eqn:Ec.
  - exists (nth i th ""). cbn [fst]. split; [reflexivity |]. split; [left |]; reflexivity.
  - pose proof (dedup_loop_dotted (List.length th) th (nth i th "") counts (S c)) as Hd.
    destruct (dedup_loop (List.length th) th counts (nth i th "") (S c)) as [[col n] c'].
    cbn [fst] in *. exists col. split; [reflexivity |]. split; [right; exact Hd |].
    discriminate.
Qed.

Lemma visit_counts (state : list string * list (string * nat)) (i : nat) (key : string) :
  (0 < counts_get (snd (visit state i)) key)%nat ->
  key = nth i (fst state) "" \/ has_dot key = true \/ (0 < counts_get (snd state) key)%nat.
Proof.
  destruct state as [th counts]. unfold visit. cbn [fst snd].
  destruct (counts_get counts (nth i th "")) as [| c] eqn:Ec.
  - cbn [snd]. rewrite counts_get_set.
    destruct (String.eqb_spec (nth i th "") key) as [<- | _];
      [left; reflexivity | right; right; assumption].
  - pose proof (dedup_loop_dotted (List.length th) th (nth i th "") counts (S c)) as Hd.
    pose proof (dedup_loop_counts (List.length th) th (nth i th "") key counts (S c)) as Hc.
    destruct (dedup_loop (List.length th) th counts (nth i th "") (S c)) as [[col n] c'].
    cbn [fst snd] in *. rewrite counts_get_set.
    destruct (String.eqb_spec col key) as [<- | _].
    + intros _. right. left. exact Hd.
    + intro H. destruct (Hc H) as [H' | H']; [left; exact H' | right; right; exact H'].
Qed.

Lemma fold_length (l : list nat) :
  forall state,
    List.length (fst (fold_left visit l state)) = List.length (fst state).
Proof.
  induction l as [| i l IH]; intro state; cbn [fold_left]; [reflexivity |].
  rewrite IH. destruct (visit_fst state i) as [x [E _]]. rewrite E.
  apply length_set_nth.
Qed.

Lemma fold_nth_other (l : list nat) (n : nat) :
  forall state, ~ In n l ->
    nth n (fst (fold_left visit l state)) "" = nth n (fst state) "".
Proof.
  induction l as [| i l IH]; intros state Hn; cbn [fold_left]; [reflexivity |].
  rewrite IH by (intro H; apply Hn; right; exact H).
  destruct (visit_fst state i) as [x [E _]]. rewrite E.
  apply nth_set_nth_neq. intro Ei. apply Hn. left. exact Ei.
Qed.

Lemma fold_not_expected (l : list nat) (n : nat) :
  forall state,
    ~ In (nth n (fst state) "") df_headers_expected ->
    ~ In (nth n (fst (fold_left visit l state)) "") df_headers_expected.
Proof.
  induction l as [| i l IH]; intros state Hn; cbn [fold_left]; [exact Hn |].
  apply IH. destruct (visit_fst state i) as [x [E [Hx _]]]. rewrite E.
  destruct Hx as [-> | Hd]; [rewrite set_nth_same; exact Hn |].
  destruct (nth_set_nth_cases i n x (fst state)) as [-> | ->];
    [exact Hn | apply dotted_not_expected; exact Hd].
Qed.

(** The columns before the first that the header check refuses keep their
    names, and the counts have each of them once. *)
Lemma fold_accepted (todo : list string) :
  forall done tail,
    NoDup (done ++ todo) ->
    fold_left visit (seq (List.length done) (List.length todo))
              ((done ++ todo ++ tail)%list, counts_of done)
    = ((done ++ todo ++ tail)%list, counts_of (done ++ todo)).
Proof.
  induction todo as [| t todo IH]; intros done tail Hn.
  - cbn. rewrite app_nil_r. reflexivity.
  - cbn [List.length seq fold_left].
    assert (Ht : ~ In t done).
    { apply NoDup_remove_2 in Hn. intro H. apply Hn. apply in_or_app. left. exact H. }
    assert (Hv : visit ((done ++ (t :: todo) ++ tail)%list, counts_of done)
                       (List.length done)
                 = (((done ++ [t]) ++ todo ++ tail)%list, counts_of (done ++ [t]))).
    { unfold visit. cbn [app]. rewrite nth_middle.
      rewrite counts_of_get by (apply NoDup_app_remove_r in Hn; exact Hn).
      destruct (in_dec string_dec t done) as [H | _]; [contradiction |].
      rewrite counts_of_snoc. f_equal.
      rewrite <- (nth_middle done (todo ++ tail) t "") at 1.
      rewrite set_nth_same, <- app_assoc. reflexivity. }
    rewrite Hv.
    replace (S (List.length done)) with (List.length (done ++ [t]))
      by (rewrite length_app; cbn; lia).
    rewrite IH by (rewrite <- app_assoc; exact Hn).
    rewrite <- !app_assoc. reflexivity.
Qed.

Lemma validate_headers_nth (n : nat) :
  forall l,
    (forall j, (j < n)%nat -> In (nth j l "") df_headers_expected) ->
    (n < List.length l)%nat ->
    ~ In (nth n l "") df_headers_expected ->
    validate_headers l = Some (nth n l "").
Proof.
  induction n as [| n IH]; intros [| h l] Hp Hl Hn; cbn in Hl; try lia;
    cbn [validate_headers nth] in *.
  - destruct (existsb (String.eqb h) df_headers_expected) eqn:E; [| reflexivity].
    apply expected_in in E. contradiction.
  - rewrite (proj2 (expected_in h)) by (apply (Hp 0%nat); lia).
    apply IH; [| lia | exact Hn]. intros j Hj. apply (Hp (S j)). lia.
Qed.

(** A header whose names are the expected ones, none twice, is taken as it
    is. *)
Lemma pandas_columns_accepted (header : list string) :
  NoDup header -> (forall h, In h header -> In h df_headers_expected) ->
  pandas_columns header = header.
Proof.
  intros Hn Hp. unfold pandas_columns, col_loop_order.
  pose proof (this_header_app header [] 0 Hp) as Eh.
  destruct (positions_named header [] 0 Hp) as [E1 E2].
  rewrite app_nil_r in Eh, E1, E2. cbn in Eh, E1, E2. rewrite Eh, E1, E2.
  rewrite !app_nil_r.
  pose proof (fold_accepted header [] [] Hn) as H. cbn in H.
  rewrite app_nil_r in H. rewrite H. reflexivity.
Qed.

(** The column that the header check stops at: the first that has no
    expected name or repeats an earlier one. *)
Lemma first_refused_column (pre suf : list string) (a : string) :
  NoDup pre -> (forall p, In p pre -> In p df_headers_expected) ->
  ~ In a df_headers_expected \/ In a pre ->
  exists x,
    validate_headers (pandas_columns (pre ++ a :: suf)) = Some x /\
    ~ In x df_headers_expected /\
    (~ In a pre -> a <> "" -> x = a) /\
    (a = "" -> ~ In (unnamed (List.length pre)) (pre ++ a :: suf) ->
     x = unnamed (List.length pre)) /\
    (In a pre -> ~ In (a ++ ".1")%string (pre ++ a :: suf) -> x = (a ++ ".1")%string).
Proof.
  intros Hn Hp Ha.
  set (header := (pre ++ a :: suf)%list).
  set (n := List.length pre).
  set (th0 := this_header_from 0 header).
  assert (Eth : th0 = (pre ++ (if String.eqb a "" then unnamed n else a)
                           :: this_header_from (S n) suf)%list).
  { unfold th0, header. rewrite (this_header_app pre (a :: suf) 0 Hp). reflexivity. }
  assert (Hlen : (n < List.length th0)%nat).
  { unfold th0. rewrite length_this_header. unfold header. rewrite length_app. cbn.
    fold n. lia. }
  assert (Hpre : forall j, (j < n)%nat -> nth j th0 "" = nth j pre "").
  { intros j Hj. rewrite Eth. apply app_nth1. exact Hj. }
  assert (Hin_pre : forall j, (j < n)%nat -> In (nth j pre "") df_headers_expected).
  { intros j Hj. apply Hp. apply nth_In. exact Hj. }
  (* what is left to show of the final list *)
  assert (Hend : forall final x,
             List.length final = List.length th0 ->
             (forall j, (j < n)%nat -> nth j final "" = nth j th0 "") ->
             nth n final "" = x -> ~ In x df_headers_expected ->
             validate_headers final = Some x).
  { intros final x Hl Hj Hx Hne. rewrite <- Hx. apply validate_headers_nth.
    - intros j Hlt. rewrite (Hj j Hlt), (Hpre j Hlt). apply Hin_pre. exact Hlt.
    - rewrite Hl. exact Hlen.
    - rewrite Hx. exact Hne. }
  destruct (positions_named pre (a :: suf) 0 Hp) as [E1 E2].
  cbn [Nat.add] in E1, E2. fold n in E1, E2. cbn [positions] in E1, E2.
  unfold pandas_columns, col_loop_order. fold header. fold th0.
  unfold header at 1 2. rewrite E1, E2.
  destruct (String.eqb_spec a "") as [Ea | Ea]; cbn [Bool.eqb] in *.
  - (* a column without a name *)
    subst a.
    assert (Hnotin : ~ In "" pre).
    { intro H. apply Hp in H. apply expected_named in H. discriminate. }
    set (early := (seq 0 n ++ positions false (S n) suf)%list).
    set (late := positions true (S n) suf).
    assert (Hearly : ~ In n early).
    { unfold early. intro H. apply in_app_or in H. destruct H as [H | H].
      - apply in_seq in H. lia.
      - apply positions_lb in H. lia. }
    assert (Hlate : ~ In n late).
    { unfold late. intro H. apply positions_lb in H. lia. }
    assert (Hbelow : forall j, (j < n)%nat -> ~ In j (positions false (S n) suf ++ n :: late)).
    { intros j Hj H. apply in_app_or in H. destruct H as [H | [H | H]].
      - apply positions_lb in H. lia.
      - lia.
      - apply positions_lb in H. lia. }
    set (final := fst (fold_left visit (early ++ n :: late) (th0, []))).
    assert (Hfinal_pre : forall j, (j < n)%nat -> nth j final "" = nth j th0 "").
    { intros j Hj. unfold final, early. rewrite <- app_assoc, fold_left_app.
      rewrite fold_nth_other by (apply Hbelow; exact Hj).
      pose proof (fold_accepted pre [] (unnamed n :: this_header_from (S n) suf)) as H.
      cbn [app List.length] in H. fold n in H. rewrite <- Eth in H.
      change (counts_of []) with (@nil (string * nat)) in H.
      rewrite H by exact Hn. reflexivity. }
    assert (Hx : ~ In (nth n final "") df_headers_expected).
    { unfold final. apply fold_not_expected. cbn [fst]. rewrite Eth.
      unfold n. rewrite nth_middle. apply unnamed_not_expected. }
    exists (nth n final ""). split; [| split; [exact Hx | split; [| split]]].
    + apply Hend; [apply fold_length | exact Hfinal_pre | reflexivity | exact Hx].
    + intros _ H. congruence.
    + intros _ Hun. fold n. fold header in Hun.
      (* the counts have no entry for the name of this column *)
      assert (Hinv : forall l state,
                 ~ In n l ->
                 (forall j, nth j (fst state) "" = nth j th0 ""
                            \/ has_dot (nth j (fst state) "") = true) ->
                 (forall key, (0 < counts_get (snd state) key)%nat ->
                              has_dot key = true
                              \/ exists j, j <> n /\ nth j th0 "" = key) ->
                 nth n (fst (fold_left visit l state)) "" = nth n (fst state) "" /\
                 forall key, (0 < counts_get (snd (fold_left visit l state)) key)%nat ->
                             has_dot key = true
                             \/ exists j, j <> n /\ nth j th0 "" = key).
      { induction l as [| i l IH]; intros state Hl HK HJ; cbn [fold_left].
        - split; [reflexivity | exact HJ].
        - assert (Hi : i <> n) by (intro E; apply Hl; left; exact E).
          destruct (visit_fst state i) as [x [E [Hxi _]]].
          destruct (IH (visit state i)) as [IH1 IH2].
          + intro H. apply Hl. right. exact H.
          + intro j. rewrite E.
            destruct Hxi as [-> | Hd]; [rewrite set_nth_same; apply HK |].
            destruct (nth_set_nth_cases i j x (fst state)) as [-> | ->];
              [apply HK | right; exact Hd].
          + intros key Hk. apply visit_counts in Hk.
            destruct Hk as [-> | [Hk | Hk]].
            * destruct (HK i) as [Ei | Ei]; [| left; exact Ei].
              right. exists i. split; [exact Hi | symmetry; exact Ei].
            * left. exact Hk.
            * apply HJ. exact Hk.
          + split; [| exact IH2]. rewrite IH1, E. apply nth_set_nth_neq. exact Hi. }
      assert (Hn0 : nth n th0 "" = unnamed n).
      { rewrite Eth. unfold n. apply nth_middle. }
      unfold final. rewrite fold_left_app. cbn [fold_left].
      rewrite fold_nth_other by exact Hlate.
      destruct (Hinv early (th0, [])) as [I1 I2].
      * exact Hearly.
      * intro j. left. reflexivity.
      * intros key H. cbn in H. lia.
      * cbn [fst] in I1. rewrite Hn0 in I1.
        destruct (visit_fst (fold_left visit early (th0, [])) n) as [x [E [_ Hx0]]].
        rewrite E. rewrite nth_set_nth_eq by (rewrite fold_length; exact Hlen).
        rewrite Hx0; [exact I1 |]. rewrite I1.
        destruct (counts_get _ (unnamed n)) eqn:Ec; [reflexivity |]. exfalso.
        destruct (I2 (unnamed n)) as [Hd | [j [Hj Ej]]]; [lia | |].
        -- rewrite has_dot_unnamed in Hd. discriminate.
        -- unfold th0 in Ej. destruct (this_header_nth header 0 j) as [H | [H | H]].
           ++ rewrite H in Ej. symmetry in Ej. apply unnamed_not_empty in Ej. exact Ej.
           ++ rewrite H in Ej. apply unnamed_inj in Ej. cbn in Ej. lia.
           ++ rewrite Ej in H. apply Hun. exact H.
    + intros H. apply Hp in H. apply expected_named in H. discriminate.
  - (* a column with a name *)
    rewrite <- app_assoc. cbn [app].
    set (late := (positions false (S n) suf ++ positions true (S n) suf)%list).
    assert (Hlate : forall j, (j <= n)%nat -> ~ In j late).
    { intros j Hj H. apply in_app_or in H. destruct H as [H | H];
        apply positions_lb in H; lia. }
    assert (Eth' : th0 = (pre ++ a :: this_header_from (S n) suf)%list) by exact Eth.
    rewrite fold_left_app.
    pose proof (fold_accepted pre [] (a :: this_header_from (S n) suf) ) as H1.
    cbn [app List.length] in H1. fold n in H1. rewrite <- Eth' in H1.
    change (counts_of []) with (@nil (string * nat)) in H1.
    rewrite H1 by exact Hn. cbn [fold_left].
    assert (Hna : nth n th0 "" = a).
    { rewrite Eth'. unfold n. apply nth_middle. }
    destruct (visit_fst (th0, counts_of pre) n) as [x [E [Hx Hx0]]].
    cbn [fst snd] in E, Hx, Hx0. rewrite Hna in Hx, Hx0.
    rewrite counts_of_get in Hx0 by exact Hn.
    set (final := fst (fold_left visit late (visit (th0, counts_of pre) n))).
    assert (Hfn : nth n final "" = x).
    { unfold final. rewrite fold_nth_other by (apply Hlate; lia).
      rewrite E. apply nth_set_nth_eq. exact Hlen. }
    assert (Hfp : forall j, (j < n)%nat -> nth j final "" = nth j th0 "").
    { intros j Hj. unfold final. rewrite fold_nth_other by (apply Hlate; lia).
      rewrite E. apply nth_set_nth_neq. lia. }
    assert (Hfl : List.length final = List.length th0).
    { unfold final. rewrite fold_length, E. apply length_set_nth. }
    destruct (in_dec string_dec a pre) as [Hin | Hout].
    + (* a repeat *)
      assert (Hxd : has_dot x = true).
      { unfold visit in E. rewrite Hna in E. rewrite counts_of_get in E by exact Hn.
        destruct (in_dec string_dec a pre) as [_ | H]; [| contradiction].
        pose proof (dedup_loop_dotted (List.length th0) th0 a (counts_of pre) 1) as Hd.
        destruct (dedup_loop (List.length th0) th0 (counts_of pre) a 1) as [[col c] cs].
        cbn [fst] in E, Hd. apply (f_equal (fun l => nth n l "")) in E.
        rewrite !nth_set_nth_eq in E by exact Hlen. subst col. exact Hd. }
      exists x. split; [| split; [| split; [| split]]].
      * apply Hend; [exact Hfl | exact Hfp | exact Hfn |].
        apply dotted_not_expected. exact Hxd.
      * apply dotted_not_expected. exact Hxd.
      * intro H. contradiction.
      * intro H. contradiction.
      * intros _ H1a. fold header in H1a.
        unfold visit in E. rewrite Hna in E. rewrite counts_of_get in E by exact Hn.
        destruct (in_dec string_dec a pre) as [_ | H]; [| contradiction].
        pose proof (dedup_loop_first (List.length th0) th0 (counts_of pre) a 1) as Hd.
        change (a ++ "." ++ string_of_nat 1)%string with (a ++ ".1")%string in Hd.
        destruct (dedup_loop (List.length th0) th0 (counts_of pre) a 1) as [[col c] cs].
        cbn [fst] in E, Hd. apply (f_equal (fun l => nth n l "")) in E.
        rewrite !nth_set_nth_eq in E by exact Hlen. subst col. apply Hd.
        -- destruct (existsb (String.eqb (a ++ ".1")%string) th0) eqn:Ex; [| reflexivity].
           exfalso. apply existsb_exists in Ex. destruct Ex as [y [Hy Ey]].
           apply String.eqb_eq in Ey. subst y. unfold th0 in Hy.
           apply this_header_in in Hy. destruct Hy as [Hy | Hy]; [contradiction |].
           pose proof (has_dot_app a "1") as Hd'. cbn in Hd'. cbn in Hy. congruence.
        -- rewrite counts_of_get by exact Hn.
           destruct (in_dec string_dec (a ++ ".1")%string pre) as [H | _]; [| reflexivity].
           exfalso. apply Hp in H. apply expected_no_dot in H.
           pose proof (has_dot_app a "1") as Hd'. cbn in Hd'. cbn in H. congruence.
    + (* a name that is not expected *)
      assert (Hae : ~ In a df_headers_expected) by (destruct Ha; [assumption | contradiction]).
      assert (Exa : x = a) by (apply Hx0; reflexivity).
      exists x. split; [| split; [| split; [| split]]].
      * apply Hend; [exact Hfl | exact Hfp | exact Hfn |]. rewrite Exa. exact Hae.
      * rewrite Exa. exact Hae.
      * intros _ _. exact Exa.
      * intro H. contradiction.
      * intro H. contradiction.
Qed.

(** A header is accepted as a whole or has a first refused column. *)
Lemma header_accepted_or_refused (header : list string) :
  (NoDup header /\ forall h, In h header -> In h df_headers_expected) \/
  exists pre a suf,
    header = (pre ++ a :: suf)%list /\ NoDup pre /\
    (forall p, In p pre -> In p df_headers_expected) /\
    (~ In a df_headers_expected \/ In a pre).
Proof.
  induction header as [| z l IH] using rev_ind.
  - left. split; [constructor | intros h []].
  - destruct IH as [[Hn Hp] | [pre [a [suf [-> H]]]]].
    + destruct (in_dec string_dec z df_headers_expected) as [Hz | Hz].
      * destruct (in_dec string_dec z l) as [Hin | Hout].
        -- right. exists l, z, []. split; [reflexivity |]. split; [exact Hn |].
           split; [exact Hp | right; exact Hin].
        -- left. split.
           ++ apply NoDup_app; [exact Hn | repeat constructor; intros [] |].
              intros x Hx [<- | []]. contradiction.
           ++ intros h Hh. apply in_app_or in Hh.
              destruct Hh as [Hh | [<- | []]]; [apply Hp; exact Hh | exact Hz].
      * right. exists l, z, []. split; [reflexivity |]. split; [exact Hn |].
        split; [exact Hp | left; exact Hz].
    + right. exists pre, a, (suf ++ [z])%list. split; [| exact H].
      rewrite <- app_assoc. reflexivity.
Qed.

Lemma refused_not_accepted (pre suf : list string) (a : string) :
  ~ In a df_headers_expected \/ In a pre ->
  ~ (NoDup (pre ++ a :: suf) /\
     forall h, In h (pre ++ a :: suf) -> In h df_headers_expected).
Proof.
  intros [Ha | Ha] [Hn Hp].
  - apply Ha. apply Hp. apply in_or_app. right. left. reflexivity.
  - apply NoDup_remove_2 in Hn. apply Hn. apply in_or_app. left. exact Ha.
Qed.

Lemma load_prices_accepted (header : list string) (rows : list PriceRow) :
  header <> [] -> NoDup header ->
  (forall h, In h header -> In h df_headers_expected) ->
  load_prices (Some (header, rows))
  = if forallb (fun h => existsb (String.eqb h) header) df_headers_expected
    then inr (transform_prices_to_DataFrame rows) else inl KeyError_pivot.
Proof.
  intros Hne Hn Hp. unfold load_prices. destruct header as [| h0 header]; [congruence |].
  cbv zeta. rewrite (pandas_columns_accepted _ Hn Hp).
  assert (Hv : forall l, (forall h, In h l -> In h df_headers_expected) ->
                         validate_headers l = None).
  { induction l as [| h l IH]; intro H; [reflexivity |]. cbn [validate_headers].
    rewrite (proj2 (expected_in h)) by (apply H; left; reflexivity).
    apply IH. intros x Hx. apply H. right. exact Hx. }
  rewrite (Hv _ Hp). reflexivity.
Qed.

Lemma load_prices_refused (pre suf : list string) (a : string) (rows : list PriceRow) :
  NoDup pre -> (forall p, In p pre -> In p df_headers_expected) ->
  ~ In a df_headers_expected \/ In a pre ->
  exists x,
    load_prices (Some ((pre ++ a :: suf)%list, rows))
    = inl (ValueError_invalid_column_name x) /\
    ~ In x df_headers_expected /\
    (~ In a pre -> a <> "" -> x = a) /\
    (a = "" -> ~ In (unnamed (List.length pre)) (pre ++ a :: suf) ->
     x = unnamed (List.length pre)) /\
    (In a pre -> ~ In (a ++ ".1")%string (pre ++ a :: suf) -> x = (a ++ ".1")%string).
Proof.
  intros Hn Hp Ha.
  destruct (first_refused_column pre suf a Hn Hp Ha) as [x [Hv H]].
  exists x. split; [| exact H]. unfold load_prices.
  destruct (pre ++ a :: suf)%list as [| h0 l] eqn:E.
  - destruct pre; discriminate.
  - cbv zeta. rewrite Hv. reflexivity.
Qed.

Lemma expected_all_in (header : list string) :
  forallb (fun h => existsb (String.eqb h) header) df_headers_expected = true
  <-> forall h, In h df_headers_expected -> In h header.
Proof.
  rewrite forallb_forall. split; intros H h Hh.
  - specialize (H h Hh). apply existsb_exists in H. destruct H as [x [Hx E]].
    apply String.eqb_eq in E. subst x. exact Hx.
  - apply existsb_exists. exists h. split; [apply H; exact Hh | apply String.eqb_refl].
Qed.

Lemma price_file_columns_aux (header : list string) (rows : list PriceRow) :
  (load_prices (Some (header, rows)) = inr (transform_prices_to_DataFrame rows)
   <-> NoDup header /\
       (forall h, In h header -> In h df_headers_expected) /\
       (forall h, In h df_headers_expected -> In h header)) /\
  (load_prices (Some (header, rows)) = inl KeyError_pivot
   <-> header <> [] /\ NoDup header /\
       (forall h, In h header -> In h df_headers_expected) /\
       exists h, In h df_headers_expected /\ ~ In h header) /\
  (load_prices (Some (header, rows)) = inl (RuntimeError_could_not_read "prices.csv")
   <-> header = []) /\
  ((exists x, load_prices (Some (header, rows)) = inl (ValueError_invalid_column_name x))
   <-> ~ (NoDup header /\ forall h, In h header -> In h df_headers_expected)).
Proof.
  destruct (header_accepted_or_refused header) as [[Hn Hp] | [pre [a [suf [-> [Hn [Hp Ha]]]]]]].
  - destruct header as [| h0 header'] eqn:Eh.
    + cbn [load_prices]. split; [| split; [| split]].
      * split; [discriminate |]. intros [_ [_ H]]. destruct (H "date"). left. reflexivity.
      * split; [discriminate |]. intros [H _]. congruence.
      * split; reflexivity.
      * split; [intros [x H]; discriminate |]. intro H. exfalso. apply H.
        split; [constructor | intros h []].
    + assert (Hne : h0 :: header' <> []) by discriminate.
      rewrite (load_prices_accepted _ rows Hne Hn Hp).
      pose proof (expected_all_in (h0 :: header')) as Hall.
      destruct (forallb _ df_headers_expected) eqn:Ef.
      * split; [| split; [| split]].
        -- split; [| reflexivity]. intros _. split; [exact Hn |]. split; [exact Hp |].
           apply Hall. reflexivity.
        -- split; [discriminate |]. intros [_ [_ [_ [h [Hh Hout]]]]]. exfalso.
           apply Hout. apply (proj1 Hall eq_refl). exact Hh.
        -- split; discriminate.
        -- split; [intros [x H]; discriminate |]. intro H. exfalso. apply H.
           split; assumption.
      * split; [| split; [| split]].
        -- split; [discriminate |]. intros [_ [_ H]]. apply Hall in H. discriminate.
        -- split; [| reflexivity]. intros _. split; [exact Hne |]. split; [exact Hn |].
           split; [exact Hp |]. apply forallb_false_witness in Ef.
           destruct Ef as [h [Hh Hf]]. exists h. split; [exact Hh |]. intro Hin.
           assert (existsb (String.eqb h) (h0 :: header') = true)
             by (apply existsb_exists; exists h; split; [exact Hin | apply String.eqb_refl]).
           congruence.
        -- split; discriminate.
        -- split; [intros [x H]; discriminate |]. intro H. exfalso. apply H.
           split; assumption.
  - destruct (load_prices_refused pre suf a rows Hn Hp Ha) as [x [Hl _]].
    pose proof (refused_not_accepted pre suf a Ha) as Hnot.
    rewrite Hl. split; [| split; [| split]].
    + split; [discriminate |]. intros [H1 [H2 _]]. exfalso. apply Hnot. split; assumption.
    + split; [discriminate |]. intros [_ [H1 [H2 _]]]. exfalso. apply Hnot.
      split; assumption.
    + split; [discriminate |]. intro H. destruct pre; discriminate.
    + split; [intros _; exact Hnot | intros _; exists x; reflexivity].
Qed.

(** X13.  A price file with a header line is loaded exactly when the
    header has the three expected names, each once, in any order.  It is
    refused with the [ValueError] of line 29 exactly when some column has
    another name or repeats a name; the error names the first such column
    as [read_csv] calls it: by its name, by [Unnamed: ] and its position
    when it has none, by its name and [.1] when it repeats an earlier one
    (where the header has no column of that very name).  The header check
    itself does not notice an expected column that lacks: the file then
    fails in the pivot.  A file without a header line ends in the
    [RuntimeError] of line 20. *)
Theorem price_file_columns (header : list string) (rows : list PriceRow) :
  (load_prices (Some (header, rows)) = inr (transform_prices_to_DataFrame rows)
   <-> NoDup header /\
       (forall h, In h header -> In h df_headers_expected) /\
       (forall h, In h df_headers_expected -> In h header)) /\
  (load_prices (Some (header, rows)) = inl KeyError_pivot
   <-> header <> [] /\ NoDup header /\
       (forall h, In h header -> In h df_headers_expected) /\
       exists h, In h df_headers_expected /\ ~ In h header) /\
  (load_prices (Some (header, rows)) = inl (RuntimeError_could_not_read "prices.csv")
   <-> header = []) /\
  ((exists x, load_prices (Some (header, rows)) = inl (ValueError_invalid_column_name x))
   <-> ~ (NoDup header /\ forall h, In h header -> In h df_headers_expected)) /\
  (forall pre a suf,
     header = (pre ++ a :: suf)%list -> NoDup pre ->
     (forall p, In p pre -> In p df_headers_expected) ->
     ~ In a df_headers_expected \/ In a pre ->
     exists x,
       load_prices (Some (header, rows)) = inl (ValueError_invalid_column_name x) /\
       ~ In x df_headers_expected /\
       (~ In a pre -> a <> "" -> x = a) /\
       (a = "" -> ~ In (unnamed (List.length pre)) header ->
        x = unnamed (List.length pre)) /\
       (In a pre -> ~ In (a ++ ".1")%string header -> x = (a ++ ".1")%string)).
Proof.
  destruct (price_file_columns_aux header rows) as [H1 [H2 [H3 H4]]].
  split; [exact H1 |]. split; [exact H2 |]. split; [exact H3 |]. split; [exact H4 |].
  intros pre a suf -> Hn Hp Ha. apply load_prices_refused; assumption.
Qed.

Lemma price_file_columns_witness :
  load_prices (Some (["ticker"; "close_price"; "date"], Sample.fb_rows))
  = inr (transform_prices_to_DataFrame Sample.fb_rows) /\
  load_prices (Some (["date"; "ticker"; "price"; "close"], Sample.fb_rows))
  = inl (ValueError_invalid_column_name "price") /\
  load_prices (Some (["date"; "date"; "ticker"; "close_price"], Sample.fb_rows))
  = inl (ValueError_invalid_column_name "date.1") /\
  load_prices (Some (["date"; ""; "ticker"; "close_price"], Sample.fb_rows))
  = inl (ValueError_invalid_column_name "Unnamed: 1") /\
  load_prices (Some (["date"; "ticker"], Sample.fb_rows)) = inl KeyError_pivot.
Proof.
  split; [| split; [| split; [| split]]].
  - apply (proj1 (price_file_columns ["ticker"; "close_price"; "date"] Sample.fb_rows)).
    split; [| split; intros h Hh; cbn in *; intuition].
    repeat constructor; cbn; intuition discriminate.
  - destruct (proj2 (proj2 (proj2 (proj2
                (price_file_columns ["date"; "ticker"; "price"; "close"] Sample.fb_rows))))
                ["date"; "ticker"] "price" ["close"]) as [x [Hl [_ [Hx _]]]].
    + reflexivity.
    + repeat constructor; cbn; intuition discriminate.
    + intros p Hp. cbn in *. intuition.
    + left. cbn. intuition discriminate.
    + rewrite Hl. rewrite Hx; [reflexivity | cbn; intuition discriminate | discriminate].
  - destruct (proj2 (proj2 (proj2 (proj2
                (price_file_columns ["date"; "date"; "ticker"; "close_price"]
                   Sample.fb_rows))))
                ["date"] "date" ["ticker"; "close_price"]) as [x [Hl [_ [_ [_ Hx]]]]].
    + reflexivity.
    + repeat constructor; cbn; intuition.
    + intros p Hp. cbn in *. intuition.
    + right. left. reflexivity.
    + rewrite Hl. rewrite Hx; [reflexivity | left; reflexivity |].
      cbn. intuition discriminate.
  - destruct (proj2 (proj2 (proj2 (proj2
                (price_file_columns ["date"; ""; "ticker"; "close_price"]
                   Sample.fb_rows))))
                ["date"] "" ["ticker"; "close_price"]) as [x [Hl [_ [_ [Hx _]]]]].
    + reflexivity.
    + repeat constructor; cbn; intuition.
    + intros p Hp. cbn in *. intuition.
    + left. cbn. intuition discriminate.
    + rewrite Hl. rewrite Hx; [reflexivity | reflexivity |].
      cbn. intuition discriminate.
  - apply (proj1 (proj2 (price_file_columns ["date"; "ticker"] Sample.fb_rows))).
    split; [discriminate |].
    split; [repeat constructor; cbn; intuition discriminate |]. split.
    + intros x Hx. cbn in *. intuition.
    + exists "close_price". split; [cbn; intuition |].
      cbn. intros [H | [H | []]]; discriminate.
Defined.

(** ** When the script succeeds *)

Lemma slice_from_nonempty (s : Series) (start : date) :
  slice_from s start <> [] <-> exists d, In d (dates s) /\ start <= d.
Proof.
  induction s as [| [d p] s IH]; cbn [slice_from dates map fst In].
  - split; [congruence | intros [d [[] _]]].
  - destruct (Z.ltb_spec d start) as [Hlt | Hge].
    + rewrite IH. split.
      * intros [x [Hx Hd]]. exists x. split; [right; exact Hx | exact Hd].
      * intros [x [[<- | Hx] Hd]]; [lia |]. exists x. split; assumption.
    + split; [| discriminate]. intros _. exists d. split; [left; reflexivity | exact Hge].
Qed.

Lemma compute_return_of_ok (s : Series) (start : date) :
  (exists r, compute_return_of s start = Ok r) <-> slice_from s start <> [].
Proof.
  unfold compute_return_of. split.
  - intros [r H] E. rewrite E in H. discriminate.
  - intro H. destruct (iloc_last_some _ H) as [t1 ->].
    destruct (iloc_first_some _ H) as [t0 ->]. eexists. reflexivity.
Qed.

Lemma stitched_ok_iff (df : DataFrame) (id : identity) :
  (exists s, stitched df id = Ok s)
  <-> has_column df (fst (chain id)) = true /\ has_column df (snd (chain id)) = true.
Proof.
  split.
  - intros [s Hs].
    destruct (has_column df (fst (chain id))) eqn:Ho,
             (has_column df (snd (chain id))) eqn:Hn; try (split; reflexivity);
      exfalso;
      [ destruct (stitched_missing df id (or_intror Hn)) as [t [Ht _]]
      | destruct (stitched_missing df id (or_introl Ho)) as [t [Ht _]]
      | destruct (stitched_missing df id (or_introl Ho)) as [t [Ht _]] ];
      congruence.
  - intros [Ho Hn]. destruct id as [t | o n e | o n e]; cbn [chain fst snd stitched] in *.
    + apply getitem_present. exact Ho.
    + apply combine_present; assumption.
    + apply combine_present; assumption.
Qed.

Lemma returns_from_ok_iff (df : DataFrame) (q : string) (tf : Z)
    (changes : list Change.t) (splits : list Split.t) (order : bool) :
  (exists r, returns_from df q tf changes splits order = Ok r)
  <-> exists id s,
        resolve q changes = Ok id /\ stitched df id = Ok s /\
        exists d, In d (dates s) /\ beginning_date tf <= d.
Proof.
  unfold returns_from, account_for_ticker_changes.
  destruct (resolve_total q changes) as [id Hid]. rewrite Hid. cbn [bind].
  destruct (stitched df id) as [s | e] eqn:Hs; cbn [bind fst snd].
  - destruct (adjust_splits_pointwise splits
                (tickers order (fst (chain id)) (snd (chain id))) s) as [g [_ Ha]].
    rewrite Ha. cbn [bind]. rewrite compute_return_of_ok, slice_from_map.
    split.
    + intro H. exists id, s. split; [reflexivity |]. split; [exact Hs |].
      apply slice_from_nonempty. intro E. apply H. rewrite E. reflexivity.
    + intros [id' [s' [E1 [E2 H]]]]. inversion E1; subst id'.
      rewrite Hs in E2. inversion E2; subst s'.
      apply map_not_nil. apply slice_from_nonempty. exact H.
  - split; [intros [r H]; discriminate |].
    intros [id' [s' [E1 [E2 _]]]]. inversion E1; subst id'.
    rewrite Hs in E2. discriminate.
Qed.

Lemma main_ok_iff (q tfs : string) (prices : list PriceRow) (changes : list Change.t)
    (splits : list Split.t) (order : bool) :
  (exists r, main q tfs prices changes splits order = Ok r)
  <-> has_column (working_table prices) q = true /\
      exists tf id s,
        dict_timeframes tfs = Some tf /\
        resolve q changes = Ok id /\
        stitched (working_table prices) id = Ok s /\
        exists d, In d (dates s) /\ beginning_date tf <= d.
Proof.
  unfold main. fold (working_table prices).
  destruct (has_column (working_table prices) q); cbn [negb].
  - destruct (dict_timeframes tfs) as [tf |].
    + rewrite returns_from_ok_iff. split.
      * intros [id [s H]]. split; [reflexivity |]. exists tf, id, s.
        split; [reflexivity | exact H].
      * intros [_ [tf' [id [s [E H]]]]]. inversion E; subst tf'. exists id, s. exact H.
    + split; [intros [r H]; discriminate |].
      intros [_ [tf [id [s [E _]]]]]. discriminate.
  - split; [intros [r H]; discriminate | intros [H _]; discriminate].
Qed.

(** X14.  The script gives a return exactly when the queried ticker has a
    column, the lookback selector is one of the four, both tickers of the
    resolved chain have a column, and the stitched series has a date on or
    after the window start.  The split table plays no part in this: no
    split row, whatever its quantities, makes the script fail. *)
Theorem main_succeeds_iff (q tfs : string) (prices : list PriceRow)
    (changes : list Change.t) (splits : list Split.t) (order : bool) :
  (exists r, main q tfs prices changes splits order = Ok r)
  <-> has_column (working_table prices) q = true /\
      exists tf id s,
        dict_timeframes tfs = Some tf /\
        resolve q changes = Ok id /\
        has_column (working_table prices) (fst (chain id)) = true /\
        has_column (working_table prices) (snd (chain id)) = true /\
        stitched (working_table prices) id = Ok s /\
        exists d, In d (dates s) /\ beginning_date tf <= d.
Proof.
  rewrite main_ok_iff. split.
  - intros [Hq [tf [id [s [Ht [Hid [Hs Hd]]]]]]]. split; [exact Hq |].
    exists tf, id, s. split; [exact Ht |]. split; [exact Hid |].
    destruct (proj1 (stitched_ok_iff _ id) (ex_intro _ s Hs)) as [Ho Hn].
    split; [exact Ho |]. split; [exact Hn |]. split; assumption.
  - intros [Hq [tf [id [s [Ht [Hid [_ [_ [Hs Hd]]]]]]]]]. split; [exact Hq |].
    exists tf, id, s. split; [exact Ht |]. split; [exact Hid |]. split; assumption.
Qed.

(** X15.  For a ticker that no row of the rename table mentions and that
    has a column, and for a valid lookback selector, the script gives a
    return exactly when the price file has a row, of any ticker, dated
    from the window start to 2024-12-31; otherwise it ends with the
    [IndexError] of the empty window. *)
Theorem unchanged_ticker_succeeds_iff (q tfs : string) (tf : Z)
    (prices : list PriceRow) (changes : list Change.t) (splits : list Split.t)
    (order : bool) :
  (forall r, In r changes -> Change.old_ticker r <> q /\ Change.new_ticker r <> q) ->
  has_column (working_table prices) q = true ->
  dict_timeframes tfs = Some tf ->
  ((exists r, main q tfs prices changes splits order = Ok r)
   <-> exists row, In row prices /\ beginning_date tf <= row_date row <= analysis_end) /\
  ((forall row, In row prices -> ~ beginning_date tf <= row_date row <= analysis_end) ->
   main q tfs prices changes splits order = Err IndexError).
Proof.
  intros Hch Hq Ht.
  pose proof (proj2 (resolve_unchanged_iff q changes) Hch) as Hid.
  destruct (getitem_present _ _ Hq) as [col Hcol].
  pose proof (getitem_dates _ _ _ Hcol) as Hd.
  assert (Hiff : (exists r, main q tfs prices changes splits order = Ok r)
                 <-> exists row, In row prices /\
                                 beginning_date tf <= row_date row <= analysis_end).
  { rewrite main_ok_iff. split.
    - intros [_ [tf' [id [s [E [E' [Hs [d [Hin Hle]]]]]]]]].
      rewrite Ht in E. inversion E; subst tf'.
      rewrite Hid in E'. inversion E'; subst id. cbn [stitched] in Hs.
      rewrite Hcol in Hs. inversion Hs; subst s.
      rewrite Hd in Hin. apply working_index_mem in Hin.
      destruct Hin as [[row [Hrow E1]] He]. exists row. subst d.
      split; [exact Hrow | split; assumption].
    - intros [row [Hrow [Hs He]]]. split; [exact Hq |].
      exists tf, (Unchanged q), col. split; [exact Ht |]. split; [exact Hid |].
      split; [exact Hcol |]. exists (row_date row). split; [| exact Hs].
      rewrite Hd. apply working_index_mem. split; [| exact He].
      exists row. split; [exact Hrow | reflexivity]. }
  split; [exact Hiff |]. intro Hno.
  unfold main, returns_from, account_for_ticker_changes.
  fold (working_table prices). rewrite Hq, Ht, Hid. cbn [negb bind stitched].
  rewrite Hcol. cbn [bind chain fst snd].
  destruct (adjust_splits_pointwise splits (tickers order q q) col) as [g [_ Ha]].
  rewrite Ha. cbn [bind]. unfold compute_return_of. rewrite slice_from_map.
  assert (Hw : slice_from col (beginning_date tf) = []).
  { destruct (slice_from col (beginning_date tf)) as [| x w] eqn:E; [reflexivity |].
    exfalso. assert (Hne : slice_from col (beginning_date tf) <> []) by (rewrite E; discriminate).
    apply slice_from_nonempty in Hne. destruct Hne as [d [Hin Hle]].
    rewrite Hd in Hin. apply working_index_mem in Hin.
    destruct Hin as [[row [Hrow E1]] He]. apply (Hno row Hrow). subst d. split; assumption. }
  rewrite Hw. reflexivity.
Qed.

Lemma unchanged_ticker_succeeds_iff_witness :
  (exists r, main "FB" "5 days" Sample.fb_rows [] [] true = Ok r) /\
  main "XYZ" "1 day" Sample.xyz_rows [] [] true = Err IndexError.
Proof.
  split.
  - apply (proj1 (unchanged_ticker_succeeds_iff "FB" "5 days" 5 Sample.fb_rows [] [] true
                    ltac:(intros r []) eq_refl eq_refl)).
    exists (mkPriceRow Sample.dec30 "META" (qc_of_Z 210)).
    split; [right; left; reflexivity |]. vm_compute. split; discriminate.
  - apply (proj2 (unchanged_ticker_succeeds_iff "XYZ" "1 day" 1 Sample.xyz_rows [] [] true
                    ltac:(intros r []) eq_refl eq_refl)).
    intros row Hrow [H1 H2]. vm_compute in Hrow.
    destruct Hrow as [<- | [<- | []]]; vm_compute in H1; apply H1; reflexivity.
Defined.

(** ** The lookback selector and the command line *)

(** X16.  The lookback selector is accepted exactly when it is one of
    "1 day", "5 days", "6 months" and "1 year", spelled so; the window then
    starts on 2024-12-30, 2024-12-26, 2024-07-01 and 2024-01-01: a year is
    365 days back from the end of a leap year and does not reach
    2023-12-31. *)
Theorem lookback_selectors (input_timeframe : string) (timeframe : Z) :
  dict_timeframes input_timeframe = Some timeframe
  <-> (input_timeframe = "1 day" /\ timeframe = 1 /\
       beginning_date timeframe = ymd 2024 12 30) \/
      (input_timeframe = "5 days" /\ timeframe = 5 /\
       beginning_date timeframe = ymd 2024 12 26) \/
      (input_timeframe = "6 months" /\ timeframe = 183 /\
       beginning_date timeframe = ymd 2024 7 1) \/
      (input_timeframe = "1 year" /\ timeframe = 365 /\
       beginning_date timeframe = ymd 2024 1 1).
Proof.
  unfold dict_timeframes. split.
  - destruct (String.eqb_spec input_timeframe "1 day") as [-> | _].
    { intro H. inversion H. left. repeat split. }
    destruct (String.eqb_spec input_timeframe "5 days") as [-> | _].
    { intro H. inversion H. right. left. repeat split. }
    destruct (String.eqb_spec input_timeframe "6 months") as [-> | _].
    { intro H. inversion H. right. right. left. repeat split. }
    destruct (String.eqb_spec input_timeframe "1 year") as [-> | _].
    { intro H. inversion H. right. right. right. repeat split. }
    discriminate.
  - intros [[-> [-> _]] | [[-> [-> _]] | [[-> [-> _]] | [-> [-> _]]]]]; reflexivity.
Qed.

Lemma script_prints_main (argv : list string) (columns : list string)
    (rows : list PriceRow) (changes : list Change.t) (splits : list Split.t)
    (order : bool) (input_ticker input_timeframe : string) (tf : Z) (r : fnum) :
  load_prices (Some (columns, rows)) = inr (transform_prices_to_DataFrame rows) ->
  nth_error argv 1 = Some input_ticker ->
  nth_error argv 2 = Some input_timeframe ->
  (script argv (Some (columns, rows)) (Some changes) (Some splits) order = Printed tf r
   <-> dict_timeframes input_timeframe = Some tf /\
       main input_ticker input_timeframe rows changes splits order = Ok r).
Proof.
  intros Hl H1 H2. unfold script, main. rewrite Hl, H1, H2.
  assert (Hlen : (List.length argv <? 2)%nat = false).
  { apply Nat.ltb_ge. destruct argv as [| a [| b argv]]; try discriminate. cbn. lia. }
  rewrite Hlen.
  destruct (negb (has_column _ input_ticker)).
  - split; [discriminate | intros [_ H]; discriminate].
  - destruct (dict_timeframes input_timeframe) as [tf' |].
    + destruct (returns_from _ input_ticker tf' changes splits order) as [x | e].
      * split; [intro H; inversion H; split; reflexivity |].
        intros [E1 E2]. inversion E1. inversion E2. reflexivity.
      * split; [discriminate | intros [_ H]; discriminate].
    + split; [discriminate | intros [H _]; discriminate].
Qed.

(** X17.  The script prints a return only in this case: the three files
    can be read, the header of the price file has the three expected names,
    each once, the command line has at least two arguments after the
    script's name, and the pipeline on the first two of them succeeds; what
    it prints is the looked-up number of days and the return of the
    pipeline.  Further arguments are ignored. *)
Theorem script_prints_iff (argv : list string) (prices : option (csv PriceRow))
    (ticker_changes : option (list Change.t)) (splits : option (list Split.t))
    (order : bool) (tf : Z) (r : fnum) :
  script argv prices ticker_changes splits order = Printed tf r
  <-> exists columns rows changes df_splits input_ticker input_timeframe,
        prices = Some (columns, rows) /\
        ticker_changes = Some changes /\ splits = Some df_splits /\
        NoDup columns /\
        (forall h, In h columns <-> In h df_headers_expected) /\
        nth_error argv 1 = Some input_ticker /\
        nth_error argv 2 = Some input_timeframe /\
        dict_timeframes input_timeframe = Some tf /\
        main input_ticker input_timeframe rows changes df_splits order = Ok r.
Proof.
  split.
  - intro H. unfold script in H.
    destruct (load_prices prices) as [f | df] eqn:Hl; [discriminate |].
    destruct prices as [[columns rows] |]; [| discriminate].
    assert (Hdf : df = transform_prices_to_DataFrame rows).
    { unfold load_prices in Hl. destruct columns as [| h0 columns]; [discriminate |].
      cbv zeta in Hl. destruct (validate_headers _); [discriminate |].
      destruct (forallb _ df_headers_expected); [| discriminate].
      inversion Hl. reflexivity. }
    subst df.
    destruct (List.length argv <? 2)%nat; [discriminate |].
    destruct (nth_error argv 1) as [input_ticker |] eqn:H1; [| discriminate].
    destruct (nth_error argv 2) as [input_timeframe |] eqn:H2; [| discriminate].
    destruct (negb (has_column _ input_ticker)) eqn:Hc; [discriminate |].
    destruct (dict_timeframes input_timeframe) as [tf' |] eqn:Ht; [| discriminate].
    destruct ticker_changes as [changes |]; [| discriminate].
    destruct splits as [df_splits |]; [| discriminate].
    destruct (returns_from _ input_ticker tf' changes df_splits order) as [x | e] eqn:Hr;
      [| discriminate].
    inversion H; subst tf' x.
    exists columns, rows, changes, df_splits, input_ticker, input_timeframe.
    split; [reflexivity |]. split; [reflexivity |]. split; [reflexivity |].
    pose proof (proj1 (proj1 (price_file_columns_aux columns rows)) Hl) as [Hnd [Ha Hb]].
    split; [exact Hnd |].
    split; [intro h; split; [apply Ha | apply Hb] |].
    split; [reflexivity |]. split; [reflexivity |]. split; [exact Ht |].
    unfold main. rewrite Hc, Ht. exact Hr.
  - intros [columns [rows [changes [df_splits [input_ticker [input_timeframe
             [-> [-> [-> [Hnd [Hcols [H1 [H2 [Ht Hm]]]]]]]]]]]]]].
    apply (script_prints_main argv columns rows changes df_splits order
             input_ticker input_timeframe tf r).
    + apply (proj1 (price_file_columns_aux columns rows)).
      split; [exact Hnd |]. split; intros h Hh; apply Hcols; exact Hh.
    + exact H1.
    + exact H2.
    + split; assumption.
Qed.

Lemma script_with_one_argument :
  script ["main.py"; "FB"] (Some (df_headers_expected, Sample.fb_rows))
         (Some Sample.fb_changes_monday) (Some []) true
  = Failed IndexError_argv /\
  script ["main.py"] (Some (df_headers_expected, Sample.fb_rows))
         (Some Sample.fb_changes_monday) (Some []) true
  = Failed ValueError_missing_arguments /\
  script ["main.py"; "FB"; "5 days"; "more"] (Some (df_headers_expected, Sample.fb_rows))
         (Some Sample.fb_changes_monday) (Some []) true
  = Printed 5 (dbl (392 # 100)).
Proof.
  split; [reflexivity |]. split; [reflexivity |].
  vm_compute. apply (f_equal (Printed 5)). qc_eq.
Qed.

(** ** A window across a split *)

Lemma iloc_last_app (w : Series) (d : date) (p : fnum) :
  iloc_last (w ++ [(d, p)])%list = Ok p.
Proof.
  induction w as [| [d' p'] w IH]; [reflexivity |].
  cbn [app]. destruct (w ++ [(d, p)])%list as [| x l] eqn:E.
  - destruct w; discriminate.
  - rewrite iloc_last_cons. exact IH.
Qed.

(** X18.  When the first date of the window is before the effective date
    of the applied split and its last date is on or after it, the return
    compares the unchanged first price with the last price multiplied by
    the split ratio, each operation in float64: 800 followed by 401.5
    after a 2-for-1 split gives 0.37, where the exact quotient would give
    0.38. *)
Theorem straddling_window_return (df_splits : list Split.t) (t : string) (r : Split.t)
    (s : Series) (start : date) (d0 d1 : date) (t0 t1 : fnum) (mid : Series) :
  first_split df_splits t = Some r ->
  slice_from s start = ((d0, t0) :: mid ++ [(d1, t1)])%list ->
  d0 < Split.effective_date r <= d1 ->
  exists s',
    split_step df_splits s t = Ok s' /\
    compute_return_of s' start
    = Ok (round2 (fmul (fsub (fdiv (fmul t1 (split_ratio r)) t0) (price 1)) (price 100))).
Proof.
  intros Hr Hw [H0 H1]. exists (apply_split r s).
  rewrite split_step_first, Hr. split; [reflexivity |].
  unfold compute_return_of, apply_split. rewrite slice_from_where, Hw.
  unfold where_on_or_after. cbn [map fst snd]. rewrite map_app. cbn [map fst snd].
  destruct (Z.leb_spec (Split.effective_date r) d0) as [Hle | _]; [lia |].
  destruct (Z.leb_spec (Split.effective_date r) d1) as [_ | Hlt]; [| lia].
  rewrite app_comm_cons. rewrite iloc_last_app. reflexivity.
Qed.

Lemma straddling_window_return_witness :
  (exists s',
     split_step [Sample.xyz_split] Sample.xyz_series "XYZ" = Ok s' /\
     compute_return_of s' Sample.feb28 = Ok (price 4)) /\
  (exists s',
     split_step [Sample.xyz_split] More.halved_series "XYZ" = Ok s' /\
     compute_return_of s' Sample.feb28 = Ok (dbl (37 # 100))).
Proof.
  split.
  - destruct (straddling_window_return [Sample.xyz_split] "XYZ" Sample.xyz_split
                Sample.xyz_series Sample.feb28 Sample.feb28 Sample.mar1
                (price 50) (price 26) [] eq_refl eq_refl)
      as [s' [Hs Hr]].
    + vm_compute. split; [reflexivity | discriminate].
    + exists s'. split; [exact Hs |]. rewrite Hr. vm_compute. qc_eq.
  - destruct (straddling_window_return [Sample.xyz_split] "XYZ" Sample.xyz_split
                More.halved_series Sample.feb28 Sample.feb28 Sample.mar1
                (price 800) (Fin (Q2Qc (803 # 2))) [] eq_refl eq_refl)
      as [s' [Hs Hr]].
    + vm_compute. split; [reflexivity | discriminate].
    + exists s'. split; [exact Hs |]. rewrite Hr. vm_compute. qc_eq.
Defined.

(** ** Closes of other tickers *)

Lemma index_of_dates (prices : list PriceRow) (acc : list date) :
  fold_left (fun idx r => insert_date (row_date r) idx) prices acc
  = fold_left (fun idx d => insert_date d idx) (map row_date prices) acc.
Proof.
  revert acc. induction prices as [| r rows IH]; intro acc; [reflexivity |].
  cbn [fold_left map]. apply IH.
Qed.

Lemma columns_of_tickers (prices : list PriceRow) (acc : list string) :
  fold_left (fun cols r => insert_ticker (row_ticker r) cols) prices acc
  = fold_left (fun cols t => insert_ticker t cols) (map row_ticker prices) acc.
Proof.
  revert acc. induction prices as [| r rows IH]; intro acc; [reflexivity |].
  cbn [fold_left map]. apply IH.
Qed.

Lemma mean_of_closes (l l' : list PriceRow) :
  map close_price l = map close_price l' -> mean_of l = mean_of l'.
Proof.
  intro H. assert (HL : List.length l = List.length l').
  { rewrite <- (length_map close_price l), H. apply length_map. }
  assert (HS : forall a, fold_left (fun acc r => (acc + close_price r)%Qc) l a
                         = fold_left (fun acc r => (acc + close_price r)%Qc) l' a).
  { clear HL. revert l' H. induction l as [| r l IH]; intros l' H a;
      destruct l' as [| r' l']; try discriminate; [reflexivity |].
    cbn [map] in H. inversion H as [[E1 E2]]. cbn [fold_left]. rewrite E1. apply IH. exact E2. }
  unfold mean_of, sum_close. destruct l as [| r l], l' as [| r' l']; try discriminate.
  - reflexivity.
  - rewrite HL, HS. reflexivity.
Qed.

Lemma rows_of_same_for_chain (o n : string) (prices prices' : list PriceRow)
    (d : date) (t : string) :
  Forall2 (same_for_chain o n) prices prices' -> t = o \/ t = n ->
  map close_price (rows_of d t prices) = map close_price (rows_of d t prices').
Proof.
  intros H Ht. induction H as [| r r' l l' [Hd [Hk Hc]] _ IH]; [reflexivity |].
  unfold rows_of in *. cbn [filter]. rewrite <- Hd, <- Hk.
  destruct (key_eqb (row_date r, row_ticker r) (d, t)) eqn:E; [| exact IH].
  cbn [map]. f_equal; [| exact IH]. apply Hc.
  apply key_eqb_eq in E. inversion E; subst. exact Ht.
Qed.

Lemma getitem_ext_at (df df' : DataFrame) (t : string) :
  df_index df = df_index df' ->
  has_column df t = has_column df' t ->
  (forall d, cell df d t = cell df' d t) ->
  getitem df t = getitem df' t.
Proof.
  intros Hi Hc Hv. unfold getitem. rewrite <- Hc, <- Hi.
  destruct (has_column df t); [| reflexivity].
  f_equal. apply map_ext. intro d. f_equal. apply Hv.
Qed.

(** X19.  The close prices of tickers outside the resolved chain never
    reach the result: two price files that agree row by row on date and
    ticker, and on the close wherever the ticker is one of the chain,
    give the same outcome.  (The dates of the other tickers' rows do
    count, since they are dates of the table.) *)
Theorem closes_of_other_tickers_do_not_count (q tfs : string)
    (prices prices' : list PriceRow) (changes : list Change.t)
    (splits : list Split.t) (order : bool) (id : identity) :
  resolve q changes = Ok id ->
  Forall2 (same_for_chain (fst (chain id)) (snd (chain id))) prices prices' ->
  main q tfs prices changes splits order = main q tfs prices' changes splits order.
Proof.
  intros Hid HF.
  assert (Hd : map row_date prices = map row_date prices').
  { induction HF as [| r r' l l' [E _] _ IH]; [reflexivity |].
    cbn [map]. rewrite E, IH. reflexivity. }
  assert (Hk : map row_ticker prices = map row_ticker prices').
  { clear Hd. induction HF as [| r r' l l' [_ [E _]] _ IH]; [reflexivity |].
    cbn [map]. rewrite E, IH. reflexivity. }
  assert (Hi : df_index (working_table prices) = df_index (working_table prices')).
  { unfold working_table. cbn [df_slice_to df_index transform_prices_to_DataFrame].
    rewrite !index_of_dates, Hd. reflexivity. }
  assert (Hc : forall t, has_column (working_table prices) t
                         = has_column (working_table prices') t).
  { intro t. unfold has_column, working_table.
    cbn [df_slice_to df_columns transform_prices_to_DataFrame].
    rewrite !columns_of_tickers, Hk. reflexivity. }
  assert (Hg : forall t, t = fst (chain id) \/ t = snd (chain id) ->
                         getitem (working_table prices) t
                         = getitem (working_table prices') t).
  { intros t Ht. apply getitem_ext_at; [exact Hi | apply Hc |].
    intro d. unfold working_table, cell. cbn [df_slice_to df_cells].
    change (cell (transform_prices_to_DataFrame prices) d t
            = cell (transform_prices_to_DataFrame prices') d t).
    rewrite !cell_of_rows. apply mean_of_closes.
    eapply rows_of_same_for_chain; eassumption. }
  assert (Hs : stitched (working_table prices) id = stitched (working_table prices') id).
  { destruct id as [t | o n e | o n e]; cbn [stitched chain fst snd] in *.
    - apply Hg. left. reflexivity.
    - unfold combine_changed_tickers.
      rewrite (Hg o (or_introl eq_refl)), (Hg n (or_intror eq_refl)). reflexivity.
    - unfold combine_changed_tickers.
      rewrite (Hg o (or_introl eq_refl)), (Hg n (or_intror eq_refl)). reflexivity. }
  unfold main, returns_from, account_for_ticker_changes.
  fold (working_table prices). fold (working_table prices').
  rewrite Hc, Hid. cbn [bind]. rewrite Hs. reflexivity.
Qed.

Lemma closes_of_other_tickers_do_not_count_witness :
  main "FB" "5 days" More.rows_with_other Sample.fb_changes_monday [] true
  = main "FB" "5 days" More.rows_with_other_changed Sample.fb_changes_monday [] true.
Proof.
  apply (closes_of_other_tickers_do_not_count "FB" "5 days" More.rows_with_other
           More.rows_with_other_changed Sample.fb_changes_monday [] true
           (RenamedForward "FB" "META" Sample.dec30) eq_refl).
  repeat constructor; cbn; intros [H | H]; discriminate.
Defined.

(** The dates of another ticker's rows do count: one more date in the
    window, where FB has no price, turns 3.92 into nan. *)
Lemma a_date_of_another_ticker_changes_the_window :
  main "META" "5 days" Sample.fb_rows Sample.fb_changes_monday [] true
  = Ok (dbl (392 # 100)) /\
  main "META" "5 days"
       (mkPriceRow (ymd 2024 12 26) "XYZ" (qc_of_Z 26) :: Sample.fb_rows)
       Sample.fb_changes_monday [] true
  = Ok NaN.
Proof. split; [vm_compute; qc_eq | reflexivity]. Qed.
